(** * ember-file-drop-target: hover counting and drop handling

    A shallow embedding of the two variants of the [file-drop-target]
    component and of the jQuery operations they are written with:

    - [Component]: the component with the [isDragging], [isDraggingOver],
      [isDropped] and [isEmpty] properties, bound to the application's
      [rootElement];
    - [Addon]: [addon/components/file-drop-target.js], bound to [body],
      which marks elements with the class [file-drop-target-drag-over].

    DOM elements are identified by their position in the document tree
    (the list of child indexes leading to them from the document element),
    so that the ancestors of an element are the proper prefixes of its
    position and document order is the lexicographic order.  The payload
    [e.dataTransfer.files] is a [FileList] when the browser makes the
    event and an array when a caller makes it; [slice] and [filter] are
    methods of arrays only, and a call of a method that the payload does
    not have ends the handler with a [TypeError]. *)

From Stdlib Require Import ZArith Ascii String List Bool Lia Sorted.
From stdpp Require Import base gmap strings list.

Local Open Scope string_scope.
Local Open Scope list_scope.
Local Open Scope Z_scope.

(** ** JavaScript values read through [get] for truthiness *)

Module JS.

Inductive value :=
| undefined
| null
| boolean (b : bool)
| number (z : Z)
| str (s : string)
| object.

(** ToBoolean *)
Definition truthy (v : value) : bool :=
  match v with
  | undefined | null => false
  | boolean b => b
  | number z => negb (z =? 0)
  | str s => negb (String.eqb s "")
  | object => true
  end.

(** [a || b] evaluates to [a] when [a] is truthy and to [b] otherwise. *)
Definition or (a b : value) : value := if truthy a then a else b.

(** [!a] *)
Definition not (a : value) : bool := negb (truthy a).

End JS.

(** ** Files, events and DOM positions *)

Module File.
Record t := { name : string; type : string }.
End File.

(** [e.dataTransfer.files]: the [FileList] of a drop made by the browser,
    or the array of an event that a caller has made.  Both have [length]
    and indexes, and [Array.prototype.filter.call] takes both. *)
Module Files.

Inductive t :=
| FileList (fs : list File.t)
| Array (fs : list File.t).

Definition items (files : t) : list File.t :=
  match files with
  | FileList fs | Array fs => fs
  end.

Definition length (files : t) : nat := List.length (items files).

(** [files.slice(0, 1)]: [None] where [slice] is undefined. *)
Definition slice_0_1 (files : t) : option t :=
  match files with
  | FileList _ => None
  | Array fs => Some (Array (take 1 fs))
  end.

(** [[ files[0] ]], of a payload that has a first file: [drop] builds
    it of payloads of two files or more. *)
Definition first (files : t) : t := Array (option_list (head (items files))).

(** The receiver of [files.filter(...)] and [files.forEach(...)]: [None]
    where these methods are undefined. *)
Definition array (files : t) : option (list File.t) :=
  match files with
  | FileList _ => None
  | Array fs => Some fs
  end.

End Files.

(** How the call of a handler ends. *)
Inductive completion :=
| returns
| throws (error : string).

Abbreviation elem := (list nat).

Module Event.

Inductive kind := dragstart | dragenter | dragleave | dragover | drop.

#[global] Instance kind_eq_dec : EqDecision kind.
Proof. solve_decision. Defined.

(** [payload] ([dataTransfer.files]) and [dropEffect] are the two fields
    of [dataTransfer] in use. *)
Record t := {
  type : kind;
  target : elem;
  payload : Files.t;
  dropEffect : string;
  defaultPrevented : bool
}.

(** The files of the payload, in its order. *)
Definition files (e : t) : list File.t := Files.items (payload e).

Definition preventDefault (e : t) : t :=
  {| type := type e; target := target e; payload := payload e;
     dropEffect := dropEffect e; defaultPrevented := true |}.

Definition set_dropEffect (s : string) (e : t) : t :=
  {| type := type e; target := target e; payload := payload e;
     dropEffect := s; defaultPrevented := defaultPrevented e |}.

(** An event as the browser makes it: the files come in a [FileList]. *)
Definition make (k : kind) (x : elem) (fs : list File.t) : t :=
  {| type := k; target := x; payload := Files.FileList fs; dropEffect := "";
     defaultPrevented := false |}.

(** An event made by a caller, who passes the files in an array. *)
Definition make_array (k : kind) (x : elem) (fs : list File.t) : t :=
  {| type := k; target := x; payload := Files.Array fs; dropEffect := "";
     defaultPrevented := false |}.

End Event.

(** ** jQuery traversal *)

Module JQuery.

Definition parentNode (x : elem) : option elem :=
  match x with
  | [] => None
  | _ :: _ => Some (removelast x)
  end.

Fixpoint parents_from (n : nat) (x : elem) : list elem :=
  match n with
  | O => []
  | S n' =>
      match parentNode x with
      | None => []
      | Some y => y :: parents_from n' y
      end
  end.

(** [.parents()]: the ancestors, the closest one first. *)
Definition parents (x : elem) : list elem := parents_from (length x) x.

(** Document order: an ancestor comes before its descendants, an earlier
    sibling's subtree before a later sibling's. *)
Fixpoint doc_compare (x y : elem) : comparison :=
  match x, y with
  | [], [] => Eq
  | [], _ :: _ => Lt
  | _ :: _, [] => Gt
  | i :: x', j :: y' =>
      match Nat.compare i j with
      | Eq => doc_compare x' y'
      | c => c
      end
  end.

Fixpoint doc_insert (x : elem) (l : list elem) : list elem :=
  match l with
  | [] => [x]
  | y :: l' =>
      match doc_compare x y with
      | Lt => x :: l
      | Eq => l
      | Gt => y :: doc_insert x l'
      end
  end.

Definition doc_lt (x y : elem) : Prop := doc_compare x y = Lt.

(** [jQuery.uniqueSort]: document order, duplicates removed. *)
Definition uniqueSort (l : list elem) : list elem := foldr doc_insert [] l.

(** [.addBack()] and [.add(x)] merge two sets and sort the result. *)
Definition add (l more : list elem) : list elem := uniqueSort (l ++ more).

Definition addBack (cur prev : list elem) : list elem := add cur prev.

End JQuery.

(** Callbacks made to the consumer of a component, in the order made. *)
Inductive Call :=
| invalidFileType_called (self : elem) (file : File.t)
| fileDropped_called (self : elem) (file : File.t).

(** ** The component with hover flags *)

Module Component.

Record Component := {
  allowMultiple : bool;
  (** [allowedTypes s] holds when [s.match(allowedTypes)] is not null. *)
  allowedTypes : string -> bool;
  isLoading : JS.value;
  isLoaded : JS.value;
  isDragging : bool;
  isDraggingOver : bool;
  isDropped : bool;
  file : option File.t;
  files : option (list File.t);
  (** whether the consumer defined the hooks [invalidFileType] and
      [fileDropped] *)
  invalidFileType : bool;
  fileDropped : bool
}.

Definition set_isDragging (b : bool) (c : Component) : Component :=
  {| allowMultiple := allowMultiple c; allowedTypes := allowedTypes c;
     isLoading := isLoading c; isLoaded := isLoaded c;
     isDragging := b; isDraggingOver := isDraggingOver c;
     isDropped := isDropped c; file := file c; files := files c;
     invalidFileType := invalidFileType c; fileDropped := fileDropped c |}.

Definition set_isDraggingOver (b : bool) (c : Component) : Component :=
  {| allowMultiple := allowMultiple c; allowedTypes := allowedTypes c;
     isLoading := isLoading c; isLoaded := isLoaded c;
     isDragging := isDragging c; isDraggingOver := b;
     isDropped := isDropped c; file := file c; files := files c;
     invalidFileType := invalidFileType c; fileDropped := fileDropped c |}.

Definition set_isDropped (b : bool) (c : Component) : Component :=
  {| allowMultiple := allowMultiple c; allowedTypes := allowedTypes c;
     isLoading := isLoading c; isLoaded := isLoaded c;
     isDragging := isDragging c; isDraggingOver := isDraggingOver c;
     isDropped := b; file := file c; files := files c;
     invalidFileType := invalidFileType c; fileDropped := fileDropped c |}.

Definition set_file (f : option File.t) (c : Component) : Component :=
  {| allowMultiple := allowMultiple c; allowedTypes := allowedTypes c;
     isLoading := isLoading c; isLoaded := isLoaded c;
     isDragging := isDragging c; isDraggingOver := isDraggingOver c;
     isDropped := isDropped c; file := f; files := files c;
     invalidFileType := invalidFileType c; fileDropped := fileDropped c |}.

Definition set_files (fs : list File.t) (c : Component) : Component :=
  {| allowMultiple := allowMultiple c; allowedTypes := allowedTypes c;
     isLoading := isLoading c; isLoaded := isLoaded c;
     isDragging := isDragging c; isDraggingOver := isDraggingOver c;
     isDropped := isDropped c; file := file c; files := Some fs;
     invalidFileType := invalidFileType c; fileDropped := fileDropped c |}.

(** [isEmpty]: [!(get(this, 'isLoading') || get(this, 'isLoaded'))] *)
Definition isEmpty (c : Component) : bool :=
  JS.not (JS.or (isLoading c) (isLoaded c)).

(** The page: the rendered components by their element, the handlers
    bound on [$root] (event type and namespace, in binding order), the
    jQuery data of the elements, their classes, and the calls made to
    consumers so far. *)
Record Page := {
  rootElement : elem;
  components : gmap elem Component;
  listeners : list (Event.kind * elem);
  data : gmap (elem * string) Z;
  classes : gset (elem * string);
  calls : list Call
}.

Definition set_components (m : gmap elem Component) (p : Page) : Page :=
  {| rootElement := rootElement p; components := m;
     listeners := listeners p; data := data p; classes := classes p;
     calls := calls p |}.

Definition set_listeners (l : list (Event.kind * elem)) (p : Page) : Page :=
  {| rootElement := rootElement p; components := components p;
     listeners := l; data := data p; classes := classes p;
     calls := calls p |}.

Definition set_data (d : gmap (elem * string) Z) (p : Page) : Page :=
  {| rootElement := rootElement p; components := components p;
     listeners := listeners p; data := d; classes := classes p;
     calls := calls p |}.

Definition set_classes (s : gset (elem * string)) (p : Page) : Page :=
  {| rootElement := rootElement p; components := components p;
     listeners := listeners p; data := data p; classes := s;
     calls := calls p |}.

Definition call (c : Call) (p : Page) : Page :=
  {| rootElement := rootElement p; components := components p;
     listeners := listeners p; data := data p; classes := classes p;
     calls := calls p ++ [c] |}.

Definition hasClass (x : elem) (cls : string) (p : Page) : bool :=
  bool_decide ((x, cls) ∈ classes p).

Definition addClass (x : elem) (cls : string) (p : Page) : Page :=
  set_classes ({[ (x, cls) ]} ∪ classes p) p.

Definition removeClass (x : elem) (cls : string) (p : Page) : Page :=
  set_classes (classes p ∖ {[ (x, cls) ]}) p.

(** [Ember.set(this, ...)] on the component rendered at [self]. *)
Definition update (self : elem) (f : Component -> Component) (p : Page) : Page :=
  set_components (alter f self (components p)) p.

(** The hover counter of [x]: [$(x).data('dragcount') || 0]. *)
Definition dragcount (p : Page) (x : elem) : Z :=
  default 0 (data p !! (x, "dragcount")).

Definition setupEventListeners (self : elem) (p : Page) : Page :=
  set_listeners
    (listeners p ++ [(Event.dragenter, self); (Event.dragleave, self)]) p.

(** [$root.off('dragenter.id')]: every handler of that type and namespace. *)
Definition off (k : Event.kind) (ns : elem) (p : Page) : Page :=
  set_listeners
    (filter (λ l, ¬ (l.1 = k ∧ l.2 = ns)) (listeners p)) p.

Definition teardownEventListeners (self : elem) (p : Page) : Page :=
  off Event.dragleave self (off Event.dragenter self p).

Definition didDragOver (self : elem) (p : Page) : Page :=
  update self (set_isDraggingOver true) p.

Definition didDragOff (self : elem) (p : Page) : Page :=
  update self (set_isDraggingOver false) p.

Definition didDragOverRoot (self : elem) (p : Page) : Page :=
  addClass (rootElement p) "file-drop-target-drag-over"
    (update self (set_isDragging true) p).

Definition didDragOffRoot (self : elem) (p : Page) : Page :=
  removeClass (rootElement p) "file-drop-target-drag-over"
    (update self (set_isDragging false) p).

(** The elements [calculateDropCount] visits for an event on [x]:
    [$(x).parents().addBack().filter('.file-drop-target').add($root)]. *)
Definition visited (p : Page) (x : elem) : list elem :=
  JQuery.add
    (List.filter (λ y, hasClass y "file-drop-target" p)
       (JQuery.addBack (JQuery.parents x) [x]))
    [rootElement p].

(** The body of the [.each] callback, for the element [this]. *)
Definition count_element (self : elem) (k : Event.kind) (p : Page) (this : elem)
  : Page :=
  let offset := if bool_decide (k = Event.dragenter) then 1 else -1 in
  let dragCount := dragcount p this + offset in
  let p := set_data (<[(this, "dragcount") := dragCount]> (data p)) p in
  let isRoot := bool_decide (this = rootElement p) in
  if 0 <? dragCount
  then (if isRoot then didDragOverRoot self p else didDragOver self p)
  else (if isRoot then didDragOffRoot self p else didDragOff self p).

Definition calculateDropCount (self : elem) (e : Event.t) (p : Page)
  : Event.t * Page :=
  (Event.preventDefault e,
   foldl (count_element self (Event.type e)) p (visited p (Event.target e))).

(** The browser fires [e]; it bubbles from its target to the document
    element, and jQuery runs the handlers bound on [$root] for its type,
    in binding order, when [$root] is on the way. *)
Definition bubbles_through (x : elem) (e : Event.t) : bool :=
  bool_decide (x ∈ JQuery.addBack (JQuery.parents (Event.target e)) [Event.target e]).

Definition trigger (e : Event.t) (p : Page) : Event.t * Page :=
  if bubbles_through (rootElement p) e then
    foldl (λ st l,
             if bool_decide (l.1 = Event.type e)
             then calculateDropCount l.2 st.1 st.2
             else st)
          (e, p) (listeners p)
  else (e, p).

(** A sequence of events, each with its target. *)
Definition run (evs : list (Event.kind * elem)) (p : Page) : Page :=
  foldl (λ p ev, (trigger (Event.make ev.1 ev.2 []) p).2) p evs.

(** The offset of an event of type [k], and the number of handlers
    bound on [$root] for that type. *)
Definition offset (k : Event.kind) : Z :=
  if bool_decide (k = Event.dragenter) then 1 else -1.

Definition bound (k : Event.kind) (p : Page) : nat :=
  length (filter (λ l, l.1 = k) (listeners p)).

(** What an event of type [ev.1] on [ev.2] adds to the counter of [x]. *)
Definition effect (p : Page) (x : elem) (ev : Event.kind * elem) : Z :=
  if bubbles_through (rootElement p) (Event.make ev.1 ev.2 [])
     && bool_decide (x ∈ visited p ev.2)
  then offset ev.1 * Z.of_nat (bound ev.1 p)
  else 0.

Definition getDropEffect (self : elem) (p : Page) : string :=
  let dropEffect := "none" in
  match data p !! (self, "dropcount") with
  | Some n => if 0 <? n then "copy" else dropEffect
  | None => dropEffect
  end.

Definition dragOver (self : elem) (e : Event.t) (p : Page) : Event.t * Page :=
  (Event.preventDefault e, p).

Definition dragEnter (self : elem) (e : Event.t) (p : Page) : Event.t * Page :=
  (Event.preventDefault e, p).

(** [.removeData(key)] on [$('.file-drop-target').add(rootElement)] *)
Definition removeData_targets (key : string) (p : Page) : Page :=
  set_data
    (filter (λ kv, ¬ (kv.1.2 = key ∧
                      ((kv.1.1, "file-drop-target") ∈ classes p
                       ∨ kv.1.1 = rootElement p)))
            (data p)) p.

(** The elements that can carry a counter: the drop targets and the
    root. *)
Definition tracked (p : Page) (x : elem) : Prop :=
  hasClass x "file-drop-target" p = true ∨ x = rootElement p.

(** The first statements of [drop], under "Clean up drag counters". *)
Definition cleanUpDragCounters (self : elem) (p : Page) : Page :=
  let p := didDragOff self p in
  let p := didDragOffRoot self p in
  removeData_targets "dragcount" p.

(** The page with the calls [cs] made after those made so far. *)
Definition add_calls (cs : list Call) (p : Page) : Page :=
  {| rootElement := rootElement p; components := components p;
     listeners := listeners p; data := data p; classes := classes p;
     calls := calls p ++ cs |}.

(** The files [drop] goes on with, of those dropped on a component. *)
Definition retained (c : Component) (fs : list File.t) : list File.t :=
  if (1 <? length fs)%nat && negb (allowMultiple c) then take 1 fs else fs.

Definition accepted (c : Component) (fs : list File.t) : list File.t :=
  List.filter (λ f, allowedTypes c (File.type f)) fs.

Definition rejected (c : Component) (fs : list File.t) : list File.t :=
  List.filter (λ f, negb (allowedTypes c (File.type f))) fs.

Definition fileWasDropped (self : elem) (p : Page) (f : File.t) : Page :=
  match components p !! self with
  | Some c => if fileDropped c then call (fileDropped_called self f) p else p
  | None => p
  end.

(** [Array.prototype.filter.call(files, ...)] with the callback of [drop]:
    the files kept, and the page after the calls the callback made. *)
Fixpoint filter_allowed (self : elem) (allowed : string -> bool)
    (fs : list File.t) (p : Page) : list File.t * Page :=
  match fs with
  | [] => ([], p)
  | f :: fs' =>
      let isAllowed := allowed (File.type f) in
      let notify :=
        match components p !! self with
        | Some c => invalidFileType c
        | None => false
        end in
      let p := if negb isAllowed && notify
               then call (invalidFileType_called self f) p else p in
      let r := filter_allowed self allowed fs' p in
      (if isAllowed then f :: r.1 else r.1, r.2)
  end.

(** The call of [drop] on the component rendered at [self]: how it ends,
    and the event and the page it leaves.  Where no component is rendered
    there is no handler to run. *)
Definition dropping (self : elem) (e : Event.t) (p : Page)
    : completion * (Event.t * Page) :=
  match components p !! self with
  | None => (returns, (e, p))
  | Some c =>
      let allowMultiple := allowMultiple c in
      let allowedTypes := allowedTypes c in
      let e := Event.preventDefault e in
      let p := cleanUpDragCounters self p in
      let files := Event.payload e in
      if (Files.length files =? 0)%nat then (returns, (e, p))
      else
        match (if (1 <? Files.length files)%nat && negb allowMultiple
               then Files.slice_0_1 files else Some files) with
        | None => (throws "TypeError: files.slice is not a function", (e, p))
        | Some files =>
            let r := filter_allowed self allowedTypes (Files.items files) p in
            let files := r.1 in
            let p := update self (set_isDropped true) r.2 in
            let p := foldl (fileWasDropped self) p files in
            if allowMultiple
            then (returns, (e, update self (set_files files) p))
            else (returns, (e, update self (set_file (head files)) p))
        end
  end.

(** The event and the page after [drop], whether it returns or throws. *)
Definition drop (self : elem) (e : Event.t) (p : Page) : Event.t * Page :=
  (dropping self e p).2.

Definition drop_completion (self : elem) (e : Event.t) (p : Page)
    : completion :=
  (dropping self e p).1.

(** A page on which nothing is rendered yet. *)
Definition empty (root : elem) : Page :=
  {| rootElement := root; components := ∅; listeners := []; data := ∅;
     classes := ∅; calls := [] |}.

(** A component as created: the defaults of the class, [allowedTypes]
    and the hooks as the consumer passes them. *)
Definition create (multiple : bool) (types : string -> bool)
    (onInvalid onDropped : bool) : Component :=
  {| allowMultiple := multiple; allowedTypes := types;
     isLoading := JS.undefined; isLoaded := JS.undefined;
     isDragging := false; isDraggingOver := false; isDropped := false;
     file := None; files := None;
     invalidFileType := onInvalid; fileDropped := onDropped |}.

(** Rendering: the element at [self] gets the class of [classNames], then
    the [didInsertElement] hook runs. *)
Definition insertElement (self : elem) (c : Component) (p : Page) : Page :=
  setupEventListeners self
    (addClass self "file-drop-target"
       (set_components (<[self := c]> (components p)) p)).

(** The pages [p'] an event handler can reach from [p]: same root, same
    handlers, same drop targets. *)
Definition same_targets (p p' : Page) : Prop :=
  rootElement p' = rootElement p ∧ listeners p' = listeners p ∧
  ∀ y, hasClass y "file-drop-target" p' = hasClass y "file-drop-target" p.

(** Nothing is ever stored under the key that [getDropEffect] reads. *)
Definition no_dropcount (d : gmap (elem * string) Z) : Prop :=
  ∀ x, d !! (x, "dropcount") = None.

(** Enters count 1 and leaves -1; [net t evs] is the balance of the events
    of [evs] on the target [t]. *)
Definition sign (k : Event.kind) : Z :=
  match k with
  | Event.dragenter => 1
  | Event.dragleave => -1
  | _ => 0
  end.

Definition net (t : elem) (evs : list (Event.kind * elem)) : Z :=
  foldr Z.add 0 ((λ ev, if bool_decide (ev.2 = t) then sign ev.1 else 0) <$> evs).

(** A sequence of enters and leaves with as many enters as leaves on
    every element. *)
Definition balanced (evs : list (Event.kind * elem)) : Prop :=
  Forall (λ ev, ev.1 = Event.dragenter ∨ ev.1 = Event.dragleave) evs ∧
  ∀ t, net t evs = 0.

(** As many handlers for [dragenter] as for [dragleave]. *)
Definition paired (p : Page) : Prop :=
  bound Event.dragenter p = bound Event.dragleave p.

(** The component at [self] is the only drop target of the page and the
    only one with handlers bound. *)
Definition only_component (self : elem) (p : Page) : Prop :=
  self ≠ rootElement p ∧
  (∀ y, hasClass y "file-drop-target" p = true → y = self) ∧
  ∀ l, l ∈ listeners p → l.2 = self.

(** The flags of the component at [self] say whether the counters of the
    root and of its own element are positive. *)
Definition flags_follow_counters (self : elem) (p : Page) : Prop :=
  ∃ c, components p !! self = Some c ∧
       isDragging c = (0 <? dragcount p (rootElement p)) ∧
       isDraggingOver c = (0 <? dragcount p self).

(** The pages that rendering, attaching, detaching and events lead to. *)
Inductive reachable : Page -> Prop :=
| reachable_empty root : reachable (empty root)
| reachable_insertElement self c p :
    reachable p -> reachable (insertElement self c p)
| reachable_setup self p :
    reachable p -> reachable (setupEventListeners self p)
| reachable_teardown self p :
    reachable p -> reachable (teardownEventListeners self p)
| reachable_trigger e p :
    reachable p -> reachable (trigger e p).2
| reachable_dragOver self e p :
    reachable p -> reachable (dragOver self e p).2
| reachable_drop self e p :
    reachable p -> reachable (drop self e p).2.

End Component.

(** ** The addon component, which marks elements with classes *)

Module Addon.

Record Component := {
  allowMultiple : bool;
  allowedTypes : string -> bool;
  file : option File.t;
  files : option (list File.t);
  (** whether the consumer bound the action [invalidFileType] *)
  invalidFileType : bool
}.

Definition set_file (f : option File.t) (c : Component) : Component :=
  {| allowMultiple := allowMultiple c; allowedTypes := allowedTypes c;
     file := f; files := files c; invalidFileType := invalidFileType c |}.

Definition set_files (fs : list File.t) (c : Component) : Component :=
  {| allowMultiple := allowMultiple c; allowedTypes := allowedTypes c;
     file := file c; files := Some fs; invalidFileType := invalidFileType c |}.

Record Page := {
  body : elem;
  components : gmap elem Component;
  listeners : list (Event.kind * elem);
  data : gmap (elem * string) Z;
  classes : gset (elem * string);
  calls : list Call
}.

Definition set_components (m : gmap elem Component) (p : Page) : Page :=
  {| body := body p; components := m; listeners := listeners p;
     data := data p; classes := classes p; calls := calls p |}.

Definition set_listeners (l : list (Event.kind * elem)) (p : Page) : Page :=
  {| body := body p; components := components p; listeners := l;
     data := data p; classes := classes p; calls := calls p |}.

Definition set_data (d : gmap (elem * string) Z) (p : Page) : Page :=
  {| body := body p; components := components p; listeners := listeners p;
     data := d; classes := classes p; calls := calls p |}.

Definition set_classes (s : gset (elem * string)) (p : Page) : Page :=
  {| body := body p; components := components p; listeners := listeners p;
     data := data p; classes := s; calls := calls p |}.

Definition call (c : Call) (p : Page) : Page :=
  {| body := body p; components := components p; listeners := listeners p;
     data := data p; classes := classes p; calls := calls p ++ [c] |}.

Definition hasClass (x : elem) (cls : string) (p : Page) : bool :=
  bool_decide ((x, cls) ∈ classes p).

Definition addClass (x : elem) (cls : string) (p : Page) : Page :=
  set_classes ({[ (x, cls) ]} ∪ classes p) p.

Definition removeClass (x : elem) (cls : string) (p : Page) : Page :=
  set_classes (classes p ∖ {[ (x, cls) ]}) p.

Definition update (self : elem) (f : Component -> Component) (p : Page) : Page :=
  set_components (alter f self (components p)) p.

Definition dragcount (p : Page) (x : elem) : Z :=
  default 0 (data p !! (x, "dragcount")).

Definition setupEventListeners (self : elem) (p : Page) : Page :=
  set_listeners
    (listeners p ++ [(Event.dragstart, self); (Event.dragenter, self);
                     (Event.dragleave, self); (Event.dragover, self)]) p.

Definition off (k : Event.kind) (ns : elem) (p : Page) : Page :=
  set_listeners
    (filter (λ l, ¬ (l.1 = k ∧ l.2 = ns)) (listeners p)) p.

(** No handler is ever bound on the component's own element, so
    [this.$().off(event)] removes nothing. *)
Definition teardownEventListeners (self : elem) (p : Page) : Page :=
  foldl (λ p event, off event self p) p
    [Event.dragenter; Event.dragleave; Event.dragover; Event.drop].

Definition dragStart (p : Page) : Page :=
  addClass (body p) "file-drop-target-dragging" p.

Definition dragOverElement (element : elem) (p : Page) : Page :=
  addClass element "file-drop-target-drag-over" p.

Definition dragOffElement (element : elem) (p : Page) : Page :=
  removeClass element "file-drop-target-drag-over" p.

Definition visited (p : Page) (x : elem) : list elem :=
  JQuery.add
    (List.filter (λ y, hasClass y "file-drop-target" p)
       (JQuery.addBack (JQuery.parents x) [x]))
    [body p].

Definition count_element (k : Event.kind) (p : Page) (this : elem) : Page :=
  let offset := if bool_decide (k = Event.dragenter) then 1 else -1 in
  let dragCount := dragcount p this + offset in
  let p := set_data (<[(this, "dragcount") := dragCount]> (data p)) p in
  if 0 <? dragCount then dragOverElement this p else dragOffElement this p.

Definition calculateDropCount (self : elem) (e : Event.t) (p : Page)
  : Event.t * Page :=
  (Event.preventDefault e,
   foldl (count_element (Event.type e)) p (visited p (Event.target e))).

Definition getDropEffect (self : elem) (p : Page) : string :=
  let dropEffect := "none" in
  match data p !! (self, "dropcount") with
  | Some n => if 0 <? n then "copy" else dropEffect
  | None => dropEffect
  end.

Definition dragOver (self : elem) (e : Event.t) (p : Page) : Event.t * Page :=
  let e := Event.preventDefault e in
  let dropEffect := getDropEffect self p in
  (Event.set_dropEffect dropEffect e, p).

Definition bubbles_through (x : elem) (e : Event.t) : bool :=
  bool_decide (x ∈ JQuery.addBack (JQuery.parents (Event.target e)) [Event.target e]).

(** The handler bound for each event type. *)
Definition handle (k : Event.kind) (self : elem) (e : Event.t) (p : Page)
  : Event.t * Page :=
  match k with
  | Event.dragstart => (e, dragStart p)
  | Event.dragenter | Event.dragleave => calculateDropCount self e p
  | Event.dragover => dragOver self e p
  | Event.drop => (e, p)
  end.

Definition trigger (e : Event.t) (p : Page) : Event.t * Page :=
  if bubbles_through (body p) e then
    foldl (λ st l,
             if bool_decide (l.1 = Event.type e)
             then handle l.1 l.2 st.1 st.2
             else st)
          (e, p) (listeners p)
  else (e, p).

Definition run (evs : list (Event.kind * elem)) (p : Page) : Page :=
  foldl (λ p ev, (trigger (Event.make ev.1 ev.2 []) p).2) p evs.

(** [.removeData(key)] on [this.$().add('body')] *)
Definition removeData_self_body (self : elem) (key : string) (p : Page) : Page :=
  set_data (delete (body p, key) (delete (self, key) (data p))) p.

(** The hook [fileDropped], an empty method unless overridden. *)
Definition fileDropped (self : elem) (p : Page) (f : File.t) : Page :=
  call (fileDropped_called self f) p.

(** [files.filter(...)] with the callback of [drop]. *)
Fixpoint filter_allowed (self : elem) (allowed : string -> bool)
    (fs : list File.t) (p : Page) : list File.t * Page :=
  match fs with
  | [] => ([], p)
  | f :: fs' =>
      let isAllowed := allowed (File.type f) in
      let bound :=
        match components p !! self with
        | Some c => invalidFileType c
        | None => false
        end in
      let p := if negb isAllowed && bound
               then call (invalidFileType_called self f) p else p in
      let r := filter_allowed self allowed fs' p in
      (if isAllowed then f :: r.1 else r.1, r.2)
  end.

(** The call of [drop]: how it ends, and the event and the page it
    leaves. *)
Definition dropping (self : elem) (e : Event.t) (p : Page)
    : completion * (Event.t * Page) :=
  match components p !! self with
  | None => (returns, (e, p))
  | Some c =>
      let allowMultiple := allowMultiple c in
      let allowedTypes := allowedTypes c in
      let e := Event.preventDefault e in
      let p := removeData_self_body self "dragCount" p in
      let files := Event.payload e in
      if (Files.length files =? 0)%nat then (returns, (e, p))
      else
        let files :=
          if (1 <? Files.length files)%nat && negb allowMultiple
          then Files.first files else files in
        match Files.array files with
        | None => (throws "TypeError: files.filter is not a function", (e, p))
        | Some files =>
            let r := filter_allowed self allowedTypes files p in
            let files := r.1 in
            let p := foldl (fileDropped self) r.2 files in
            if allowMultiple
            then (returns, (e, update self (set_files files) p))
            else (returns, (e, update self (set_file (head files)) p))
        end
  end.

(** The event and the page after [drop], whether it returns or throws. *)
Definition drop (self : elem) (e : Event.t) (p : Page) : Event.t * Page :=
  (dropping self e p).2.

Definition drop_completion (self : elem) (e : Event.t) (p : Page)
    : completion :=
  (dropping self e p).1.

Definition empty (b : elem) : Page :=
  {| body := b; components := ∅; listeners := []; data := ∅;
     classes := ∅; calls := [] |}.

Definition create (multiple : bool) (types : string -> bool)
    (onInvalid : bool) : Component :=
  {| allowMultiple := multiple; allowedTypes := types;
     file := None; files := None; invalidFileType := onInvalid |}.

Definition insertElement (self : elem) (c : Component) (p : Page) : Page :=
  setupEventListeners self
    (addClass self "file-drop-target"
       (set_components (<[self := c]> (components p)) p)).

End Addon.

(** ** Pages and payloads used in the examples *)

Module Fixtures.

(** [/^image\//] *)
Definition images (s : string) : bool := String.prefix "image/" s.

(** The default [/.+/]: some character that is not a line terminator. *)
Fixpoint anything (s : string) : bool :=
  match s with
  | EmptyString => false
  | String a s' =>
      if Ascii.eqb a "010"%char || Ascii.eqb a "013"%char
      then anything s' else true
  end.

Definition png : File.t := {| File.name := "a.png"; File.type := "image/png" |}.
Definition txt : File.t := {| File.name := "b.txt"; File.type := "text/plain" |}.
Definition gif : File.t := {| File.name := "c.gif"; File.type := "image/gif" |}.

(** [body] is the second child of the document element; [A] and [B] are
    its first two children, [inner] is the first child of [A]. *)
Definition root : elem := [1]%nat.
Definition A : elem := [1; 0]%nat.
Definition B : elem := [1; 1]%nat.
Definition inner : elem := [1; 0; 0]%nat.

Definition target_of_images (multiple : bool) : Component.Component :=
  Component.create multiple images true true.

Definition one_target (multiple : bool) : Component.Page :=
  Component.insertElement A (target_of_images multiple) (Component.empty root).

Definition two_siblings : Component.Page :=
  Component.insertElement B (Component.create false anything true true)
    (Component.insertElement A (Component.create false anything true true)
       (Component.empty root)).

Definition nested : Component.Page :=
  Component.insertElement inner (Component.create false anything true true)
    (Component.insertElement A (Component.create false anything true true)
       (Component.empty root)).

Definition attached_twice : Component.Page :=
  Component.setupEventListeners A (one_target false).

Definition addon_one_target : Addon.Page :=
  Addon.insertElement A (Addon.create false anything true) (Addon.empty root).

Definition addon_two_siblings : Addon.Page :=
  Addon.insertElement B (Addon.create false anything true)
    (Addon.insertElement A (Addon.create false anything true)
       (Addon.empty root)).

End Fixtures.

(** ** Notions used in the properties of attaching, counting and dropping *)

(** The handlers of type [k] in a list of handlers, and those of them
    bound in the namespace [ns]. *)
Definition bound_in (k : Event.kind) (ls : list (Event.kind * elem)) : nat :=
  length (filter (λ l, l.1 = k) ls).

Definition bound_for (k : Event.kind) (ns : elem)
    (ls : list (Event.kind * elem)) : nat :=
  length (filter (λ l, l.1 = k ∧ l.2 = ns) ls).

(** As many handlers for [dragenter] as for [dragleave], in all and in
    every namespace. *)
Definition evenly_bound (ls : list (Event.kind * elem)) : Prop :=
  bound_in Event.dragenter ls = bound_in Event.dragleave ls ∧
  ∀ ns, bound_for Event.dragenter ns ls = bound_for Event.dragleave ns ls.

(** [ns] has no handler in [ls]. *)
Definition detached (ns : elem) (ls : list (Event.kind * elem)) : Prop :=
  ∀ l, l ∈ ls → l.2 ≠ ns.

(** All that the jQuery data hold are the counters of drop targets and of
    the root. *)
Definition counters_on_targets (p : Component.Page) : Prop :=
  ∀ x key, is_Some (Component.data p !! (x, key)) →
           key = "dragcount" ∧ Component.tracked p x.

(** The pages with the component at [self] alone under the root [r]:
    rendered with its flags down, then any events and drops. *)
Inductive alone (self r : elem) : Component.Page -> Prop :=
| alone_rendered c :
    Component.isDragging c = false -> Component.isDraggingOver c = false ->
    alone self r (Component.insertElement self c (Component.empty r))
| alone_trigger e p :
    alone self r p -> alone self r (Component.trigger e p).2
| alone_dragOver e p :
    alone self r p -> alone self r (Component.dragOver self e p).2
| alone_drop e p :
    alone self r p -> alone self r (Component.drop self e p).2.

(** One thing happening on a page on which the components stay rendered:
    an event, a drop, a [dragover], or handlers attached or detached. *)
Inductive page_step : Component.Page -> Component.Page -> Prop :=
| step_trigger e p : page_step p (Component.trigger e p).2
| step_drop self e p : page_step p (Component.drop self e p).2
| step_dragOver self e p : page_step p (Component.dragOver self e p).2
| step_setup self p : page_step p (Component.setupEventListeners self p)
| step_teardown self p : page_step p (Component.teardownEventListeners self p).

(** The calls a step has added to those made before. *)
Definition calls_since (p p' : Component.Page) : list Call :=
  drop (length (Component.calls p)) (Component.calls p').

(** ** Notions used in the properties of the addon *)

(** The pages of the addon that rendering, attaching, detaching, events
    and drops lead to. *)
Inductive addon_reachable : Addon.Page -> Prop :=
| addon_reachable_empty b : addon_reachable (Addon.empty b)
| addon_reachable_insertElement self c p :
    addon_reachable p -> addon_reachable (Addon.insertElement self c p)
| addon_reachable_setup self p :
    addon_reachable p -> addon_reachable (Addon.setupEventListeners self p)
| addon_reachable_teardown self p :
    addon_reachable p -> addon_reachable (Addon.teardownEventListeners self p)
| addon_reachable_trigger e p :
    addon_reachable p -> addon_reachable (Addon.trigger e p).2
| addon_reachable_drop self e p :
    addon_reachable p -> addon_reachable (Addon.drop self e p).2.

(** An element carries the class [file-drop-target-drag-over] exactly
    when its counter is positive. *)
Definition marks_follow_counters (p : Addon.Page) : Prop :=
  ∀ x, Addon.hasClass x "file-drop-target-drag-over" p
       = (0 <? Addon.dragcount p x).

Definition addon_same_targets (p p' : Addon.Page) : Prop :=
  Addon.body p' = Addon.body p ∧ Addon.listeners p' = Addon.listeners p ∧
  ∀ y, Addon.hasClass y "file-drop-target" p'
       = Addon.hasClass y "file-drop-target" p.

(** Whether the addon counts events of type [k]. *)
Definition counted (k : Event.kind) : bool :=
  bool_decide (k = Event.dragenter) || bool_decide (k = Event.dragleave).

(** What an event of type [ev.1] on [ev.2] adds to the counter of [x] in
    the addon. *)
Definition addon_effect (p : Addon.Page) (x : elem) (ev : Event.kind * elem) : Z :=
  if counted ev.1
     && Addon.bubbles_through (Addon.body p) (Event.make ev.1 ev.2 [])
     && bool_decide (x ∈ Addon.visited p ev.2)
  then Component.offset ev.1 * Z.of_nat (bound_in ev.1 (Addon.listeners p))
  else 0.

(** One thing happening on a page of the addon. *)
Inductive addon_step : Addon.Page -> Addon.Page -> Prop :=
| addon_step_insertElement self c p :
    addon_step p (Addon.insertElement self c p)
| addon_step_setup self p : addon_step p (Addon.setupEventListeners self p)
| addon_step_teardown self p :
    addon_step p (Addon.teardownEventListeners self p)
| addon_step_trigger e p : addon_step p (Addon.trigger e p).2
| addon_step_drop self e p : addon_step p (Addon.drop self e p).2.

(** The jQuery data of the addon hold nothing but counters. *)
Definition addon_counters_only (p : Addon.Page) : Prop :=
  ∀ x key, key ≠ "dragcount" → Addon.data p !! (x, key) = None.

Definition addon_add_calls (cs : list Call) (p : Addon.Page) : Addon.Page :=
  {| Addon.body := Addon.body p; Addon.components := Addon.components p;
     Addon.listeners := Addon.listeners p; Addon.data := Addon.data p;
     Addon.classes := Addon.classes p; Addon.calls := Addon.calls p ++ cs |}.

Definition addon_calls_since (p p' : Addon.Page) : list Call :=
  drop (length (Addon.calls p)) (Addon.calls p').

(** The files the addon's [drop] goes on with. *)
Definition addon_retained (c : Addon.Component) (fs : list File.t) : list File.t :=
  if (1 <? length fs)%nat && negb (Addon.allowMultiple c)
  then option_list (head fs) else fs.

(** The root carries [file-drop-target-drag-over] exactly when its
    counter is positive. *)
Definition root_mark_follows_counter (p : Component.Page) : Prop :=
  Component.hasClass (Component.rootElement p) "file-drop-target-drag-over" p
  = (0 <? Component.dragcount p (Component.rootElement p)).

(** * Properties *)

(** ** jQuery sets are duplicate-free and in document order *)

Section DocumentOrder.

Import JQuery.

Lemma doc_compare_refl x : doc_compare x x = Eq.
Proof.
  induction x as [|i x IH]; simpl; [done|].
  by rewrite Nat.compare_refl.
Qed.

Lemma doc_compare_Eq x y : doc_compare x y = Eq → x = y.
Proof.
  revert y; induction x as [|i x IH]; intros [|j y]; simpl; try done.
  destruct (Nat.compare_spec i j) as [Hij|Hij|Hij]; try done.
  intros Hxy; subst; f_equal; auto.
Qed.

Lemma doc_lt_irrefl x : ¬ doc_lt x x.
Proof. unfold doc_lt. by rewrite doc_compare_refl. Qed.

Lemma doc_lt_trans x y z : doc_lt x y → doc_lt y z → doc_lt x z.
Proof.
  unfold doc_lt. revert y z.
  induction x as [|i x IH]; intros [|j y] [|k z]; simpl; try done.
  destruct (Nat.compare_spec i j) as [Hij|Hij|Hij],
           (Nat.compare_spec j k) as [Hjk|Hjk|Hjk]; try done;
    subst; intros H1 H2.
  - rewrite Nat.compare_refl. eauto.
  - by apply Nat.compare_lt_iff in Hjk as ->.
  - by apply Nat.compare_lt_iff in Hij as ->.
  - assert (i < k)%nat as Hik by lia.
    by apply Nat.compare_lt_iff in Hik as ->.
Qed.

Lemma doc_compare_Gt x y : doc_compare x y = Gt → doc_lt y x.
Proof.
  unfold doc_lt. revert y.
  induction x as [|i x IH]; intros [|j y]; simpl; try done.
  rewrite (Nat.compare_antisym i j).
  destruct (Nat.compare_spec i j) as [Hij|Hij|Hij]; simpl; try done. auto.
Qed.

Lemma elem_of_doc_insert z x l : z ∈ doc_insert x l ↔ z = x ∨ z ∈ l.
Proof.
  induction l as [|y l IH]; simpl.
  - rewrite list_elem_of_singleton, elem_of_nil. tauto.
  - destruct (doc_compare x y) eqn:E.
    + apply doc_compare_Eq in E as ->. rewrite elem_of_cons. tauto.
    + apply elem_of_cons.
    + rewrite !elem_of_cons, IH. tauto.
Qed.

Lemma elem_of_uniqueSort z l : z ∈ uniqueSort l ↔ z ∈ l.
Proof.
  unfold uniqueSort. induction l as [|x l IH]; simpl; [done|].
  by rewrite elem_of_doc_insert, IH, elem_of_cons.
Qed.

Lemma doc_insert_sorted x l :
  StronglySorted doc_lt l → StronglySorted doc_lt (doc_insert x l).
Proof.
  induction 1 as [|y l Hs IH Hall]; simpl.
  - repeat constructor.
  - destruct (doc_compare x y) eqn:E.
    + by constructor.
    + constructor; [by constructor|].
      constructor; [done|].
      eapply Forall_impl; [exact Hall|].
      intros z Hz. by eapply doc_lt_trans.
    + constructor; [done|].
      apply Forall_forall. intros z Hz.
      apply elem_of_doc_insert in Hz as [->|Hz].
      * by apply doc_compare_Gt.
      * by eapply Forall_forall in Hall.
Qed.

Lemma uniqueSort_sorted l : StronglySorted doc_lt (uniqueSort l).
Proof.
  unfold uniqueSort. induction l; simpl; [constructor|].
  by apply doc_insert_sorted.
Qed.

Lemma sorted_NoDup l : StronglySorted doc_lt l → NoDup l.
Proof.
  induction 1 as [|y l Hs IH Hall]; constructor; [|done].
  intros Hy. eapply Forall_forall in Hall; [|exact Hy].
  by apply doc_lt_irrefl in Hall.
Qed.

Lemma NoDup_add l more : NoDup (add l more).
Proof. apply sorted_NoDup, uniqueSort_sorted. Qed.

Lemma elem_of_add z l more : z ∈ add l more ↔ z ∈ l ∨ z ∈ more.
Proof. unfold add. rewrite elem_of_uniqueSort. set_solver. Qed.

End DocumentOrder.

(** ** Counting in the component with hover flags *)

Section Counting.

Import Component.

Lemma same_targets_refl p : same_targets p p.
Proof. by repeat split. Qed.

Lemma same_targets_trans p q r :
  same_targets p q → same_targets q r → same_targets p r.
Proof.
  intros (H1 & H2 & H3) (K1 & K2 & K3). repeat split.
  - by rewrite K1.
  - by rewrite K2.
  - intros y. by rewrite K3.
Qed.

Lemma visited_same_targets p p' x :
  same_targets p p' → visited p' x = visited p x.
Proof.
  intros (H1 & _ & H3). unfold visited. rewrite H1. f_equal.
  apply List.filter_ext. intros y. apply H3.
Qed.

Lemma hasClass_update self f p y cls :
  hasClass y cls (update self f p) = hasClass y cls p.
Proof. done. Qed.

Lemma hasClass_target_addClass x y p :
  hasClass y "file-drop-target" (addClass x "file-drop-target-drag-over" p)
  = hasClass y "file-drop-target" p.
Proof.
  unfold hasClass, addClass; simpl. apply bool_decide_ext.
  rewrite elem_of_union, elem_of_singleton. split; [|by right].
  intros [Heq|H]; [|done]. by inversion Heq.
Qed.

Lemma hasClass_target_removeClass x y p :
  hasClass y "file-drop-target" (removeClass x "file-drop-target-drag-over" p)
  = hasClass y "file-drop-target" p.
Proof.
  unfold hasClass, removeClass; simpl. apply bool_decide_ext.
  rewrite elem_of_difference, elem_of_singleton. split; [by intros [? _]|].
  intros H. split; [done|]. intros Heq. by inversion Heq.
Qed.

Lemma count_element_same_targets self k p this :
  same_targets p (count_element self k p this).
Proof.
  unfold count_element, didDragOverRoot, didDragOffRoot, didDragOver, didDragOff.
  repeat case_match; (split; [done|split; [done|intros y]]);
    by rewrite ?hasClass_target_addClass, ?hasClass_target_removeClass.
Qed.

Lemma data_count_element self k p this :
  data (count_element self k p this)
  = <[(this, "dragcount") := dragcount p this + offset k]> (data p).
Proof.
  unfold count_element, didDragOverRoot, didDragOffRoot, didDragOver, didDragOff.
  unfold offset. by repeat case_match.
Qed.

Lemma dragcount_count_element self k p this x :
  dragcount (count_element self k p this) x
  = dragcount p x + (if bool_decide (x = this) then offset k else 0).
Proof.
  unfold dragcount at 1. rewrite data_count_element.
  case_bool_decide as Hx.
  - subst. by rewrite lookup_insert_eq.
  - rewrite lookup_insert_ne by congruence. unfold dragcount. lia.
Qed.

Lemma foldl_count_element_same_targets self k l p :
  same_targets p (foldl (count_element self k) p l).
Proof.
  revert p. induction l as [|y l IH]; intros p; simpl.
  - apply same_targets_refl.
  - eapply same_targets_trans; [apply count_element_same_targets|apply IH].
Qed.

Lemma dragcount_foldl_count_element self k l :
  NoDup l → ∀ p x,
  dragcount (foldl (count_element self k) p l) x
  = dragcount p x + (if bool_decide (x ∈ l) then offset k else 0).
Proof.
  induction 1 as [|y l Hy Hl IH]; intros p x; cbn [foldl].
  - case_bool_decide as Hx; [by apply not_elem_of_nil in Hx|lia].
  - rewrite IH, dragcount_count_element.
    repeat case_bool_decide; subst; try lia; exfalso;
      rewrite elem_of_cons in *; tauto.
Qed.

Lemma calculateDropCount_event self e p :
  Event.type (calculateDropCount self e p).1 = Event.type e ∧
  Event.target (calculateDropCount self e p).1 = Event.target e.
Proof. done. Qed.

Lemma calculateDropCount_same_targets self e p :
  same_targets p (calculateDropCount self e p).2.
Proof. apply foldl_count_element_same_targets. Qed.

Lemma dragcount_calculateDropCount self e p x :
  dragcount (calculateDropCount self e p).2 x
  = dragcount p x
    + (if bool_decide (x ∈ visited p (Event.target e))
       then offset (Event.type e) else 0).
Proof.
  unfold calculateDropCount; simpl.
  apply dragcount_foldl_count_element, NoDup_add.
Qed.

(** Running the handlers [ls] bound for an event of type [k] on [t]. *)
Lemma handlers_run k t ls :
  ∀ e p, Event.type e = k → Event.target e = t →
  let st := foldl (λ st l,
                     if bool_decide (l.1 = k)
                     then calculateDropCount l.2 st.1 st.2 else st)
                  (e, p) ls in
  same_targets p st.2 ∧
  ∀ x, dragcount st.2 x
       = dragcount p x
         + (if bool_decide (x ∈ visited p t)
            then offset k * Z.of_nat (length (filter (λ l, l.1 = k) ls))
            else 0).
Proof.
  induction ls as [|l ls IH]; intros e p Hk Ht; simpl.
  - split; [apply same_targets_refl|]. intros x. case_bool_decide; lia.
  - case_bool_decide as Hl.
    + destruct (calculateDropCount_event l.2 e p) as [Hk' Ht'].
      destruct (IH (calculateDropCount l.2 e p).1 (calculateDropCount l.2 e p).2)
        as [Hs Hc]; [congruence|congruence|].
      pose proof (calculateDropCount_same_targets l.2 e p) as Hs1.
      split; [by eapply same_targets_trans|].
      intros x. rewrite Hc, dragcount_calculateDropCount.
      rewrite (visited_same_targets _ _ _ Hs1), Ht, Hk.
      rewrite filter_cons_True by done. simpl length.
      case_bool_decide; lia.
    + destruct (IH e p Hk Ht) as [Hs Hc]. split; [done|].
      intros x. rewrite Hc. by rewrite filter_cons_False by done.
Qed.

Lemma trigger_same_targets e p : same_targets p (trigger e p).2.
Proof.
  unfold trigger. case_match; [|apply same_targets_refl].
  by apply (handlers_run (Event.type e) (Event.target e)).
Qed.

(** Every handler bound for the event's type adds the event's offset to
    the counter of each element visited, when the event reaches [$root]. *)
Lemma dragcount_trigger e p x :
  dragcount (trigger e p).2 x
  = dragcount p x
    + (if bubbles_through (rootElement p) e
          && bool_decide (x ∈ visited p (Event.target e))
       then offset (Event.type e) * Z.of_nat (bound (Event.type e) p)
       else 0).
Proof.
  unfold trigger. destruct (bubbles_through _ _); simpl; [|lia].
  by apply (handlers_run (Event.type e) (Event.target e)).
Qed.

End Counting.

(** ** The drop handler *)

Section Drop.

Import Component.

Lemma add_calls_nil p : add_calls [] p = p.
Proof. destruct p. unfold add_calls; simpl. by rewrite app_nil_r. Qed.

Lemma add_calls_call c cs p : add_calls cs (call c p) = add_calls (c :: cs) p.
Proof. unfold add_calls, call; simpl. by rewrite <- app_assoc. Qed.

Lemma filter_allowed_spec self c fs :
  ∀ p, components p !! self = Some c →
  filter_allowed self (allowedTypes c) fs p
  = (accepted c fs,
     add_calls (if invalidFileType c
                then invalidFileType_called self <$> rejected c fs else [])
               p).
Proof.
  induction fs as [|f fs IH]; intros p Hc; simpl.
  - by destruct (invalidFileType c); rewrite add_calls_nil.
  - rewrite Hc, IH by (by destruct (negb _ && _)).
    unfold accepted, rejected; simpl.
    destruct (allowedTypes c (File.type f)), (invalidFileType c); simpl;
      by rewrite ?add_calls_call.
Qed.

Lemma foldl_fileWasDropped self c fs :
  ∀ p, components p !! self = Some c →
  foldl (fileWasDropped self) p fs
  = add_calls (if fileDropped c then fileDropped_called self <$> fs else []) p.
Proof.
  induction fs as [|f fs IH]; intros p Hc; simpl.
  - by destruct (fileDropped c); rewrite add_calls_nil.
  - rewrite IH by (unfold fileWasDropped; rewrite Hc; by destruct (fileDropped c)).
    unfold fileWasDropped. rewrite Hc.
    destruct (fileDropped c); simpl; by rewrite ?add_calls_call.
Qed.

Lemma lookup_cleanUpDragCounters self p :
  components (cleanUpDragCounters self p) !! self
  = (λ c, set_isDragging false (set_isDraggingOver false c))
      <$> components p !! self.
Proof.
  unfold cleanUpDragCounters, didDragOffRoot, didDragOff, update; simpl.
  rewrite !lookup_alter_eq. by destruct (components p !! self).
Qed.

Lemma lookup_cleanUpDragCounters_ne self p x :
  x ≠ self →
  components (cleanUpDragCounters self p) !! x = components p !! x.
Proof.
  intros Hx.
  unfold cleanUpDragCounters, didDragOffRoot, didDragOff, update; simpl.
  by rewrite !lookup_alter_ne.
Qed.

(** [drop] ends in a [TypeError] on the payloads that it truncates
    and that have no [slice]. *)
Lemma drop_completion_spec self c e p :
  components p !! self = Some c →
  drop_completion self e p
  = if (1 <? length (Event.files e))%nat && negb (allowMultiple c)
    then match Event.payload e with
         | Files.FileList _ =>
             throws "TypeError: files.slice is not a function"
         | Files.Array _ => returns
         end
    else returns.
Proof.
  intros Hc. unfold drop_completion, dropping, Event.files, Files.length.
  rewrite Hc. cbn [Event.payload Event.preventDefault].
  destruct (Event.payload e) as [fs|fs]; cbn [Files.items Files.slice_0_1];
    destruct fs as [|f [|g fs]]; cbn; try done;
    by destruct (allowMultiple c).
Qed.

(** Where [drop] throws it has done the clean-up and nothing else. *)
Lemma drop_thrown self c e p :
  components p !! self = Some c →
  drop_completion self e p ≠ returns →
  drop self e p = (Event.preventDefault e, cleanUpDragCounters self p).
Proof.
  intros Hc. unfold drop_completion, drop, dropping, Files.length.
  rewrite Hc. cbn [Event.payload Event.preventDefault].
  destruct (Event.payload e) as [fs|fs]; cbn [Files.items Files.slice_0_1];
    destruct fs as [|f [|g fs]]; cbn; try done;
    by destruct (allowMultiple c).
Qed.

(** What [drop] does with a payload that is not empty, where it returns. *)
Lemma drop_files self c e p :
  components p !! self = Some c →
  Event.files e ≠ [] →
  drop_completion self e p = returns →
  let c0 := set_isDragging false (set_isDraggingOver false c) in
  let kept := retained c (Event.files e) in
  drop self e p
  = (Event.preventDefault e,
     update self
       (if allowMultiple c then set_files (accepted c kept)
        else set_file (head (accepted c kept)))
       (add_calls
          (if fileDropped c then fileDropped_called self <$> accepted c kept
           else [])
          (update self (set_isDropped true)
             (add_calls
                (if invalidFileType c
                 then invalidFileType_called self <$> rejected c kept else [])
                (cleanUpDragCounters self p))))).
Proof.
  intros Hc Hfs Hr c0 kept.
  assert (components (cleanUpDragCounters self p) !! self = Some c0) as Hc0.
  { by rewrite lookup_cleanUpDragCounters, Hc. }
  assert (∀ fs q,
    components q !! self = Some c0 →
    (let r := filter_allowed self (allowedTypes c) fs q in
     let q := update self (set_isDropped true) r.2 in
     let q := foldl (fileWasDropped self) q r.1 in
     if allowMultiple c then update self (set_files r.1) q
     else update self (set_file (head r.1)) q)
    = update self
        (if allowMultiple c then set_files (accepted c fs)
         else set_file (head (accepted c fs)))
        (add_calls
           (if fileDropped c then fileDropped_called self <$> accepted c fs
            else [])
           (update self (set_isDropped true)
              (add_calls
                 (if invalidFileType c
                  then invalidFileType_called self <$> rejected c fs else [])
                 q)))) as Hrest.
  { intros fs q Hq. cbn zeta.
    change (allowedTypes c) with (allowedTypes c0).
    rewrite (filter_allowed_spec self c0 _ _ Hq). cbn [fst snd].
    erewrite foldl_fileWasDropped; last first.
    { unfold update, add_calls, set_components; cbn [components].
      by rewrite lookup_alter_eq, Hq. }
    unfold accepted, rejected. subst c0. cbn.
    by destruct (allowMultiple c). }
  specialize (Hrest kept _ Hc0). cbn zeta in Hrest. rewrite <- Hrest.
  revert Hr Hfs. subst kept.
  unfold drop_completion, drop, dropping, retained, Event.files, Files.length.
  rewrite Hc. cbn [Event.payload Event.preventDefault].
  destruct (Event.payload e) as [fs|fs]; cbn [Files.items Files.slice_0_1];
    destruct fs as [|f [|g fs]]; cbn; try done;
    by destruct (allowMultiple c).
Qed.

(** Where no component is rendered [drop] does nothing. *)
Lemma drop_none self e p :
  components p !! self = None → drop self e p = (e, p).
Proof. intros Hc. unfold drop, dropping. by rewrite Hc. Qed.

(** What [drop] does with an empty payload. *)
Lemma drop_no_files self c e p :
  components p !! self = Some c →
  Event.files e = [] →
  drop self e p = (Event.preventDefault e, cleanUpDragCounters self p).
Proof.
  intros Hc Hfs. unfold drop, dropping, Files.length. rewrite Hc.
  cbn [Event.payload Event.preventDefault].
  change (Files.items (Event.payload e)) with (Event.files e).
  by rewrite Hfs.
Qed.

(** [drop] either stops after the clean-up, on an empty payload or with a
    [TypeError], or goes on with the payload and returns. *)
Lemma drop_cases self c e p :
  components p !! self = Some c →
  drop self e p = (Event.preventDefault e, cleanUpDragCounters self p)
  ∨ (Event.files e ≠ [] ∧ drop_completion self e p = returns).
Proof.
  intros Hc. destruct (decide (Event.files e = [])) as [He|He].
  - left. by apply (drop_no_files self c).
  - destruct (drop_completion self e p) as [|err] eqn:Hr.
    + by right.
    + left. apply (drop_thrown self c); [done|]. by rewrite Hr.
Qed.

End Drop.

(** ** Hover flags when several components are rendered *)

Section HoverFlags.

Import Component Fixtures.

(** A handler writes into the flags of its own component the count of
    whichever element it has just visited. *)
Lemma count_element_flags self k p this c :
  components p !! self = Some c →
  components (count_element self k p this) !! self
  = Some (if bool_decide (this = rootElement p)
          then set_isDragging (0 <? dragcount p this + offset k) c
          else set_isDraggingOver (0 <? dragcount p this + offset k) c).
Proof.
  intros Hc.
  unfold count_element, didDragOverRoot, didDragOffRoot, didDragOver,
    didDragOff, update, offset.
  cbn [rootElement set_data].
  repeat case_match; simpl; by rewrite lookup_alter_eq, Hc.
Qed.

(** C1 (hover independence), evaluated on two sibling targets [A] and [B]:
    after a single [dragenter] on [A]'s element the handler of [B] has set
    [B]'s own [isDraggingOver], although [B]'s counter is still 0; both
    components have [isDragging] set. *)
Theorem C1_enter_on_sibling_sets_other_hover_flag :
  let p := run [(Event.dragenter, A)] two_siblings in
  isDraggingOver <$> components p !! B = Some true ∧
  dragcount p B = 0 ∧
  isDraggingOver <$> components p !! A = Some true ∧
  isDragging <$> components p !! A = Some true ∧
  isDragging <$> components p !! B = Some true.
Proof. vm_compute. done. Qed.

(** In the addon the same event marks [A]'s element only. *)
Lemma addon_enter_on_sibling :
  let p := Addon.run [(Event.dragenter, A)] addon_two_siblings in
  Addon.hasClass A "file-drop-target-drag-over" p = true ∧
  Addon.hasClass B "file-drop-target-drag-over" p = false ∧
  Addon.hasClass root "file-drop-target-drag-over" p = true.
Proof. vm_compute. done. Qed.

(** C7 (balanced-sequence neutrality), evaluated on two sibling targets:
    after [dragenter] then [dragleave] on [A]'s element every counter is
    back to 0, yet the component bound first keeps both [isDraggingOver]
    and [isDragging] set. *)
Theorem C7_balanced_pair_leaves_first_component_hovering :
  let p := run [(Event.dragenter, A); (Event.dragleave, A)] two_siblings in
  dragcount p A = 0 ∧ dragcount p B = 0 ∧ dragcount p root = 0 ∧
  isDraggingOver <$> components p !! A = Some true ∧
  isDragging <$> components p !! A = Some true ∧
  isDraggingOver <$> components p !! B = Some false ∧
  isDragging <$> components p !! B = Some false.
Proof. vm_compute. done. Qed.

(** In the addon the classes are gone after the same two events. *)
Lemma addon_balanced_pair :
  let p := Addon.run [(Event.dragenter, A); (Event.dragleave, A)]
             addon_two_siblings in
  Addon.dragcount p A = 0 ∧ Addon.dragcount p root = 0 ∧
  Addon.hasClass A "file-drop-target-drag-over" p = false ∧
  Addon.hasClass root "file-drop-target-drag-over" p = false.
Proof. vm_compute. done. Qed.

End HoverFlags.

(** ** The drop effect reported on [dragover] *)

Section DropEffect.

Import Component Fixtures.

Lemma no_dropcount_count_element self k p this :
  no_dropcount (data p) → no_dropcount (data (count_element self k p this)).
Proof.
  intros H x. rewrite data_count_element.
  rewrite lookup_insert_ne by (intros Heq; by inversion Heq). apply H.
Qed.

Lemma no_dropcount_calculateDropCount self e p :
  no_dropcount (data p) → no_dropcount (data (calculateDropCount self e p).2).
Proof.
  unfold calculateDropCount; simpl.
  generalize (visited p (Event.target e)). intros l. revert p.
  induction l as [|y l IH]; intros p H; simpl; [done|].
  by apply IH, no_dropcount_count_element.
Qed.

Lemma no_dropcount_trigger e p :
  no_dropcount (data p) → no_dropcount (data (trigger e p).2).
Proof.
  intros H. unfold trigger. destruct (bubbles_through _ _); [|done].
  generalize (Event.type e) as k. generalize (listeners p) as ls.
  intros ls k. revert e p H.
  induction ls as [|l ls IH]; intros e p H; simpl; [done|].
  case_bool_decide; [|by apply IH].
  apply IH. by apply no_dropcount_calculateDropCount.
Qed.

Lemma no_dropcount_drop self e p :
  no_dropcount (data p) → no_dropcount (data (drop self e p).2).
Proof.
  intros H.
  destruct (components p !! self) as [c|] eqn:Hc;
    [|by rewrite drop_none].
  assert (no_dropcount (data (cleanUpDragCounters self p))) as H'.
  { intros x. unfold cleanUpDragCounters, removeData_targets; simpl.
    apply map_lookup_filter_None. left. apply H. }
  destruct (drop_cases self c e p Hc) as [Hd|[He Hr]].
  - by rewrite Hd.
  - by rewrite (drop_files self c e p Hc He Hr).
Qed.

Lemma reachable_no_dropcount p : reachable p → no_dropcount (data p).
Proof.
  induction 1 as [root|self c p _ IH|self p _ IH|self p _ IH|e p _ IH
                 |self e p _ IH|self e p _ IH]; try done.
  - by apply no_dropcount_trigger.
  - by apply no_dropcount_drop.
Qed.

(** Whatever has happened on the page, [getDropEffect] answers 'none'. *)
Lemma getDropEffect_none self p : reachable p → getDropEffect self p = "none".
Proof.
  intros H. unfold getDropEffect. by rewrite (reachable_no_dropcount p H).
Qed.

(** [dragOver] leaves the page, and so every counter, as it is. *)
Lemma dragOver_page self e p :
  (dragOver self e p).2 = p ∧
  Event.defaultPrevented (dragOver self e p).1 = true.
Proof. done. Qed.

Lemma addon_dragOver_page self e p :
  (Addon.dragOver self e p).2 = p ∧
  Event.defaultPrevented (Addon.dragOver self e p).1 = true ∧
  Event.dropEffect (Addon.dragOver self e p).1 = Addon.getDropEffect self p.
Proof. done. Qed.

(** C2 (drop effect on [dragover]), evaluated on a single target whose
    counter is 1 after a [dragenter] on its element: the default action is
    suppressed and no counter changes, but the effect computed is 'none'
    in both variants; the addon's [dragOver] reports it, the other
    [dragOver] reports nothing. *)
Theorem C2_dragover_reports_none_while_counter_positive :
  let e := Event.make Event.dragover A [] in
  let p := run [(Event.dragenter, A)] (one_target false) in
  let q := Addon.run [(Event.dragenter, A)] addon_one_target in
  (dragcount p A = 1 ∧ getDropEffect A p = "none" ∧
   dragOver A e p = (Event.preventDefault e, p)) ∧
  (Addon.dragcount q A = 1 ∧
   Event.dropEffect (Addon.dragOver A e q).1 = "none" ∧
   Event.defaultPrevented (Addon.dragOver A e q).1 = true ∧
   (Addon.dragOver A e q).2 = q).
Proof. vm_compute. done. Qed.

End DropEffect.

(** ** What a drop leaves behind, and what it delivers *)

Section DropClaims.

Import Component Fixtures.

Lemma visited_tracked p t x : x ∈ visited p t → tracked p x.
Proof.
  unfold visited, tracked. rewrite elem_of_add.
  intros [Hx|Hx].
  - left. apply list_elem_of_In, List.filter_In in Hx. apply Hx.
  - right. by apply list_elem_of_singleton in Hx.
Qed.

Lemma cleanUpDragCounters_counters self p x :
  tracked p x → data (cleanUpDragCounters self p) !! (x, "dragcount") = None.
Proof.
  intros Hx. unfold cleanUpDragCounters, removeData_targets.
  cbn [data set_data]. apply map_lookup_filter_None. right.
  intros v _ Hkeep. apply Hkeep. cbn [fst snd]. split; [done|].
  destruct Hx as [Hx|Hx]; [left|by right].
  apply bool_decide_eq_true in Hx.
  unfold didDragOffRoot, didDragOff, removeClass, update; cbn [classes set_classes set_components].
  apply elem_of_difference. split; [done|].
  rewrite elem_of_singleton. intros Heq. by inversion Heq.
Qed.

Lemma cleanUpDragCounters_root_class self p :
  hasClass (rootElement p) "file-drop-target-drag-over"
    (cleanUpDragCounters self p) = false.
Proof.
  apply bool_decide_eq_false.
  unfold cleanUpDragCounters, removeData_targets, didDragOffRoot, didDragOff,
    removeClass, update; simpl.
  rewrite elem_of_difference, elem_of_singleton. by intros [_ []].
Qed.

(** After a drop on the component rendered at [self], whatever it
    carries and however the handler ends, no element that the counting
    visits (a drop target or the root) has a counter left, the component's
    own [isDraggingOver] and [isDragging] are false and the root has lost
    the class [file-drop-target-drag-over]. *)
Lemma drop_resets_counters_and_own_flags self c e p :
  components p !! self = Some c →
  let p' := (drop self e p).2 in
  (∀ x, tracked p x →
        data p' !! (x, "dragcount") = None ∧ dragcount p' x = 0) ∧
  isDraggingOver <$> components p' !! self = Some false ∧
  isDragging <$> components p' !! self = Some false ∧
  hasClass (rootElement p) "file-drop-target-drag-over" p' = false.
Proof.
  intros Hc p'. subst p'.
  destruct (drop_cases self c e p Hc) as [Hd|[He Hr]].
  - rewrite Hd. cbn [snd]. repeat split.
    + by apply cleanUpDragCounters_counters.
    + unfold dragcount. by rewrite cleanUpDragCounters_counters.
    + by rewrite lookup_cleanUpDragCounters, Hc.
    + by rewrite lookup_cleanUpDragCounters, Hc.
    + apply cleanUpDragCounters_root_class.
  - rewrite (drop_files self c e p Hc He Hr).
    cbn [snd]. repeat split.
    + unfold update; cbn [data add_calls set_components].
      by apply cleanUpDragCounters_counters.
    + unfold dragcount, update; cbn [data add_calls set_components].
      by rewrite cleanUpDragCounters_counters.
    + unfold update; cbn [components add_calls set_components].
      rewrite !lookup_alter_eq, lookup_cleanUpDragCounters, Hc.
      by destruct (allowMultiple c).
    + unfold update; cbn [components add_calls set_components].
      rewrite !lookup_alter_eq, lookup_cleanUpDragCounters, Hc.
      by destruct (allowMultiple c).
    + apply cleanUpDragCounters_root_class.
Qed.

(** C6 (empty drop): a drop without files makes no call, leaves
    [isDropped], [file] and [files] of the component as they were, and
    changes nothing beyond the clean-up of counters and flags. *)
Theorem C6_empty_drop_only_resets self c e p :
  components p !! self = Some c →
  Event.files e = [] →
  let p' := (drop self e p).2 in
  p' = cleanUpDragCounters self p ∧
  calls p' = calls p ∧
  isDropped <$> components p' !! self = Some (isDropped c) ∧
  file <$> components p' !! self = Some (file c) ∧
  files <$> components p' !! self = Some (files c) ∧
  ∀ x, x ≠ self → components p' !! x = components p !! x.
Proof.
  intros Hc He p'. subst p'. rewrite (drop_no_files self c e p Hc He).
  cbn [snd]. rewrite lookup_cleanUpDragCounters, Hc.
  repeat split; try done.
  intros x Hx. by apply lookup_cleanUpDragCounters_ne.
Qed.

Lemma C6_empty_drop_only_resets_witness :
  let p := run [(Event.dragenter, A)] (one_target false) in
  let p' := (drop A (Event.make Event.drop A []) p).2 in
  p' = cleanUpDragCounters A p ∧
  calls p' = calls p ∧
  isDropped <$> components p' !! A = Some false ∧
  file <$> components p' !! A = Some None ∧
  files <$> components p' !! A = Some None ∧
  ∀ x, x ≠ A → components p' !! x = components p !! x.
Proof.
  apply (C6_empty_drop_only_resets A
           (set_isDraggingOver true (set_isDragging true (target_of_images false))));
    [by vm_compute|done].
Defined.

(** The calls and the output of a drop that carries files and returns. *)
Lemma drop_delivery self c e p :
  components p !! self = Some c →
  Event.files e ≠ [] →
  drop_completion self e p = returns →
  let p' := (drop self e p).2 in
  let kept := retained c (Event.files e) in
  calls p'
  = calls p
    ++ (if invalidFileType c
        then invalidFileType_called self <$> rejected c kept else [])
    ++ (if fileDropped c
        then fileDropped_called self <$> accepted c kept else []) ∧
  components p' !! self
  = Some ((if allowMultiple c then set_files (accepted c kept)
           else set_file (head (accepted c kept)))
            (set_isDropped true
               (set_isDragging false (set_isDraggingOver false c)))).
Proof.
  intros Hc He Hr p' kept. subst p'. rewrite (drop_files self c e p Hc He Hr).
  cbn [snd]. split.
  - unfold update, add_calls, set_components; cbn [calls].
    unfold cleanUpDragCounters, removeData_targets, didDragOffRoot,
      didDragOff, removeClass, update; cbn [calls set_data set_classes set_components].
    by rewrite <- app_assoc.
  - unfold update; cbn [components add_calls set_components].
    by rewrite !lookup_alter_eq, lookup_cleanUpDragCounters, Hc.
Qed.

End DropClaims.

(** ** Counters along a sequence of events *)

Section Sequences.

Import Component Fixtures.

Lemma effect_same_targets p p' x ev :
  same_targets p p' → effect p' x ev = effect p x ev.
Proof.
  intros Hs. unfold effect, bound.
  rewrite (visited_same_targets _ _ _ Hs).
  destruct Hs as (-> & -> & _). done.
Qed.

Lemma run_same_targets evs p : same_targets p (run evs p).
Proof.
  revert p. induction evs as [|ev evs IH]; intros p; simpl.
  - apply same_targets_refl.
  - eapply same_targets_trans; [apply trigger_same_targets|apply IH].
Qed.

Lemma dragcount_run evs :
  ∀ p x, dragcount (run evs p) x
         = dragcount p x + foldr Z.add 0 (effect p x <$> evs).
Proof.
  induction evs as [|ev evs IH]; intros p x; simpl; [lia|].
  rewrite IH, dragcount_trigger.
  rewrite (list_fmap_ext (effect _ x) (effect p x) evs)
    by (intros; apply effect_same_targets, trigger_same_targets).
  unfold effect at 2. simpl. by rewrite Z.add_assoc.
Qed.

Lemma parents_snoc x a : JQuery.parents (x ++ [a]) = x :: JQuery.parents x.
Proof.
  unfold JQuery.parents. rewrite length_app, Nat.add_1_r. simpl.
  unfold JQuery.parentNode. rewrite removelast_last.
  by destruct x.
Qed.

Lemma elem_of_parents y x :
  y ∈ JQuery.parents x ↔ ∃ k, k ≠ [] ∧ x = y ++ k.
Proof.
  induction x as [|a x IH] using rev_ind.
  - split; [by intros ?%not_elem_of_nil|].
    intros (k & Hk & Hx). symmetry in Hx.
    apply app_eq_nil in Hx as [_ ->]. done.
  - rewrite parents_snoc, elem_of_cons, IH. split.
    + intros [->|(k & Hk & ->)].
      * by exists [a].
      * exists (k ++ [a]). split; [by destruct k|by rewrite app_assoc].
    + intros (k & Hk & Hx).
      destruct k as [|b k _] using rev_ind; [done|].
      rewrite app_assoc in Hx. apply app_inj_tail in Hx as [-> ->].
      destruct k as [|c k]; [left; by rewrite app_nil_r|right].
      by exists (c :: k).
Qed.

Lemma parents_trans x y z :
  y ∈ JQuery.parents x → z ∈ JQuery.parents y → z ∈ JQuery.parents x.
Proof.
  rewrite !elem_of_parents. intros (k & Hk & ->) (k' & Hk' & ->).
  exists (k' ++ k). split; [by destruct k'|by rewrite app_assoc].
Qed.

Lemma elem_of_addBack_parents y x :
  y ∈ JQuery.addBack (JQuery.parents x) [x] ↔ y ∈ JQuery.parents x ∨ y = x.
Proof.
  unfold JQuery.addBack. rewrite elem_of_add, list_elem_of_singleton. done.
Qed.

Lemma elem_of_visited p t x :
  x ∈ visited p t ↔
  (hasClass x "file-drop-target" p = true ∧ (x ∈ JQuery.parents t ∨ x = t))
  ∨ x = rootElement p.
Proof.
  unfold visited. rewrite elem_of_add, list_elem_of_singleton.
  rewrite list_elem_of_In, List.filter_In, <- list_elem_of_In.
  rewrite elem_of_addBack_parents. tauto.
Qed.

End Sequences.

(** ** Nested targets *)

Section Nesting.

Import Component Fixtures.

Lemma bubbles_through_spec x k t :
  bubbles_through x (Event.make k t []) = true ↔ x ∈ JQuery.parents t ∨ x = t.
Proof.
  unfold bubbles_through. rewrite bool_decide_eq_true.
  apply elem_of_addBack_parents.
Qed.

Lemma effect_visited p x k t :
  bubbles_through (rootElement p) (Event.make k t []) = true →
  x ∈ visited p t →
  effect p x (k, t) = offset k * Z.of_nat (bound k p).
Proof.
  intros Hb Hx. unfold effect. cbn [fst snd]. rewrite Hb.
  by rewrite bool_decide_eq_true_2.
Qed.

Lemma effect_not_visited p x k t :
  x ∉ visited p t → effect p x (k, t) = 0.
Proof.
  intros Hx. unfold effect. cbn [fst snd].
  rewrite (bool_decide_eq_false_2 _ Hx). by rewrite andb_false_r.
Qed.

Lemma parents_irrefl x : x ∉ JQuery.parents x.
Proof.
  rewrite elem_of_parents. intros (k & Hk & Hx).
  rewrite <- (app_nil_r x) in Hx at 1. by apply app_inv_head in Hx.
Qed.

(** C8 as stated fails for a child that is not itself a drop target: an
    enter on the plain element [inner] inside the target [A] counts for
    [A] and for the root, and [inner] gets no counter. *)
Lemma C8_plain_child_has_no_counter_counterexample :
  let p := run [(Event.dragenter, inner)] (one_target false) in
  hasClass inner "file-drop-target" (one_target false) = false ∧
  data p !! (inner, "dragcount") = None ∧ dragcount p inner = 0 ∧
  dragcount p A = 1 ∧ dragcount p root = 1.
Proof. vm_compute. done. Qed.

(** C8 (nesting), amended: [child] is an element inside the drop target
    [parent].  A [dragenter] on [child] raises the counter of [parent] by
    the number [n >= 1] of handlers bound (one for each component
    attached); it raises the counter of [child] by the same [n] when
    [child] is itself a drop target, and otherwise [child] carries no
    counter of its own.  The [dragleave] on [parent] that the browser
    pairs with that enter when the pointer crosses from [parent] onto
    [child] takes [n] off [parent]'s counter again, in whichever order the
    two are fired. *)
Theorem C8_enter_on_child_counts_for_parent p parent child :
  parent ∈ JQuery.parents child →
  hasClass parent "file-drop-target" p = true →
  bubbles_through (rootElement p) (Event.make Event.dragleave parent []) = true →
  (0 < bound Event.dragenter p)%nat →
  bound Event.dragleave p = bound Event.dragenter p →
  let n := Z.of_nat (bound Event.dragenter p) in
  let entered := run [(Event.dragenter, child)] p in
  0 < n ∧
  dragcount entered parent = dragcount p parent + n ∧
  dragcount entered child
  = dragcount p child + (if hasClass child "file-drop-target" p then n else 0) ∧
  dragcount (run [(Event.dragenter, child); (Event.dragleave, parent)] p) parent
  = dragcount p parent ∧
  dragcount (run [(Event.dragleave, parent); (Event.dragenter, child)] p) parent
  = dragcount p parent.
Proof.
  intros Hnest Hparent Hroot Hbound Hpaired n entered.
  assert (rootElement p ∈ JQuery.parents child) as Hrc.
  { apply bubbles_through_spec in Hroot.
    destruct Hroot as [Hr| ->]; [by eapply parents_trans|done]. }
  assert (bubbles_through (rootElement p) (Event.make Event.dragenter child [])
          = true) as Hroot'.
  { apply bubbles_through_spec. by left. }
  assert (parent ∈ visited p child) as Hpc.
  { apply elem_of_visited. left. split; [done|by left]. }
  assert (parent ∈ visited p parent) as Hpp.
  { apply elem_of_visited. left. split; [done|by right]. }
  subst entered. rewrite !dragcount_run. csimpl.
  rewrite !(effect_visited p parent Event.dragenter child) by done.
  rewrite !(effect_visited p parent Event.dragleave parent) by done.
  rewrite Hpaired. unfold offset; simpl. subst n.
  repeat split; try lia.
  destruct (hasClass child "file-drop-target" p) eqn:Hchild.
  - rewrite effect_visited; [unfold offset; simpl; lia|done|].
    apply elem_of_visited. left. split; [done|by right].
  - rewrite effect_not_visited; [lia|].
    rewrite elem_of_visited, Hchild. intros [[? _]| ->]; [done|].
    by apply parents_irrefl in Hrc.
Qed.

Lemma C8_enter_on_child_counts_for_parent_witness :
  let entered := run [(Event.dragenter, inner)] nested in
  0 < 2 ∧
  dragcount entered A = dragcount nested A + 2 ∧
  dragcount entered inner = dragcount nested inner + 2 ∧
  dragcount (run [(Event.dragenter, inner); (Event.dragleave, A)] nested) A
  = dragcount nested A ∧
  dragcount (run [(Event.dragleave, A); (Event.dragenter, inner)] nested) A
  = dragcount nested A.
Proof.
  apply (C8_enter_on_child_counts_for_parent nested A inner);
    [ apply elem_of_parents; by exists [0%nat]
    | by vm_compute | by vm_compute
    | vm_compute; lia
    | by vm_compute ].
Defined.

End Nesting.

(** ** Attaching and detaching the handlers *)

Section Attach.

Import Component Fixtures.

Lemma bound_setupEventListeners self p k :
  k = Event.dragenter ∨ k = Event.dragleave →
  bound k (setupEventListeners self p) = S (bound k p).
Proof.
  unfold bound, setupEventListeners; cbn [listeners set_listeners].
  rewrite filter_app, length_app.
  intros [->| ->]; simpl; lia.
Qed.

Lemma visited_setupEventListeners self p t :
  visited (setupEventListeners self p) t = visited p t.
Proof. done. Qed.

Lemma listeners_teardown_setup self p :
  listeners (teardownEventListeners self (setupEventListeners self p))
  = listeners (teardownEventListeners self p).
Proof.
  unfold teardownEventListeners, off, setupEventListeners.
  cbn [listeners set_listeners].
  rewrite !filter_app. simpl.
  rewrite (filter_cons_False _ (Event.dragenter, self))
    by (intros H; by apply H).
  rewrite (filter_cons_True _ (Event.dragleave, self)) by (by intros [? _]).
  rewrite filter_nil.
  rewrite (filter_cons_False _ (Event.dragleave, self))
    by (intros H; by apply H).
  by rewrite filter_nil, app_nil_r.
Qed.

(** C9 as stated fails: the handlers of [A] bound a second time, then one
    [dragenter] on [A]'s element.  The list of handlers has grown and the
    counter is 2, where a single attach gives 1. *)
Lemma C9_second_attach_counts_twice_counterexample :
  listeners attached_twice ≠ listeners (one_target false) ∧
  dragcount (run [(Event.dragenter, A)] (one_target false)) A = 1 ∧
  dragcount (run [(Event.dragenter, A)] attached_twice) A = 2.
Proof. vm_compute. by repeat split. Qed.

End Attach.

(** ** The derived [isEmpty] *)

Section IsEmpty.

Import Component.

Lemma count_element_loading self k p this x :
  (λ c, (isLoading c, isLoaded c)) <$> components (count_element self k p this) !! x
  = (λ c, (isLoading c, isLoaded c)) <$> components p !! x.
Proof.
  unfold count_element, didDragOverRoot, didDragOffRoot, didDragOver,
    didDragOff, update.
  repeat case_match; cbn [components set_components set_data addClass
    removeClass set_classes];
    (destruct (decide (x = self)) as [->|Hx];
     [rewrite lookup_alter_eq; by destruct (components p !! self)
     |by rewrite lookup_alter_ne]).
Qed.

Lemma trigger_loading e p x :
  (λ c, (isLoading c, isLoaded c)) <$> components (trigger e p).2 !! x
  = (λ c, (isLoading c, isLoaded c)) <$> components p !! x.
Proof.
  unfold trigger. destruct (bubbles_through _ _); [|done].
  generalize (Event.type e) as k. generalize (listeners p) as ls.
  intros ls k. revert e p.
  induction ls as [|l ls IH]; intros e p; cbn [foldl fst snd]; [done|].
  case_bool_decide; [|by apply IH].
  destruct (calculateDropCount l.2 e p) as [e' p'] eqn:Hcd. rewrite IH.
  replace p' with (calculateDropCount l.2 e p).2 by (by rewrite Hcd).
  unfold calculateDropCount; cbn [snd]. clear Hcd.
  generalize (visited p (Event.target e)) as vs. intros vs. revert p.
  induction vs as [|v vs IHv]; intros p; cbn [foldl]; [done|].
  by rewrite IHv, count_element_loading.
Qed.

Lemma drop_loading self e p x :
  (λ c, (isLoading c, isLoaded c)) <$> components (drop self e p).2 !! x
  = (λ c, (isLoading c, isLoaded c)) <$> components p !! x.
Proof.
  destruct (components p !! self) as [c|] eqn:Hc;
    [|by rewrite drop_none].
  destruct (decide (x = self)) as [->|Hx].
  - destruct (drop_cases self c e p Hc) as [Hd|[He Hr]].
    + rewrite Hd. cbn [snd].
      by rewrite lookup_cleanUpDragCounters, Hc.
    + destruct (drop_delivery self c e p Hc He Hr) as [_ ->].
      rewrite Hc. by destruct (allowMultiple c).
  - destruct (drop_cases self c e p Hc) as [Hd|[He Hr]].
    + rewrite Hd. cbn [snd].
      by rewrite lookup_cleanUpDragCounters_ne.
    + rewrite (drop_files self c e p Hc He Hr). cbn [snd].
      unfold update; cbn [components add_calls set_components].
      by rewrite !lookup_alter_ne, lookup_cleanUpDragCounters_ne.
Qed.

(** C10 ([isEmpty]): the value is the negation of ([isLoading] or
    [isLoaded]), true exactly when both are falsy; it is a function of
    these two properties alone, which no drag event and no drop changes,
    so that [isEmpty] is the same before and after them for every
    component on the page. *)
Theorem C10_isEmpty_negates_loading_or_loaded :
  (∀ c, isEmpty c
        = negb (JS.truthy (isLoading c) || JS.truthy (isLoaded c))) ∧
  (∀ c, isEmpty c = true
        ↔ JS.truthy (isLoading c) = false ∧ JS.truthy (isLoaded c) = false) ∧
  (∀ c b, isEmpty (set_isDragging b c) = isEmpty c ∧
          isEmpty (set_isDraggingOver b c) = isEmpty c ∧
          isEmpty (set_isDropped b c) = isEmpty c) ∧
  (∀ e p x, isEmpty <$> components (trigger e p).2 !! x
            = isEmpty <$> components p !! x) ∧
  (∀ self e p x, isEmpty <$> components (drop self e p).2 !! x
                 = isEmpty <$> components p !! x) ∧
  (∀ self e p x, isEmpty <$> components (dragOver self e p).2 !! x
                 = isEmpty <$> components p !! x).
Proof.
  assert (∀ c, isEmpty c
               = negb (JS.truthy (isLoading c) || JS.truthy (isLoaded c)))
    as Heq.
  { intros c. unfold isEmpty, JS.not, JS.or.
    by destruct (JS.truthy (isLoading c)) eqn:E; rewrite ?E. }
  assert (∀ (o o' : option Component),
            (λ c, (isLoading c, isLoaded c)) <$> o
            = (λ c, (isLoading c, isLoaded c)) <$> o' →
            isEmpty <$> o = isEmpty <$> o') as Hfun.
  { intros [c|] [c'|]; simpl; intros H; try done.
    injection H as H1 H2. f_equal. unfold isEmpty. by rewrite H1, H2. }
  split; [exact Heq|]. split.
  { intros c. rewrite Heq, negb_true_iff, orb_false_iff. done. }
  split; [done|]. split.
  { intros e p x. apply Hfun, trigger_loading. }
  split; [|done].
  intros self e p x. apply Hfun, drop_loading.
Qed.

End IsEmpty.

(** ** Balanced sequences of enters and leaves *)

Section Balanced.

Import Component Fixtures.

Lemma sum_zero {A} (f : A → Z) l :
  (∀ a, a ∈ l → f a = 0) → foldr Z.add 0 (f <$> l) = 0.
Proof.
  induction l as [|a l IH]; intros H; csimpl; [done|].
  rewrite H by apply list_elem_of_here.
  rewrite IH; [done|]. intros b Hb. apply H. by apply list_elem_of_further.
Qed.

Lemma sum_add {A} (f g : A → Z) l :
  foldr Z.add 0 ((λ a, f a + g a) <$> l)
  = foldr Z.add 0 (f <$> l) + foldr Z.add 0 (g <$> l).
Proof. induction l as [|a l IH]; csimpl; [done|]. rewrite IH. lia. Qed.

Lemma sum_ext {A} (f g : A → Z) l :
  (∀ a, a ∈ l → f a = g a) →
  foldr Z.add 0 (f <$> l) = foldr Z.add 0 (g <$> l).
Proof.
  induction l as [|a l IH]; intros H; csimpl; [done|].
  rewrite H by apply list_elem_of_here.
  rewrite IH; [done|]. intros b Hb. apply H. by apply list_elem_of_further.
Qed.

(** The one term of a sum over distinct targets that is picked by [t]. *)
Lemma sum_pick (g : elem → Z) (t : elem) (s : Z) (ts : list elem) :
  NoDup ts → t ∈ ts →
  foldr Z.add 0 ((λ u, g u * (if bool_decide (t = u) then s else 0)) <$> ts)
  = g t * s.
Proof.
  induction 1 as [|u ts Hu Hts IH]; intros Ht; [by apply not_elem_of_nil in Ht|].
  csimpl.
  apply elem_of_cons in Ht as [->|Ht].
  - rewrite bool_decide_eq_true_2 by done.
    rewrite sum_zero; [lia|].
    intros a Ha. rewrite bool_decide_eq_false_2; [lia|]. by intros ->.
  - rewrite bool_decide_eq_false_2 by (by intros ->).
    rewrite (IH Ht). lia.
Qed.

(** A sum over the events, regrouped by target. *)
Lemma sum_by_target (g : elem → Z) (ts : list elem) (evs : list (Event.kind * elem)) :
  NoDup ts → (∀ ev, ev ∈ evs → ev.2 ∈ ts) →
  foldr Z.add 0 ((λ ev, g ev.2 * sign ev.1) <$> evs)
  = foldr Z.add 0 ((λ t, g t * net t evs) <$> ts).
Proof.
  intros Hts. induction evs as [|ev evs IH]; intros Hin.
  - csimpl. symmetry. apply sum_zero. intros t _. unfold net; csimpl. lia.
  - csimpl.
    rewrite IH by (intros ev' Hev'; apply Hin; by apply list_elem_of_further).
    rewrite <- (sum_pick g ev.2 (sign ev.1) ts Hts)
      by (apply Hin, list_elem_of_here).
    rewrite <- sum_add. apply sum_ext. intros t _.
    unfold net. csimpl. lia.
Qed.

Lemma balanced_sum (g : elem → Z) (evs : list (Event.kind * elem)) :
  (∀ t, net t evs = 0) →
  foldr Z.add 0 ((λ ev, g ev.2 * sign ev.1) <$> evs) = 0.
Proof.
  intros Hnet.
  rewrite (sum_by_target g (remove_dups (evs.*2))).
  - apply sum_zero. intros t _. rewrite Hnet. lia.
  - apply NoDup_remove_dups.
  - intros ev Hev. apply elem_of_remove_dups, list_elem_of_fmap. by exists ev.
Qed.

(** After a balanced sequence every counter has the value it had before,
    however many components are attached. *)
Lemma balanced_counters_unchanged p evs x :
  paired p → balanced evs → dragcount (run evs p) x = dragcount p x.
Proof.
  intros Hp [Hkinds Hnet]. rewrite dragcount_run.
  pose (g := λ t : elem,
          if bubbles_through (rootElement p) (Event.make Event.dragenter t [])
             && bool_decide (x ∈ visited p t)
          then Z.of_nat (bound Event.dragenter p) else 0).
  rewrite (sum_ext _ (λ ev, g ev.2 * sign ev.1)).
  - rewrite balanced_sum by done. lia.
  - intros [k t] Hev. eapply Forall_forall in Hkinds; [|exact Hev].
    unfold effect, g. cbn [fst snd] in *.
    change (bubbles_through (rootElement p) (Event.make k t []))
      with (bubbles_through (rootElement p) (Event.make Event.dragenter t [])).
    destruct Hkinds as [->| ->]; rewrite <- ?Hp; unfold offset; simpl;
      case_match; lia.
Qed.

End Balanced.

(** ** A page with a single component *)

Section SingleComponent.

Import Component Fixtures.

Lemma count_element_follow self k p this :
  self ≠ rootElement p →
  this = rootElement p ∨ this = self →
  flags_follow_counters self p →
  flags_follow_counters self (count_element self k p this).
Proof.
  intros Hroot Hthis (c & Hc & Hd & Ho).
  destruct (count_element_same_targets self k p this) as (Hr & _ & _).
  unfold flags_follow_counters. rewrite Hr.
  rewrite (count_element_flags self k p this c Hc).
  rewrite !dragcount_count_element.
  destruct Hthis as [->| ->].
  - rewrite (bool_decide_eq_true_2 (rootElement p = rootElement p)) by done.
    rewrite (bool_decide_eq_false_2 (self = rootElement p)) by done.
    eexists. split; [done|]. cbn [isDragging isDraggingOver set_isDragging].
    split; [done|]. rewrite Ho. f_equal. lia.
  - rewrite (bool_decide_eq_false_2 (self = rootElement p)) by done.
    rewrite (bool_decide_eq_false_2 (rootElement p = self)) by done.
    rewrite (bool_decide_eq_true_2 (self = self)) by done.
    eexists. split; [done|]. cbn [isDragging isDraggingOver set_isDraggingOver].
    split; [|done]. rewrite Hd. f_equal. lia.
Qed.

Lemma foldl_count_element_follow self k l :
  ∀ p, self ≠ rootElement p →
  (∀ y, y ∈ l → y = rootElement p ∨ y = self) →
  flags_follow_counters self p →
  flags_follow_counters self (foldl (count_element self k) p l).
Proof.
  induction l as [|y l IH]; intros p Hroot Hl Hf; cbn [foldl]; [done|].
  destruct (count_element_same_targets self k p y) as (Hr & _ & _).
  apply IH.
  - by rewrite Hr.
  - rewrite Hr. intros z Hz. apply Hl. by apply list_elem_of_further.
  - apply count_element_follow; [done| |done]. apply Hl, list_elem_of_here.
Qed.

Lemma only_component_same_targets self p p' :
  same_targets p p' → only_component self p → only_component self p'.
Proof.
  intros (Hr & Hl & Hc) (H1 & H2 & H3). unfold only_component.
  rewrite Hr, Hl. split; [done|]. split; [|done].
  intros y. rewrite Hc. apply H2.
Qed.

Lemma calculateDropCount_follow self e p :
  self ≠ rootElement p →
  (∀ y, hasClass y "file-drop-target" p = true → y = self) →
  flags_follow_counters self p →
  flags_follow_counters self (calculateDropCount self e p).2.
Proof.
  intros Hroot Hcls Hf. unfold calculateDropCount; cbn [snd].
  apply foldl_count_element_follow; [done| |done].
  intros y Hy. apply elem_of_visited in Hy as [[Hy _]|Hy]; [right|by left].
  by apply Hcls.
Qed.

(** With a single component on the page, enters and leaves keep the flags
    in step with the counters. *)
Lemma trigger_follow self e p :
  only_component self p →
  flags_follow_counters self p →
  flags_follow_counters self (trigger e p).2.
Proof.
  intros Honly Hf. unfold trigger. destruct (bubbles_through _ _); [|done].
  destruct Honly as (Hroot & Hcls & Hls).
  revert Hls. generalize (Event.type e) as k. generalize (listeners p) as ls.
  intros ls k. revert e p Hroot Hcls Hf.
  induction ls as [|l ls IH]; intros e p Hroot Hcls Hf Hls;
    cbn [foldl fst snd]; [done|].
  case_bool_decide.
  - rewrite (Hls l) by apply list_elem_of_here.
    destruct (calculateDropCount self e p) as [e' p'] eqn:Hcd.
    assert (p' = (calculateDropCount self e p).2) as -> by (by rewrite Hcd).
    pose proof (calculateDropCount_same_targets self e p) as (Hr & _ & Hc).
    apply IH.
    + by rewrite Hr.
    + intros y. rewrite Hc. apply Hcls.
    + by apply calculateDropCount_follow.
    + intros l' Hl'. apply Hls. by apply list_elem_of_further.
  - apply IH; try done. intros l' Hl'. apply Hls. by apply list_elem_of_further.
Qed.

Lemma run_follow self evs :
  ∀ p, only_component self p →
  flags_follow_counters self p →
  flags_follow_counters self (run evs p).
Proof.
  induction evs as [|ev evs IH]; intros p Honly Hf; cbn [run foldl]; [done|].
  apply IH.
  - eapply only_component_same_targets; [apply trigger_same_targets|done].
  - by apply trigger_follow.
Qed.

(** With a single component on the page, a balanced sequence that starts
    with all counters at 0 ends with both flags false. *)
Lemma single_component_balanced_flags self p evs :
  only_component self p → paired p → balanced evs →
  flags_follow_counters self p →
  dragcount p (rootElement p) = 0 → dragcount p self = 0 →
  ∃ c, components (run evs p) !! self = Some c ∧
       isDragging c = false ∧ isDraggingOver c = false.
Proof.
  intros Honly Hp Hb Hf Hr Hs.
  destruct (run_follow self evs p Honly Hf) as (c & Hc & Hd & Ho).
  destruct (run_same_targets evs p) as (Hroot & _ & _).
  rewrite Hroot in Hd.
  rewrite balanced_counters_unchanged in Hd, Ho by done.
  rewrite Hr in Hd. rewrite Hs in Ho. by exists c.
Qed.

Example single_component_balanced :
  let p := run [(Event.dragenter, A); (Event.dragenter, inner);
                (Event.dragleave, A); (Event.dragleave, inner)]
             (one_target false) in
  dragcount p A = 0 ∧ dragcount p root = 0 ∧
  isDraggingOver <$> components p !! A = Some false ∧
  isDragging <$> components p !! A = Some false.
Proof. vm_compute. done. Qed.

End SingleComponent.

(** ** Checks of the embedding on small pages *)

Section Checks.

Import Component Fixtures.

Example parents_closest_first :
  JQuery.parents inner = [A; root; []].
Proof. reflexivity. Qed.

Example addBack_document_order :
  JQuery.addBack (JQuery.parents inner) [inner] = [[]; root; A; inner].
Proof. reflexivity. Qed.

Example visited_nested : visited nested inner = [root; A; inner].
Proof. by vm_compute. Qed.

Example visited_sibling : visited two_siblings B = [root; B].
Proof. by vm_compute. Qed.

(** An event outside the root never reaches the handlers. *)
Example enter_outside_root :
  dragcount (run [(Event.dragenter, [0; 3]%nat)] two_siblings) root = 0.
Proof. by vm_compute. Qed.

Example default_allowedTypes :
  anything "image/png" = true ∧ anything "" = false.
Proof. done. Qed.

(** A freshly rendered component is alone on its page, with flags and
    counters in step. *)
Lemma insertElement_alone self c r :
  self ≠ r → isDragging c = false → isDraggingOver c = false →
  let p := insertElement self c (empty r) in
  only_component self p ∧ paired p ∧ flags_follow_counters self p ∧
  dragcount p (rootElement p) = 0 ∧ dragcount p self = 0.
Proof.
  intros Hr Hd Ho p. subst p. repeat split; try done.
  - intros y Hy. apply bool_decide_eq_true in Hy.
    unfold insertElement, setupEventListeners, addClass, empty in Hy.
    cbn [classes set_listeners set_classes set_components] in Hy.
    apply elem_of_union in Hy as [Hy|Hy]; [|by apply not_elem_of_empty in Hy].
    apply elem_of_singleton in Hy. by inversion Hy.
  - intros l Hl.
    unfold insertElement, setupEventListeners, empty in Hl.
    cbn [listeners set_listeners addClass set_classes set_components app] in Hl.
    apply elem_of_cons in Hl as [->|Hl]; [done|].
    by apply list_elem_of_singleton in Hl as ->.
  - exists c. unfold insertElement, setupEventListeners, addClass, empty.
    cbn [components set_listeners set_classes set_components].
    rewrite lookup_insert_eq. by rewrite Hd, Ho.
Qed.

(** The hover flags of a component alone on its page are false after any
    balanced sequence of enters and leaves. *)
Lemma alone_balanced_flags self c r evs :
  self ≠ r → isDragging c = false → isDraggingOver c = false →
  balanced evs →
  ∃ c', components (run evs (insertElement self c (empty r))) !! self = Some c' ∧
        isDragging c' = false ∧ isDraggingOver c' = false.
Proof.
  intros Hr Hd Ho Hb.
  destruct (insertElement_alone self c r Hr Hd Ho) as (H1 & H2 & H3 & H4 & H5).
  by apply single_component_balanced_flags.
Qed.

(** The addon's [drop] removes the key [dragCount]; the counters, kept
    under [dragcount], stay as they were. *)
Lemma addon_drop_keeps_counters :
  let p := Addon.run [(Event.dragenter, A)] addon_one_target in
  let p' := (Addon.drop A (Event.make_array Event.drop A [png]) p).2 in
  Addon.dragcount p A = 1 ∧ Addon.dragcount p' A = 1 ∧
  Addon.dragcount p' root = 1 ∧
  Addon.hasClass A "file-drop-target-drag-over" p' = true ∧
  Addon.calls p' = [fileDropped_called A png].
Proof. vm_compute. done. Qed.

(** One file dropped from the browser on the addon's component: the
    payload is a [FileList], on which [files.filter] is undefined. *)
Example addon_drop_one_file_of_a_FileList :
  let e := Event.make Event.drop A [png] in
  Addon.drop_completion A e addon_one_target
  = throws "TypeError: files.filter is not a function" ∧
  Addon.calls (Addon.drop A e addon_one_target).2 = [] ∧
  Addon.file <$> Addon.components (Addon.drop A e addon_one_target).2 !! A
  = Some None.
Proof. vm_compute. done. Qed.

(** The example of the type filter: an image and a text file on a target
    for images that allows several files. *)
Example drop_png_and_text_multiple :
  let p' := (drop A (Event.make Event.drop A [png; txt]) (one_target true)).2 in
  calls p' = [invalidFileType_called A txt; fileDropped_called A png] ∧
  files <$> components p' !! A = Some (Some [png]) ∧
  isDropped <$> components p' !! A = Some true.
Proof. vm_compute. done. Qed.

(** Three files in an array on a single-file target. *)
Example drop_three_files_single :
  let e := Event.make_array Event.drop A [png; gif; txt] in
  let p' := (drop A e (one_target false)).2 in
  drop_completion A e (one_target false) = returns ∧
  calls p' = [fileDropped_called A png] ∧
  file <$> components p' !! A = Some (Some png).
Proof. vm_compute. done. Qed.

(** The same files dropped from the browser: the payload is a [FileList],
    on which [files.slice] is undefined. *)
Example drop_three_files_of_a_FileList_single :
  let e := Event.make Event.drop A [png; gif; txt] in
  let p' := (drop A e (one_target false)).2 in
  drop_completion A e (one_target false)
  = throws "TypeError: files.slice is not a function" ∧
  calls p' = [] ∧
  file <$> components p' !! A = Some None ∧
  isDropped <$> components p' !! A = Some false.
Proof. vm_compute. done. Qed.

End Checks.

(** ** Handlers bound on the root, over the life of a page *)

Section Handlers.

Import Component Fixtures.

Lemma bound_in_app k ls ls' :
  bound_in k (ls ++ ls') = (bound_in k ls + bound_in k ls')%nat.
Proof. unfold bound_in. by rewrite filter_app, length_app. Qed.

Lemma bound_for_app k ns ls ls' :
  bound_for k ns (ls ++ ls') = (bound_for k ns ls + bound_for k ns ls')%nat.
Proof. unfold bound_for. by rewrite filter_app, length_app. Qed.

(** Taking the handlers of type [k'] and namespace [ns'] off a list. *)
Lemma bound_for_off k ns k' ns' (ls : list (Event.kind * elem)) :
  bound_for k ns (filter (λ l, ¬ (l.1 = k' ∧ l.2 = ns')) ls)
  = if bool_decide (k = k' ∧ ns = ns') then 0%nat else bound_for k ns ls.
Proof.
  unfold bound_for. induction ls as [|[k0 n0] ls IH].
  - by case_bool_decide.
  - destruct (decide (k0 = k' ∧ n0 = ns')) as [[-> ->]|Hne].
    + rewrite (filter_cons_False _ (k', ns')) by (intros H; by apply H).
      rewrite IH. case_bool_decide as Hk; [done|].
      rewrite (filter_cons_False _ (k', ns')); [done|].
      cbn [fst snd]. intros [-> ->]. by apply Hk.
    + rewrite (filter_cons_True _ (k0, n0)) by done.
      destruct (decide (k0 = k ∧ n0 = ns)) as [[-> ->]|Hne'].
      * rewrite !(filter_cons_True _ (k, ns)) by done. cbn [length].
        rewrite IH. case_bool_decide as Hk; [|done].
        destruct Hk as [-> ->]. by destruct Hne.
      * rewrite !(filter_cons_False _ (k0, n0)) by done. apply IH.
Qed.

Lemma bound_in_off k k' ns' (ls : list (Event.kind * elem)) :
  (bound_in k (filter (λ l, ¬ (l.1 = k' ∧ l.2 = ns')) ls)
   + (if bool_decide (k = k') then bound_for k ns' ls else 0))%nat
  = bound_in k ls.
Proof.
  unfold bound_in, bound_for. case_bool_decide as Hk.
  - subst k'. induction ls as [|[k0 n0] ls IH]; [done|].
    destruct (decide (k0 = k ∧ n0 = ns')) as [[-> ->]|Hne].
    + rewrite (filter_cons_False _ (k, ns')) by (intros H; by apply H).
      rewrite !(filter_cons_True _ (k, ns')) by done. cbn [length]. lia.
    + rewrite (filter_cons_True _ (k0, n0)) by done.
      rewrite (filter_cons_False (λ l, l.1 = k ∧ l.2 = ns') (k0, n0)) by done.
      destruct (decide (k0 = k)) as [->|Hk0].
      * rewrite !(filter_cons_True _ (k, n0)) by done. cbn [length]. lia.
      * by rewrite !(filter_cons_False _ (k0, n0)) by done.
  - rewrite Nat.add_0_r. induction ls as [|[k0 n0] ls IH]; [done|].
    destruct (decide (k0 = k' ∧ n0 = ns')) as [[-> ->]|Hne].
    + rewrite (filter_cons_False _ (k', ns')) by (intros H; by apply H).
      by rewrite (filter_cons_False _ (k', ns')) by (cbn; congruence).
    + rewrite (filter_cons_True _ (k0, n0)) by done.
      destruct (decide (k0 = k)) as [->|Hk0].
      * rewrite !(filter_cons_True _ (k, n0)) by done. cbn [length]. lia.
      * by rewrite !(filter_cons_False _ (k0, n0)) by done.
Qed.

Lemma evenly_bound_setup self ls :
  evenly_bound ls →
  evenly_bound (ls ++ [(Event.dragenter, self); (Event.dragleave, self)]).
Proof.
  intros [Hall Hns]. split.
  - rewrite !bound_in_app, Hall. done.
  - intros ns. rewrite !bound_for_app, Hns.
    unfold bound_for. destruct (decide (self = ns)) as [->|Hne].
    + rewrite (filter_cons_True _ (Event.dragenter, ns)) by done.
      rewrite (filter_cons_False _ (Event.dragleave, ns)) by (by intros [? _]).
      rewrite (filter_cons_False _ (Event.dragenter, ns)) by (by intros [? _]).
      rewrite (filter_cons_True _ (Event.dragleave, ns)) by done.
      done.
    + rewrite !(filter_cons_False _ (_, self)) by (intros [_ ?]; done).
      done.
Qed.

Lemma evenly_bound_teardown self (ls : list (Event.kind * elem)) :
  evenly_bound ls →
  evenly_bound
    (filter (λ l, ¬ (l.1 = Event.dragleave ∧ l.2 = self))
       (filter (λ l, ¬ (l.1 = Event.dragenter ∧ l.2 = self)) ls)).
Proof.
  intros [Hall Hns]. split.
  - pose proof (bound_in_off Event.dragenter Event.dragleave self
                  (filter (λ l, ¬ (l.1 = Event.dragenter ∧ l.2 = self)) ls)) as H1.
    pose proof (bound_in_off Event.dragenter Event.dragenter self ls) as H2.
    pose proof (bound_in_off Event.dragleave Event.dragleave self
                  (filter (λ l, ¬ (l.1 = Event.dragenter ∧ l.2 = self)) ls)) as H3.
    pose proof (bound_in_off Event.dragleave Event.dragenter self ls) as H4.
    rewrite bound_for_off in H3.
    rewrite bool_decide_eq_false_2 in H1 by done.
    rewrite bool_decide_eq_true_2 in H2 by done.
    rewrite bool_decide_eq_true_2 in H3 by done.
    rewrite bool_decide_eq_false_2 in H3 by (by intros [? _]).
    rewrite bool_decide_eq_false_2 in H4 by done.
    specialize (Hns self). lia.
  - intros ns. rewrite !bound_for_off.
    repeat case_bool_decide; try done; try apply Hns;
      exfalso; intuition congruence.
Qed.

Lemma listeners_cleanUpDragCounters self p :
  listeners (cleanUpDragCounters self p) = listeners p.
Proof. done. Qed.

Lemma drop_same_targets self e p : same_targets p (drop self e p).2.
Proof.
  destruct (components p !! self) as [c|] eqn:Hc;
    [|rewrite drop_none by done; apply same_targets_refl].
  assert (same_targets p (cleanUpDragCounters self p)) as Hs.
  { repeat split; try done. intros y.
    etransitivity;
      [apply (hasClass_target_removeClass (rootElement p) y
                (update self (set_isDragging false)
                   (update self (set_isDraggingOver false) p)))|done]. }
  destruct (drop_cases self c e p Hc) as [Hd|[He Hr]].
  - by rewrite Hd.
  - rewrite (drop_files self c e p Hc He Hr). exact Hs.
Qed.

Lemma reachable_evenly_bound p : reachable p → evenly_bound (listeners p).
Proof.
  induction 1 as [root|self c p _ IH|self p _ IH|self p _ IH|e p _ IH
                 |self e p _ IH|self e p _ IH].
  - by split.
  - by apply evenly_bound_setup.
  - by apply evenly_bound_setup.
  - by apply evenly_bound_teardown.
  - destruct (trigger_same_targets e p) as (_ & -> & _). done.
  - done.
  - destruct (drop_same_targets self e p) as (_ & -> & _). done.
Qed.

Lemma reachable_paired p : reachable p → paired p.
Proof. intros H. by destruct (reachable_evenly_bound p H). Qed.

End Handlers.

(** ** What the counters are, and where they live *)

Section Counters.

Import Component Fixtures.

Lemma tracked_same_targets p p' x :
  same_targets p p' → tracked p x → tracked p' x.
Proof.
  intros (Hr & _ & Hc). unfold tracked. rewrite Hr, Hc. done.
Qed.

Lemma counters_on_targets_count_element self k p this :
  tracked p this → counters_on_targets p →
  counters_on_targets (count_element self k p this).
Proof.
  intros Ht Hp x key Hx. rewrite data_count_element in Hx.
  pose proof (count_element_same_targets self k p this) as Hs.
  destruct (decide ((this, "dragcount") = (x, key))) as [Heq|Hne].
  - injection Heq as <- <-. split; [done|]. by eapply tracked_same_targets.
  - rewrite lookup_insert_ne in Hx by done.
    destruct (Hp x key Hx) as [-> Hx']. split; [done|].
    by eapply tracked_same_targets.
Qed.

Lemma counters_on_targets_foldl self k l :
  ∀ p, (∀ y, y ∈ l → tracked p y) → counters_on_targets p →
  counters_on_targets (foldl (count_element self k) p l).
Proof.
  induction l as [|y l IH]; intros p Hl Hp; cbn [foldl]; [done|].
  apply IH.
  - intros z Hz. eapply tracked_same_targets;
      [apply count_element_same_targets|]. apply Hl. by apply list_elem_of_further.
  - apply counters_on_targets_count_element; [|done].
    apply Hl, list_elem_of_here.
Qed.

Lemma counters_on_targets_calculateDropCount self e p :
  counters_on_targets p → counters_on_targets (calculateDropCount self e p).2.
Proof.
  intros Hp. unfold calculateDropCount; cbn [snd].
  apply counters_on_targets_foldl; [|done].
  intros y Hy. by eapply visited_tracked.
Qed.

Lemma counters_on_targets_trigger e p :
  counters_on_targets p → counters_on_targets (trigger e p).2.
Proof.
  intros Hp. unfold trigger. destruct (bubbles_through _ _); [|done].
  generalize (Event.type e) as k. generalize (listeners p) as ls.
  intros ls k. revert e p Hp.
  induction ls as [|l ls IH]; intros e p Hp; cbn [foldl fst snd]; [done|].
  case_bool_decide; [|by apply IH].
  destruct (calculateDropCount l.2 e p) as [e' p'] eqn:Hcd.
  apply IH. replace p' with (calculateDropCount l.2 e p).2 by (by rewrite Hcd).
  by apply counters_on_targets_calculateDropCount.
Qed.

Lemma data_drop self c e p :
  components p !! self = Some c →
  data (drop self e p).2 = data (cleanUpDragCounters self p).
Proof.
  intros Hc. destruct (drop_cases self c e p Hc) as [Hd|[He Hr]].
  - by rewrite Hd.
  - by rewrite (drop_files self c e p Hc He Hr).
Qed.

Lemma counters_on_targets_drop self e p :
  counters_on_targets p → counters_on_targets (drop self e p).2.
Proof.
  intros Hp.
  destruct (components p !! self) as [c|] eqn:Hc;
    [|by rewrite drop_none].
  intros x key Hx. rewrite (data_drop self c e p Hc) in Hx.
  unfold cleanUpDragCounters, removeData_targets in Hx.
  cbn [data set_data] in Hx.
  destruct Hx as [v Hv]. apply map_lookup_filter_Some in Hv as [Hv _].
  destruct (Hp x key) as [-> Ht]; [by exists v|].
  split; [done|]. eapply tracked_same_targets; [apply drop_same_targets|done].
Qed.

Lemma counters_on_targets_insertElement self c p :
  counters_on_targets p → counters_on_targets (insertElement self c p).
Proof.
  intros Hp x key Hx. destruct (Hp x key Hx) as [-> [Ht|Ht]].
  - split; [done|]. left. apply bool_decide_eq_true.
    apply bool_decide_eq_true in Ht.
    unfold insertElement, setupEventListeners, addClass.
    cbn [classes set_listeners set_classes set_components].
    apply elem_of_union. by right.
  - split; [done|]. by right.
Qed.

Lemma reachable_counters_on_targets p : reachable p → counters_on_targets p.
Proof.
  induction 1 as [root|self c p _ IH|self p _ IH|self p _ IH|e p _ IH
                 |self e p _ IH|self e p _ IH]; try done.
  - intros x key [v Hv]. unfold empty in Hv. cbn [data] in Hv.
    by rewrite lookup_empty in Hv.
  - by apply counters_on_targets_insertElement.
  - by apply counters_on_targets_trigger.
  - by apply counters_on_targets_drop.
Qed.

(** X1 (counting law of [calculateDropCount]): an event fired on the page
    adds its offset (1 for [dragenter], -1 otherwise) once for every
    handler bound for its type to the counter of each element visited, and
    leaves every other counter as it is; an event that does not pass
    through the root changes no counter. *)
Theorem X1_event_adds_offset_per_handler e p x :
  dragcount (trigger e p).2 x
  = dragcount p x
    + (if bubbles_through (rootElement p) e
          && bool_decide (x ∈ visited p (Event.target e))
       then offset (Event.type e) * Z.of_nat (bound (Event.type e) p)
       else 0).
Proof. apply dragcount_trigger. Qed.

(** X2 (the elements visited): for an event on [t] the handler visits the
    root and the drop targets among [t] and its ancestors, nothing else,
    each of them once and in document order. *)
Theorem X2_visited_is_root_and_target_ancestors p t :
  rootElement p ∈ visited p t ∧
  (∀ x, x ∈ visited p t ↔
        (hasClass x "file-drop-target" p = true ∧
         ((∃ k, k ≠ [] ∧ t = x ++ k) ∨ x = t))
        ∨ x = rootElement p) ∧
  NoDup (visited p t) ∧
  StronglySorted JQuery.doc_lt (visited p t).
Proof.
  split; [apply elem_of_visited; by right|]. split.
  - intros x. rewrite elem_of_visited, elem_of_parents. done.
  - split; [apply NoDup_add|apply uniqueSort_sorted].
Qed.

(** X3 (balanced sequences and counters): on a page made by rendering,
    attaching and detaching components and by earlier events and drops,
    however many components there are, a sequence of enters and leaves
    with as many enters as leaves on every element puts every counter back
    to the value it had. *)
Theorem X3_balanced_sequence_restores_counters p evs x :
  reachable p → balanced evs → dragcount (run evs p) x = dragcount p x.
Proof.
  intros Hp Hb. apply balanced_counters_unchanged; [|done].
  by apply reachable_paired.
Qed.

Lemma X3_balanced_sequence_restores_counters_witness :
  dragcount
    (run [(Event.dragenter, A); (Event.dragenter, B);
          (Event.dragleave, B); (Event.dragleave, A)]
       (run [(Event.dragenter, inner)] two_siblings)) A
  = dragcount (run [(Event.dragenter, inner)] two_siblings) A.
Proof.
  apply X3_balanced_sequence_restores_counters.
  - apply reachable_trigger.
    do 2 apply reachable_insertElement. apply reachable_empty.
  - split;
      [repeat (constructor; [first [by left|by right]|]); constructor|].
    intros t. unfold net. cbn [fmap list_fmap foldr fst snd sign].
    repeat case_bool_decide; lia.
Defined.

(** X4 (nothing but counters after a drop): on such a page the jQuery data
    hold only counters of drop targets and of the root, and a drop on a
    rendered component removes them all: the data are empty afterwards. *)
Theorem X4_drop_empties_the_data self c e p :
  reachable p → components p !! self = Some c →
  data (drop self e p).2 = ∅.
Proof.
  intros Hp Hc. rewrite (data_drop self c e p Hc).
  apply map_eq. intros [x key]. rewrite lookup_empty.
  destruct (data p !! (x, key)) as [v|] eqn:Hv.
  - destruct (reachable_counters_on_targets p Hp x key) as [-> Ht];
      [by exists v|].
    by apply cleanUpDragCounters_counters.
  - unfold cleanUpDragCounters, removeData_targets. cbn [data set_data].
    apply map_lookup_filter_None. by left.
Qed.

Lemma X4_drop_empties_the_data_witness :
  data (drop A (Event.make Event.drop A [png])
          (run [(Event.dragenter, A); (Event.dragenter, B)] two_siblings)).2
  = ∅.
Proof.
  apply (X4_drop_empties_the_data A
           (set_isDraggingOver true
              (set_isDragging true (create false anything true true)))).
  - do 2 apply reachable_trigger.
    do 2 apply reachable_insertElement. apply reachable_empty.
  - by vm_compute.
Defined.

End Counters.

(** ** A component alone on its page, at any time *)

Section Alone.

Import Component Fixtures.

Lemma dragcount_drop_tracked self c e p x :
  components p !! self = Some c → tracked p x →
  dragcount (drop self e p).2 x = 0.
Proof.
  intros Hc Hx. unfold dragcount. rewrite (data_drop self c e p Hc).
  by rewrite cleanUpDragCounters_counters.
Qed.

Lemma flags_drop self c e p :
  components p !! self = Some c →
  ∃ c', components (drop self e p).2 !! self = Some c' ∧
        isDragging c' = false ∧ isDraggingOver c' = false.
Proof.
  intros Hc. destruct (drop_cases self c e p Hc) as [Hd|[He Hr]].
  - rewrite Hd. cbn [snd].
    rewrite lookup_cleanUpDragCounters, Hc. by eexists.
  - destruct (drop_delivery self c e p Hc He Hr) as [_ ->].
    eexists. split; [done|]. by destruct (allowMultiple c).
Qed.

Lemma alone_invariant self r p :
  self ≠ r → alone self r p →
  rootElement p = r ∧
  listeners p = [(Event.dragenter, self); (Event.dragleave, self)] ∧
  hasClass self "file-drop-target" p = true ∧
  only_component self p ∧
  flags_follow_counters self p.
Proof.
  intros Hr. induction 1 as [c Hd Ho|e p _ IH|e p _ IH|e p _ IH].
  - destruct (insertElement_alone self c r Hr Hd Ho) as (H1 & _ & H3 & _).
    repeat split; try done; try apply H1.
    apply bool_decide_eq_true.
    unfold insertElement, setupEventListeners, addClass.
    cbn [classes set_listeners set_classes set_components].
    apply elem_of_union. left. by apply elem_of_singleton.
  - destruct IH as (H1 & H2 & H3 & H4 & H5).
    pose proof (trigger_same_targets e p) as Hs.
    destruct Hs as (Hs1 & Hs2 & Hs3).
    rewrite Hs1, Hs2, Hs3. repeat split; try done.
    + by rewrite Hs1; destruct H4.
    + intros y. rewrite Hs3. apply H4.
    + rewrite Hs2. apply H4.
    + by apply trigger_follow.
  - done.
  - destruct IH as (H1 & H2 & H3 & H4 & H5).
    pose proof (drop_same_targets self e p) as Hs.
    destruct Hs as (Hs1 & Hs2 & Hs3).
    rewrite Hs1, Hs2, Hs3. repeat split; try done.
    + by rewrite Hs1; destruct H4.
    + intros y. rewrite Hs3. apply H4.
    + rewrite Hs2. apply H4.
    + destruct H5 as (c & Hc & _).
      destruct (flags_drop self c e p Hc) as (c' & Hc' & Hd' & Ho').
      exists c'. split; [done|]. rewrite Hs1.
      rewrite (dragcount_drop_tracked self c e p (rootElement p) Hc)
        by (by right).
      rewrite (dragcount_drop_tracked self c e p self Hc) by (by left).
      by rewrite Hd', Ho'.
Qed.

(** X5 (flags of a component alone on its page): whatever events and
    drops have happened, [isDragging] tells whether the counter of the
    root is positive and [isDraggingOver] whether the counter of the
    component's own element is. *)
Theorem X5_alone_flags_follow_counters self r p :
  self ≠ r → alone self r p →
  ∃ c, components p !! self = Some c ∧
       isDragging c = (0 <? dragcount p r) ∧
       isDraggingOver c = (0 <? dragcount p self).
Proof.
  intros Hr Hp.
  destruct (alone_invariant self r p Hr Hp) as (H1 & _ & _ & _ & c & Hc & Hd & Ho).
  exists c. by rewrite <- H1.
Qed.

Lemma X5_alone_flags_follow_counters_witness :
  let p := run [(Event.dragenter, inner); (Event.dragenter, root)]
             (drop A (Event.make Event.drop A [png])
                (run [(Event.dragenter, A)] (one_target false))).2 in
  ∃ c, components p !! A = Some c ∧
       isDragging c = (0 <? dragcount p root) ∧
       isDraggingOver c = (0 <? dragcount p A).
Proof.
  apply (X5_alone_flags_follow_counters A root); [done|].
  do 2 apply alone_trigger. apply alone_drop. apply alone_trigger.
  by apply (alone_rendered A root (target_of_images false)).
Defined.

(** X6 (a component alone, after a balanced sequence): when the counters
    of the root and of the component are 0, as on a fresh page or after a
    drop, a sequence with as many enters as leaves on every element ends
    with both flags false and both counters 0. *)
Theorem X6_alone_balanced_sequence_clears_flags self r p evs :
  self ≠ r → alone self r p →
  dragcount p r = 0 → dragcount p self = 0 →
  balanced evs →
  ∃ c, components (run evs p) !! self = Some c ∧
       isDragging c = false ∧ isDraggingOver c = false ∧
       dragcount (run evs p) r = 0 ∧ dragcount (run evs p) self = 0.
Proof.
  intros Hr Hp H0 H0' Hb.
  destruct (alone_invariant self r p Hr Hp) as (H1 & H2 & _ & H4 & H5).
  assert (paired p) as Hpaired.
  { unfold paired, bound. by rewrite H2. }
  destruct (single_component_balanced_flags self p evs) as (c & Hc & Hd & Ho);
    try done; [by rewrite H1|].
  exists c. rewrite !balanced_counters_unchanged by done. done.
Qed.

Lemma X6_alone_balanced_sequence_clears_flags_witness :
  let p := (drop A (Event.make Event.drop A [png])
              (run [(Event.dragenter, A)] (one_target false))).2 in
  let evs := [(Event.dragleave, inner); (Event.dragenter, A);
              (Event.dragenter, inner); (Event.dragleave, A)] in
  ∃ c, components (run evs p) !! A = Some c ∧
       isDragging c = false ∧ isDraggingOver c = false ∧
       dragcount (run evs p) root = 0 ∧ dragcount (run evs p) A = 0.
Proof.
  apply (X6_alone_balanced_sequence_clears_flags A root).
  - done.
  - apply alone_drop. apply alone_trigger.
    by apply (alone_rendered A root (target_of_images false)).
  - by vm_compute.
  - by vm_compute.
  - split; [repeat (constructor; [first [by left|by right]|]); constructor|].
    intros t. unfold net. cbn [fmap list_fmap foldr fst snd sign].
    repeat case_bool_decide; lia.
Defined.

End Alone.

(** ** Detaching a component *)

Section Detach.

Import Component Fixtures.

Lemma count_element_other self k p this x :
  x ≠ self →
  components (count_element self k p this) !! x = components p !! x.
Proof.
  intros Hx.
  unfold count_element, didDragOverRoot, didDragOffRoot, didDragOver,
    didDragOff, update.
  repeat case_match;
    cbn [components set_components set_data addClass removeClass set_classes];
    by rewrite lookup_alter_ne.
Qed.

Lemma calculateDropCount_other self e p x :
  x ≠ self →
  components (calculateDropCount self e p).2 !! x = components p !! x.
Proof.
  intros Hx. unfold calculateDropCount; cbn [snd].
  generalize (visited p (Event.target e)) as vs. intros vs. revert p.
  induction vs as [|v vs IH]; intros p; cbn [foldl]; [done|].
  by rewrite IH, count_element_other.
Qed.

(** Events leave alone a component that has no handler for them. *)
Lemma trigger_unbound e p x :
  (∀ l, l ∈ listeners p → l.1 = Event.type e → l.2 ≠ x) →
  components (trigger e p).2 !! x = components p !! x.
Proof.
  unfold trigger. destruct (bubbles_through _ _); [|done].
  generalize (Event.type e) as k. generalize (listeners p) as ls.
  intros ls k. revert e p.
  induction ls as [|l ls IH]; intros e p Hls; cbn [foldl fst snd]; [done|].
  assert (∀ l', l' ∈ ls → l'.1 = k → l'.2 ≠ x) as Hls'.
  { intros l' Hl'. apply Hls. by apply list_elem_of_further. }
  case_bool_decide as Hk; [|by apply IH].
  destruct (calculateDropCount l.2 e p) as [e' p'] eqn:Hcd.
  rewrite IH by done.
  replace p' with (calculateDropCount l.2 e p).2 by (by rewrite Hcd).
  apply calculateDropCount_other. intros ->.
  by apply (Hls l (list_elem_of_here _ _)).
Qed.

Lemma elem_of_listeners_teardown self p l :
  l ∈ listeners (teardownEventListeners self p) ↔
  l ∈ listeners p ∧
  ¬ (l.2 = self ∧ (l.1 = Event.dragenter ∨ l.1 = Event.dragleave)).
Proof.
  unfold teardownEventListeners, off. cbn [listeners set_listeners].
  rewrite !list_elem_of_filter. tauto.
Qed.

(** X7 (a detached component is left alone): after
    [teardownEventListeners] no sequence of enters and leaves changes
    anything of the component, whatever it does to the counters through
    the handlers of the others. *)
Theorem X7_detached_component_ignores_events self p evs :
  Forall (λ ev, ev.1 = Event.dragenter ∨ ev.1 = Event.dragleave) evs →
  components (run evs (teardownEventListeners self p)) !! self
  = components p !! self.
Proof.
  intros Hevs.
  change (components p !! self)
    with (components (teardownEventListeners self p) !! self).
  assert (∀ l, l ∈ listeners (teardownEventListeners self p) →
               l.1 = Event.dragenter ∨ l.1 = Event.dragleave → l.2 ≠ self)
    as Hdet.
  { intros l Hl Hk Hself. apply elem_of_listeners_teardown in Hl as [_ Hl].
    by apply Hl. }
  revert Hdet. generalize (teardownEventListeners self p) as q. intros q.
  revert q. induction Hevs as [|ev evs Hev _ IH]; intros q Hdet; [done|].
  change (run (ev :: evs) q)
    with (run evs (trigger (Event.make ev.1 ev.2 []) q).2).
  pose proof (trigger_same_targets (Event.make ev.1 ev.2 []) q)
    as (_ & Hl & _).
  rewrite IH by (by rewrite Hl).
  apply trigger_unbound. intros l Hl' Hk. apply Hdet; [done|].
  cbn in Hk. by rewrite Hk.
Qed.

Lemma X7_detached_component_ignores_events_witness :
  components
    (run [(Event.dragenter, A); (Event.dragleave, A); (Event.dragenter, B)]
       (teardownEventListeners A two_siblings)) !! A
  = components two_siblings !! A.
Proof.
  apply (X7_detached_component_ignores_events A two_siblings).
  repeat (constructor; [first [by left|by right]|]); constructor.
Defined.

Lemma filter_detached (ls : list (Event.kind * elem)) k ns :
  detached ns ls → filter (λ l, ¬ (l.1 = k ∧ l.2 = ns)) ls = ls.
Proof.
  induction ls as [|l ls IH]; intros H; [done|].
  rewrite filter_cons_True.
  - f_equal. apply IH. intros l' Hl'. apply H. by apply list_elem_of_further.
  - intros [_ Hns]. by apply (H l (list_elem_of_here _ _)).
Qed.

Lemma set_listeners_same p : set_listeners (listeners p) p = p.
Proof. by destruct p. Qed.

Lemma teardown_detached self p :
  detached self (listeners p) → teardownEventListeners self p = p.
Proof.
  intros H. unfold teardownEventListeners, off.
  cbn [listeners set_listeners].
  rewrite (filter_detached (listeners p)) by done.
  rewrite (filter_detached (listeners p)) by done. by destruct p.
Qed.

Lemma detached_teardown_only (ls : list (Event.kind * elem)) self :
  (∀ l, l ∈ ls → l.1 = Event.dragenter ∨ l.1 = Event.dragleave) →
  detached self
    (filter (λ l, ¬ (l.1 = Event.dragleave ∧ l.2 = self))
       (filter (λ l, ¬ (l.1 = Event.dragenter ∧ l.2 = self)) ls)).
Proof.
  intros Hk l Hl Hself. apply list_elem_of_filter in Hl as [H1 Hl].
  apply list_elem_of_filter in Hl as [H2 Hl].
  destruct (Hk l Hl); tauto.
Qed.

Lemma reachable_kinds p l :
  reachable p → l ∈ listeners p →
  l.1 = Event.dragenter ∨ l.1 = Event.dragleave.
Proof.
  intros Hp. revert l.
  induction Hp as [root|self c p _ IH|self p _ IH|self p _ IH|e p _ IH
                  |self e p _ IH|self e p _ IH]; intros l Hl.
  - by apply not_elem_of_nil in Hl.
  - cbn in Hl. apply elem_of_app in Hl as [Hl|Hl]; [by apply IH|].
    apply elem_of_cons in Hl as [->|Hl]; [by left|].
    apply list_elem_of_singleton in Hl as ->. by right.
  - cbn in Hl. apply elem_of_app in Hl as [Hl|Hl]; [by apply IH|].
    apply elem_of_cons in Hl as [->|Hl]; [by left|].
    apply list_elem_of_singleton in Hl as ->. by right.
  - apply elem_of_listeners_teardown in Hl as [Hl _]. by apply IH.
  - destruct (trigger_same_targets e p) as (_ & Heq & _).
    rewrite Heq in Hl. by apply IH.
  - by apply IH.
  - destruct (drop_same_targets self e p) as (_ & Heq & _).
    rewrite Heq in Hl. by apply IH.
Qed.

(** X8 (detaching is idempotent): on a page made by rendering, attaching,
    detaching, events and drops, [teardownEventListeners] leaves no
    handler of the component, so that detaching again, or detaching a
    component that was never attached, changes nothing; the handlers of
    the other components stay, in their order. *)
Theorem X8_teardown_is_idempotent self p :
  reachable p →
  detached self (listeners (teardownEventListeners self p)) ∧
  teardownEventListeners self (teardownEventListeners self p)
  = teardownEventListeners self p ∧
  filter (λ l, l.2 ≠ self) (listeners (teardownEventListeners self p))
  = filter (λ l, l.2 ≠ self) (listeners p).
Proof.
  intros Hp.
  assert (detached self (listeners (teardownEventListeners self p))) as Hd.
  { apply detached_teardown_only. intros l. by apply reachable_kinds. }
  split; [done|]. split; [by apply teardown_detached|].
  unfold teardownEventListeners, off. cbn [listeners set_listeners].
  generalize (listeners p) as ls. intros ls.
  induction ls as [|[k ns] ls IH]; [done|].
  destruct (decide (ns = self)) as [->|Hns].
  - rewrite (filter_cons_False (λ l, l.2 ≠ self) (k, self))
      by (intros H; by apply H).
    destruct (decide (k = Event.dragenter)) as [->|Hk].
    + by rewrite (filter_cons_False _ (Event.dragenter, self))
        by (intros H; by apply H).
    + rewrite (filter_cons_True _ (k, self)) by (by intros [? _]).
      destruct (decide (k = Event.dragleave)) as [->|Hk'].
      * by rewrite (filter_cons_False _ (Event.dragleave, self))
          by (intros H; by apply H).
      * rewrite (filter_cons_True _ (k, self)) by (by intros [? _]).
        by rewrite (filter_cons_False (λ l, l.2 ≠ self) (k, self))
          by (intros H; by apply H).
  - rewrite (filter_cons_True (λ l, l.2 ≠ self) (k, ns)) by done.
    rewrite (filter_cons_True _ (k, ns)) by (by intros [_ ?]).
    rewrite (filter_cons_True _ (k, ns)) by (by intros [_ ?]).
    rewrite (filter_cons_True (λ l, l.2 ≠ self) (k, ns)) by done.
    by rewrite IH.
Qed.

Lemma X8_teardown_is_idempotent_witness :
  detached A (listeners (teardownEventListeners A attached_twice)) ∧
  teardownEventListeners A (teardownEventListeners A attached_twice)
  = teardownEventListeners A attached_twice ∧
  filter (λ l, l.2 ≠ A) (listeners (teardownEventListeners A attached_twice))
  = filter (λ l, l.2 ≠ A) (listeners attached_twice).
Proof.
  apply X8_teardown_is_idempotent.
  apply reachable_setup, reachable_insertElement, reachable_empty.
Defined.

(** X9 (attach then detach): for a component without handlers on the
    page, [setupEventListeners] followed by [teardownEventListeners]
    gives the page back as it was, also when the handlers were bound more
    than once. *)
Theorem X9_setup_then_teardown_restores_page self p n :
  detached self (listeners p) →
  teardownEventListeners self (Nat.iter n (setupEventListeners self) p) = p.
Proof.
  intros Hd.
  assert (∀ q, teardownEventListeners self q
               = set_listeners (listeners (teardownEventListeners self q)) q)
    as Hshape by done.
  assert (set_listeners (listeners p)
            (Nat.iter n (setupEventListeners self) p) = p) as Hrest.
  { induction n as [|n IH]; [by destruct p|].
    cbn [Nat.iter]. etransitivity; [|exact IH]. done. }
  assert (listeners (teardownEventListeners self
                       (Nat.iter n (setupEventListeners self) p))
          = listeners p) as Hl.
  { clear Hrest. induction n as [|n IH]; [by rewrite teardown_detached|].
    change (Nat.iter (S n) (setupEventListeners self) p)
      with (setupEventListeners self (Nat.iter n (setupEventListeners self) p)).
    by rewrite listeners_teardown_setup. }
  by rewrite Hshape, Hl.
Qed.

Lemma X9_setup_then_teardown_restores_page_witness :
  teardownEventListeners B
    (Nat.iter 2 (setupEventListeners B) (one_target false))
  = one_target false.
Proof.
  apply X9_setup_then_teardown_restores_page.
  intros l Hl. cbn in Hl.
  apply elem_of_cons in Hl as [->|Hl]; [done|].
  by apply list_elem_of_singleton in Hl as ->.
Defined.

End Detach.

(** ** More on what a drop does *)

Section DropMore.

Import Component Fixtures.

Lemma drop_other self e p x :
  x ≠ self → components (drop self e p).2 !! x = components p !! x.
Proof.
  intros Hx.
  destruct (components p !! self) as [c|] eqn:Hc;
    [|by rewrite drop_none].
  destruct (drop_cases self c e p Hc) as [Hd|[He Hr]].
  - rewrite Hd. cbn [snd].
    by rewrite lookup_cleanUpDragCounters_ne.
  - rewrite (drop_files self c e p Hc He Hr). cbn [snd].
    unfold update; cbn [components add_calls set_components].
    by rewrite !lookup_alter_ne, lookup_cleanUpDragCounters_ne.
Qed.

(** X10 (a drop touches its own component only): the properties of every
    other component, their hover flags among them, the handlers bound,
    the root and the set of drop targets are the same after a drop as
    before. *)
Theorem X10_drop_leaves_other_components self e p x :
  x ≠ self →
  components (drop self e p).2 !! x = components p !! x ∧
  listeners (drop self e p).2 = listeners p ∧
  rootElement (drop self e p).2 = rootElement p ∧
  ∀ y, hasClass y "file-drop-target" (drop self e p).2
       = hasClass y "file-drop-target" p.
Proof.
  intros Hx. split; [by apply drop_other|].
  destruct (drop_same_targets self e p) as (H1 & H2 & H3). done.
Qed.

Lemma X10_drop_leaves_other_components_witness :
  let p := run [(Event.dragenter, A)] two_siblings in
  let p' := (drop A (Event.make Event.drop A [png]) p).2 in
  components p' !! B = components p !! B ∧
  listeners p' = listeners p ∧
  rootElement p' = rootElement p ∧
  ∀ y, hasClass y "file-drop-target" p' = hasClass y "file-drop-target" p.
Proof. by apply (X10_drop_leaves_other_components A). Defined.

Lemma accepted_none c fs :
  Forall (λ f, allowedTypes c (File.type f) = false) fs →
  accepted c fs = [] ∧ rejected c fs = fs.
Proof.
  induction 1 as [|f fs Hf _ [IH1 IH2]]; [done|].
  unfold accepted, rejected in *. cbn [List.filter].
  rewrite Hf. cbn [negb]. by rewrite IH1, IH2.
Qed.

Lemma drop_all_rejected self c e p :
  components p !! self = Some c →
  Event.files e ≠ [] →
  drop_completion self e p = returns →
  Forall (λ f, allowedTypes c (File.type f) = false)
         (retained c (Event.files e)) →
  let p' := (drop self e p).2 in
  isDropped <$> components p' !! self = Some true ∧
  (if allowMultiple c
   then files <$> components p' !! self = Some (Some [])
   else file <$> components p' !! self = Some None) ∧
  calls p'
  = calls p ++ (if invalidFileType c
                then invalidFileType_called self <$> retained c (Event.files e)
                else []).
Proof.
  intros Hc He Hr Hall p'. subst p'.
  destruct (drop_delivery self c e p Hc He Hr) as [-> ->].
  destruct (accepted_none c _ Hall) as [-> ->].
  repeat split.
  - by destruct (allowMultiple c).
  - by destruct (allowMultiple c).
  - destruct (fileDropped c); by rewrite app_nil_r.
Qed.

(** X11 (a drop of which nothing passes the filter): when the handler
    returns, which it does unless several files come in a [FileList] on
    a component whose [allowMultiple] is false, and every retained file
    is of a type that does not match, the drop still sets [isDropped],
    replaces the output by nothing ([file] undefined, or [files] the
    empty array) and makes no [fileDropped] call; the only calls are the
    reports of the retained files. *)
Theorem X11_drop_with_no_accepted_file self c e p :
  components p !! self = Some c →
  Event.files e ≠ [] →
  drop_completion self e p = returns →
  Forall (λ f, allowedTypes c (File.type f) = false)
         (retained c (Event.files e)) →
  let p' := (drop self e p).2 in
  isDropped <$> components p' !! self = Some true ∧
  (if allowMultiple c
   then files <$> components p' !! self = Some (Some [])
   else file <$> components p' !! self = Some None) ∧
  calls p'
  = calls p ++ (if invalidFileType c
                then invalidFileType_called self <$> retained c (Event.files e)
                else []).
Proof. apply drop_all_rejected. Qed.

Lemma X11_drop_with_no_accepted_file_witness :
  let p := (drop A (Event.make Event.drop A [png]) (one_target false)).2 in
  let p' := (drop A (Event.make Event.drop A [txt]) p).2 in
  file <$> components p !! A = Some (Some png) ∧
  isDropped <$> components p' !! A = Some true ∧
  file <$> components p' !! A = Some None ∧
  calls p' = calls p ++ [invalidFileType_called A txt].
Proof.
  split; [by vm_compute|].
  apply (X11_drop_with_no_accepted_file A
           (set_file (Some png)
              (set_isDropped true (target_of_images false))));
    [by vm_compute|done|by vm_compute|].
  by repeat constructor.
Defined.

Lemma isDropped_step p q self :
  page_step p q →
  isDropped <$> components p !! self = Some true →
  isDropped <$> components q !! self = Some true.
Proof.
  intros Hstep Hd. destruct Hstep as [e p|self' e p|self' e p|self' p|self' p];
    try done.
  - revert Hd. unfold trigger. destruct (bubbles_through _ _); [|done].
    generalize (Event.type e) as k. generalize (listeners p) as ls.
    intros ls k. revert e p.
    induction ls as [|l ls IH]; intros e p Hd; cbn [foldl fst snd]; [done|].
    case_bool_decide; [|by apply IH].
    destruct (calculateDropCount l.2 e p) as [e' p'] eqn:Hcd.
    apply IH. replace p' with (calculateDropCount l.2 e p).2 by (by rewrite Hcd).
    unfold calculateDropCount; cbn [snd]. clear Hcd.
    revert Hd. generalize (visited p (Event.target e)) as vs. intros vs.
    revert p. induction vs as [|v vs IHv]; intros p Hd; cbn [foldl]; [done|].
    apply IHv.
    destruct (components p !! self) as [c|] eqn:Hc; [|done].
    destruct (decide (self = l.2)) as [->|Hne].
    + rewrite (count_element_flags _ _ p v c Hc). cbn in Hd.
      by case_bool_decide.
    + by rewrite count_element_other, Hc.
  - destruct (decide (self = self')) as [->|Hne];
      [|by rewrite drop_other].
    destruct (components p !! self') as [c|] eqn:Hc; [|done].
    destruct (drop_cases self' c e p Hc) as [Hdr|[He Hr]].
    + rewrite Hdr. cbn [snd].
      by rewrite lookup_cleanUpDragCounters, Hc.
    + destruct (drop_delivery self' c e p Hc He Hr) as [_ ->].
      by destruct (allowMultiple c).
Qed.

(** X12 ([isDropped] is never taken back): once a drop has set
    [isDropped] on a component, no later event, drop, [dragover], attach
    or detach on the page makes it false again. *)
Theorem X12_isDropped_stays_true p q self :
  rtc page_step p q →
  isDropped <$> components p !! self = Some true →
  isDropped <$> components q !! self = Some true.
Proof.
  induction 1 as [p|p p' q Hstep _ IH]; [done|].
  intros Hd. by apply IH, (isDropped_step p).
Qed.

Lemma X12_isDropped_stays_true_witness :
  let p := (drop A (Event.make Event.drop A [png]) two_siblings).2 in
  let q := (drop B (Event.make Event.drop B [])
              (run [(Event.dragenter, A); (Event.dragleave, A)] p)).2 in
  isDropped <$> components q !! A = Some true.
Proof.
  apply (X12_isDropped_stays_true
           (drop A (Event.make Event.drop A [png]) two_siblings).2);
    [|by vm_compute].
  eapply rtc_l; [apply (step_trigger (Event.make Event.dragenter A []))|].
  eapply rtc_l; [apply (step_trigger (Event.make Event.dragleave A []))|].
  apply rtc_once, step_drop.
Defined.

Lemma calls_since_app (p p' : Page) cs :
  calls p' = calls p ++ cs → calls_since p p' = cs.
Proof. intros H. unfold calls_since. by rewrite H, drop_app_length. Qed.

Lemma length_accepted_rejected c fs :
  (length (accepted c fs) + length (rejected c fs))%nat = length fs.
Proof.
  unfold accepted, rejected. induction fs as [|f fs IH]; [done|].
  cbn [List.filter]. destruct (allowedTypes c (File.type f)); cbn; lia.
Qed.

(** X13 (one call for each retained file): when the consumer has defined
    both hooks, a drop with files whose handler returns, which it does
    unless several files come in a [FileList] on a component whose
    [allowMultiple] is false, makes exactly one call for every retained
    file, [fileDropped] if its type matches and [invalidFileType] if
    not, never both; all reports come before all deliveries. *)
Theorem X13_every_retained_file_is_called_once self c e p :
  components p !! self = Some c →
  Event.files e ≠ [] →
  drop_completion self e p = returns →
  invalidFileType c = true → fileDropped c = true →
  let kept := retained c (Event.files e) in
  let cs := calls_since p (drop self e p).2 in
  cs = (invalidFileType_called self <$> rejected c kept)
       ++ (fileDropped_called self <$> accepted c kept) ∧
  length cs = length kept ∧
  ∀ f, (fileDropped_called self f ∈ cs ↔
        f ∈ kept ∧ allowedTypes c (File.type f) = true) ∧
       (invalidFileType_called self f ∈ cs ↔
        f ∈ kept ∧ allowedTypes c (File.type f) = false).
Proof.
  intros Hc He Hr Hi Hd kept cs.
  destruct (drop_delivery self c e p Hc He Hr) as [Hcalls _].
  rewrite Hi, Hd in Hcalls. apply calls_since_app in Hcalls.
  fold kept cs in Hcalls. rewrite Hcalls. split; [done|]. split.
  - rewrite length_app, !length_fmap.
    rewrite Nat.add_comm. apply length_accepted_rejected.
  - intros f. rewrite !elem_of_app, !list_elem_of_fmap. split.
    + split.
      * intros [(g & Hg & _)|(g & Hg & Hin)]; [done|].
        injection Hg as ->. unfold accepted in Hin.
        by apply list_elem_of_In, List.filter_In in Hin
          as [?%list_elem_of_In ?].
      * intros [Hin Ha]. right. exists f. split; [done|].
        apply list_elem_of_In, List.filter_In.
        split; [by apply list_elem_of_In|done].
    + split.
      * intros [(g & Hg & Hin)|(g & Hg & _)]; [|done].
        injection Hg as ->. unfold rejected in Hin.
        apply list_elem_of_In, List.filter_In in Hin
          as [?%list_elem_of_In Hn]. by apply negb_true_iff in Hn.
      * intros [Hin Ha]. left. exists f. split; [done|].
        apply list_elem_of_In, List.filter_In.
        split; [by apply list_elem_of_In|by rewrite Ha].
Qed.

Lemma X13_every_retained_file_is_called_once_witness :
  let cs := calls_since (one_target true)
              (drop A (Event.make Event.drop A [txt; png; txt; gif])
                 (one_target true)).2 in
  cs = [invalidFileType_called A txt; invalidFileType_called A txt;
        fileDropped_called A png; fileDropped_called A gif] ∧
  length cs = 4%nat.
Proof.
  destruct (X13_every_retained_file_is_called_once A (target_of_images true)
              (Event.make Event.drop A [txt; png; txt; gif]) (one_target true))
    as (H1 & H2 & _); try done.
Defined.

(** X14 (at most one call without [allowMultiple]): a drop on a component
    whose [allowMultiple] is false makes at most one call to the
    consumer, however many files are dropped and whichever hooks are
    defined, and none when the payload is empty. *)
Theorem X14_single_file_drop_makes_at_most_one_call self c e p :
  components p !! self = Some c →
  allowMultiple c = false →
  ∃ cs, calls (drop self e p).2 = calls p ++ cs ∧ (length cs ≤ 1)%nat ∧
        (Event.files e = [] → cs = []).
Proof.
  intros Hc Hm. destruct (drop_cases self c e p Hc) as [Hd|[He Hr]].
  - exists []. rewrite Hd. cbn [snd].
    split; [by rewrite app_nil_r|]. split; [cbn; lia|done].
  - destruct (drop_delivery self c e p Hc He Hr) as [-> _].
    eexists. split; [done|]. split; [|done].
    assert (length (retained c (Event.files e)) ≤ 1)%nat as Hlen.
    { unfold retained. rewrite Hm.
      destruct (Event.files e) as [|f [|g fs]]; cbn; lia. }
    pose proof (length_accepted_rejected c (retained c (Event.files e))).
    rewrite length_app.
    destruct (invalidFileType c), (fileDropped c);
      rewrite ?length_fmap; cbn [length]; lia.
Qed.

Lemma X14_single_file_drop_makes_at_most_one_call_witness :
  ∃ cs, calls (drop A (Event.make Event.drop A [txt; png; gif])
                 (one_target false)).2
        = calls (one_target false) ++ cs ∧ (length cs ≤ 1)%nat ∧
        (Event.files (Event.make Event.drop A [txt; png; gif]) = [] → cs = []).
Proof.
  by apply (X14_single_file_drop_makes_at_most_one_call A
              (target_of_images false)).
Defined.

(** X15 (the default [allowedTypes]): on a component that keeps the
    default pattern a file whose type is the empty string, as browsers
    give for an unknown type, does not pass: dropped alone it is reported
    as invalid and nothing is delivered. *)
Theorem X15_default_pattern_rejects_empty_type self c e p f :
  components p !! self = Some c →
  allowedTypes c = anything →
  Event.files e = [f] →
  File.type f = "" →
  let p' := (drop self e p).2 in
  calls p'
  = calls p ++ (if invalidFileType c then [invalidFileType_called self f] else []) ∧
  (if allowMultiple c
   then files <$> components p' !! self = Some (Some [])
   else file <$> components p' !! self = Some None).
Proof.
  intros Hc Ha He Hf p'. subst p'.
  assert (retained c (Event.files e) = [f]) as Hkept.
  { unfold retained. by rewrite He. }
  destruct (drop_all_rejected self c e p Hc) as (_ & H2 & H3).
  - by rewrite He.
  - by rewrite (drop_completion_spec self c e p Hc), He.
  - rewrite Hkept. constructor; [|constructor]. by rewrite Ha, Hf.
  - rewrite Hkept in H3. split; [|done].
    rewrite H3. by destruct (invalidFileType c).
Qed.

End DropMore.

(** ** The order of events *)

Section Order.

Import Component Fixtures.

Lemma X15_default_pattern_rejects_empty_type_witness :
  let f := {| File.name := "notes"; File.type := "" |} in
  let p := insertElement A (create false anything true true) (empty root) in
  let p' := (drop A (Event.make Event.drop A [f]) p).2 in
  calls p' = calls p ++ [invalidFileType_called A f] ∧
  file <$> components p' !! A = Some None.
Proof.
  by apply (X15_default_pattern_rejects_empty_type A
              (create false anything true true)).
Defined.

Lemma sum_Permutation (l l' : list Z) :
  l ≡ₚ l' → foldr Z.add 0 l = foldr Z.add 0 l'.
Proof.
  induction 1 as [|a l l' _ IH|a b l|l l' l'' _ IH1 _ IH2]; cbn [foldr];
    lia.
Qed.

(** X16 (counters do not depend on the order of events): two sequences
    of events that differ only in their order leave every counter at the
    same value. *)
Theorem X16_counters_ignore_event_order p evs evs' x :
  evs ≡ₚ evs' → dragcount (run evs p) x = dragcount (run evs' p) x.
Proof.
  intros Hperm. rewrite !dragcount_run. f_equal.
  apply sum_Permutation. by apply fmap_Permutation.
Qed.

Lemma X16_counters_ignore_event_order_witness :
  dragcount (run [(Event.dragenter, A); (Event.dragleave, B);
                  (Event.dragenter, inner)] two_siblings) A
  = dragcount (run [(Event.dragenter, inner); (Event.dragenter, A);
                    (Event.dragleave, B)] two_siblings) A.
Proof.
  apply X16_counters_ignore_event_order.
  symmetry.
  apply (Permutation_cons_append
           [(Event.dragenter, A); (Event.dragleave, B)]
           (Event.dragenter, inner)).
Defined.

End Order.

(** ** The addon: counters and the classes that show them *)

Section AddonCounting.

Import Fixtures.

Lemma addon_same_targets_refl p : addon_same_targets p p.
Proof. by repeat split. Qed.

Lemma addon_same_targets_trans p q r :
  addon_same_targets p q → addon_same_targets q r → addon_same_targets p r.
Proof.
  intros (H1 & H2 & H3) (K1 & K2 & K3). repeat split.
  - by rewrite K1.
  - by rewrite K2.
  - intros y. by rewrite K3.
Qed.

Lemma addon_visited_same_targets p p' x :
  addon_same_targets p p' → Addon.visited p' x = Addon.visited p x.
Proof.
  intros (H1 & _ & H3). unfold Addon.visited. rewrite H1. f_equal.
  apply List.filter_ext. intros y. apply H3.
Qed.

Lemma addon_hasClass_addClass x cls y cls' p :
  Addon.hasClass y cls' (Addon.addClass x cls p)
  = bool_decide ((y, cls') = (x, cls)) || Addon.hasClass y cls' p.
Proof.
  unfold Addon.hasClass, Addon.addClass; cbn [Addon.classes Addon.set_classes].
  apply eq_true_iff_eq.
  rewrite orb_true_iff, !bool_decide_eq_true, elem_of_union, elem_of_singleton.
  done.
Qed.

Lemma addon_hasClass_removeClass x cls y cls' p :
  Addon.hasClass y cls' (Addon.removeClass x cls p)
  = negb (bool_decide ((y, cls') = (x, cls))) && Addon.hasClass y cls' p.
Proof.
  unfold Addon.hasClass, Addon.removeClass;
    cbn [Addon.classes Addon.set_classes].
  apply eq_true_iff_eq.
  rewrite andb_true_iff, negb_true_iff, bool_decide_eq_false,
    !bool_decide_eq_true, elem_of_difference, elem_of_singleton.
  tauto.
Qed.

Lemma addon_count_element_same_targets k p this :
  addon_same_targets p (Addon.count_element k p this).
Proof.
  unfold Addon.count_element, Addon.dragOverElement, Addon.dragOffElement.
  case_match; (split; [done|split; [done|intros y]]).
  - rewrite addon_hasClass_addClass.
    rewrite bool_decide_eq_false_2; [done|]. intros Heq. by inversion Heq.
  - rewrite addon_hasClass_removeClass.
    rewrite bool_decide_eq_false_2; [done|]. intros Heq. by inversion Heq.
Qed.

Lemma addon_data_count_element k p this :
  Addon.data (Addon.count_element k p this)
  = <[(this, "dragcount") := Addon.dragcount p this + Component.offset k]>
      (Addon.data p).
Proof.
  unfold Addon.count_element, Addon.dragOverElement, Addon.dragOffElement,
    Component.offset.
  by case_match.
Qed.

Lemma addon_dragcount_count_element k p this x :
  Addon.dragcount (Addon.count_element k p this) x
  = Addon.dragcount p x
    + (if bool_decide (x = this) then Component.offset k else 0).
Proof.
  unfold Addon.dragcount at 1. rewrite addon_data_count_element.
  case_bool_decide as Hx.
  - subst. by rewrite lookup_insert_eq.
  - rewrite lookup_insert_ne by congruence. unfold Addon.dragcount. lia.
Qed.

(** The class put on the element visited is the sign of its new count. *)
Lemma addon_mark_count_element k p this x :
  Addon.hasClass x "file-drop-target-drag-over" (Addon.count_element k p this)
  = if bool_decide (x = this)
    then 0 <? Addon.dragcount p this + Component.offset k
    else Addon.hasClass x "file-drop-target-drag-over" p.
Proof.
  unfold Addon.count_element, Addon.dragOverElement, Addon.dragOffElement.
  fold (Component.offset k).
  destruct (0 <? Addon.dragcount p this + Component.offset k) eqn:Hpos;
    [rewrite addon_hasClass_addClass|rewrite addon_hasClass_removeClass];
    (destruct (decide (x = this)) as [->|Hne];
     [rewrite !bool_decide_eq_true_2 by done; done
     |rewrite (bool_decide_eq_false_2 (x = this)) by done;
      rewrite bool_decide_eq_false_2 by (intros Heq; by inversion Heq);
      done]).
Qed.

Lemma marks_count_element k p this :
  marks_follow_counters p →
  marks_follow_counters (Addon.count_element k p this).
Proof.
  intros Hp x. rewrite addon_mark_count_element, addon_dragcount_count_element.
  case_bool_decide; [by subst|]. rewrite Hp. f_equal. lia.
Qed.

Lemma addon_foldl_count_element k l :
  ∀ p, addon_same_targets p (foldl (Addon.count_element k) p l) ∧
       (marks_follow_counters p →
        marks_follow_counters (foldl (Addon.count_element k) p l)).
Proof.
  induction l as [|y l IH]; intros p; cbn [foldl].
  - split; [apply addon_same_targets_refl|done].
  - destruct (IH (Addon.count_element k p y)) as [Hs Hm]. split.
    + eapply addon_same_targets_trans;
        [apply addon_count_element_same_targets|done].
    + intros Hp. by apply Hm, marks_count_element.
Qed.

Lemma addon_dragcount_foldl k l :
  NoDup l → ∀ p x,
  Addon.dragcount (foldl (Addon.count_element k) p l) x
  = Addon.dragcount p x
    + (if bool_decide (x ∈ l) then Component.offset k else 0).
Proof.
  induction 1 as [|y l Hy Hl IH]; intros p x; cbn [foldl].
  - case_bool_decide as Hx; [by apply not_elem_of_nil in Hx|lia].
  - rewrite IH, addon_dragcount_count_element.
    repeat case_bool_decide; subst; try lia; exfalso;
      rewrite elem_of_cons in *; tauto.
Qed.

Lemma counted_kinds k :
  counted k = match k with
              | Event.dragenter | Event.dragleave => true
              | _ => false
              end.
Proof. by destruct k. Qed.

(** One handler of the addon, on an event of type [k]. *)
Lemma addon_handle k self e p :
  Event.type e = k →
  let st := Addon.handle k self e p in
  Event.type st.1 = k ∧ Event.target st.1 = Event.target e ∧
  addon_same_targets p st.2 ∧
  (marks_follow_counters p → marks_follow_counters st.2) ∧
  ∀ x, Addon.dragcount st.2 x
       = Addon.dragcount p x
         + (if counted k && bool_decide (x ∈ Addon.visited p (Event.target e))
            then Component.offset k else 0).
Proof.
  intros Hk. rewrite counted_kinds.
  destruct k; cbn [Addon.handle andb].
  - split; [done|]. split; [done|]. split.
    { repeat split; try done. intros y. cbn [snd]. unfold Addon.dragStart.
      rewrite addon_hasClass_addClass.
      rewrite bool_decide_eq_false_2; [done|]. intros H. by inversion H. }
    split.
    { intros Hp x. cbn [snd]. unfold Addon.dragStart.
      rewrite addon_hasClass_addClass.
      rewrite bool_decide_eq_false_2 by (intros H; by inversion H).
      apply Hp. }
    intros x. cbn [snd]. unfold Addon.dragcount, Addon.dragStart. cbn. lia.
  - unfold Addon.calculateDropCount. cbn [fst snd]. rewrite Hk.
    destruct (addon_foldl_count_element Event.dragenter
                (Addon.visited p (Event.target e)) p) as [Hs Hm].
    repeat split; try done; try apply Hs.
    intros x. by rewrite addon_dragcount_foldl by apply NoDup_add.
  - unfold Addon.calculateDropCount. cbn [fst snd]. rewrite Hk.
    destruct (addon_foldl_count_element Event.dragleave
                (Addon.visited p (Event.target e)) p) as [Hs Hm].
    repeat split; try done; try apply Hs.
    intros x. by rewrite addon_dragcount_foldl by apply NoDup_add.
  - unfold Addon.dragOver. cbn [fst snd].
    repeat split; try done. intros x. lia.
  - repeat split; try done. intros x. cbn [snd]. lia.
Qed.

(** The handlers [ls] of the addon, run for an event of type [k] on [t]. *)
Lemma addon_handlers_run k t ls :
  ∀ e p, Event.type e = k → Event.target e = t →
  let st := foldl (λ st l,
                     if bool_decide (l.1 = k)
                     then Addon.handle l.1 l.2 st.1 st.2 else st)
                  (e, p) ls in
  addon_same_targets p st.2 ∧
  (marks_follow_counters p → marks_follow_counters st.2) ∧
  ∀ x, Addon.dragcount st.2 x
       = Addon.dragcount p x
         + (if counted k && bool_decide (x ∈ Addon.visited p t)
            then Component.offset k * Z.of_nat (bound_in k ls)
            else 0).
Proof.
  induction ls as [|l ls IH]; intros e p Hk Ht; cbn [foldl fst snd].
  - split; [apply addon_same_targets_refl|]. split; [done|].
    intros x. unfold bound_in. rewrite filter_nil. cbn [length].
    case_match; lia.
  - case_bool_decide as Hl.
    + rewrite Hl.
      destruct (addon_handle k l.2 e p Hk) as (Hk' & Ht' & Hs & Hm & Hc).
      destruct (Addon.handle k l.2 e p) as [e' p'] eqn:Hh.
      cbn [fst snd] in *.
      destruct (IH e' p') as (Hs' & Hm' & Hc'); [done|congruence|].
      split; [by eapply addon_same_targets_trans|].
      split; [tauto|].
      intros x. rewrite Hc', Hc.
      rewrite (addon_visited_same_targets _ _ _ Hs), Ht.
      unfold bound_in. rewrite (filter_cons_True _ l) by done.
      cbn [length]. fold (bound_in k ls).
      destruct (counted k && bool_decide (x ∈ Addon.visited p t)); lia.
    + destruct (IH e p Hk Ht) as (Hs & Hm & Hc).
      split; [done|]. split; [done|].
      intros x. rewrite Hc. unfold bound_in.
      by rewrite (filter_cons_False _ l) by done.
Qed.

Lemma addon_trigger_same_targets e p :
  addon_same_targets p (Addon.trigger e p).2.
Proof.
  unfold Addon.trigger. case_match; [|apply addon_same_targets_refl].
  by apply (addon_handlers_run (Event.type e) (Event.target e)).
Qed.

Lemma marks_trigger e p :
  marks_follow_counters p → marks_follow_counters (Addon.trigger e p).2.
Proof.
  unfold Addon.trigger. case_match; [|done].
  by apply (addon_handlers_run (Event.type e) (Event.target e)).
Qed.

Lemma addon_dragcount_trigger e p x :
  Addon.dragcount (Addon.trigger e p).2 x
  = Addon.dragcount p x
    + addon_effect p x (Event.type e, Event.target e).
Proof.
  unfold Addon.trigger, addon_effect, Addon.bubbles_through. cbn [fst snd].
  destruct (bool_decide _) eqn:Hb; cbn [snd].
  - destruct (addon_handlers_run (Event.type e) (Event.target e)
                (Addon.listeners p) e p) as (_ & _ & Hc); [done|done|].
    rewrite Hc. by rewrite andb_true_r.
  - rewrite andb_false_r. cbn. lia.
Qed.

End AddonCounting.

(** ** The addon over the life of a page *)

Section AddonPages.

Import Fixtures.

Lemma addon_run_same_targets evs p : addon_same_targets p (Addon.run evs p).
Proof.
  revert p. induction evs as [|ev evs IH]; intros p; cbn [Addon.run foldl].
  - apply addon_same_targets_refl.
  - eapply addon_same_targets_trans; [apply addon_trigger_same_targets|apply IH].
Qed.

Lemma addon_effect_same_targets p p' x ev :
  addon_same_targets p p' → addon_effect p' x ev = addon_effect p x ev.
Proof.
  intros Hs. unfold addon_effect.
  rewrite (addon_visited_same_targets _ _ _ Hs).
  destruct Hs as (-> & -> & _). done.
Qed.

Lemma addon_dragcount_run evs :
  ∀ p x, Addon.dragcount (Addon.run evs p) x
         = Addon.dragcount p x + foldr Z.add 0 (addon_effect p x <$> evs).
Proof.
  induction evs as [|ev evs IH]; intros p x; [cbn; lia|].
  change (Addon.run (ev :: evs) p)
    with (Addon.run evs (Addon.trigger (Event.make ev.1 ev.2 []) p).2).
  rewrite IH, addon_dragcount_trigger.
  rewrite (list_fmap_ext (addon_effect _ x) (addon_effect p x) evs)
    by (intros; apply addon_effect_same_targets, addon_trigger_same_targets).
  csimpl. destruct ev. cbn [fst snd]. lia.
Qed.

Lemma marks_run evs :
  ∀ p, marks_follow_counters p → marks_follow_counters (Addon.run evs p).
Proof.
  induction evs as [|ev evs IH]; intros p Hp; [done|].
  change (Addon.run (ev :: evs) p)
    with (Addon.run evs (Addon.trigger (Event.make ev.1 ev.2 []) p).2).
  by apply IH, marks_trigger.
Qed.

(** The addon's [drop] ends in a [TypeError] on the payloads that it
    does not truncate and that have no [filter]. *)
Lemma addon_drop_completion_spec self c e p :
  Addon.components p !! self = Some c →
  Addon.drop_completion self e p
  = if (length (Event.files e) =? 0)%nat
       || (1 <? length (Event.files e))%nat && negb (Addon.allowMultiple c)
    then returns
    else match Event.payload e with
         | Files.FileList _ =>
             throws "TypeError: files.filter is not a function"
         | Files.Array _ => returns
         end.
Proof.
  intros Hc.
  unfold Addon.drop_completion, Addon.dropping, Event.files, Files.length.
  rewrite Hc. cbn [Event.payload Event.preventDefault].
  destruct (Event.payload e) as [fs|fs];
    cbn [Files.items Files.first Files.array];
    destruct fs as [|f [|g fs]]; cbn; try done;
    by destruct (Addon.allowMultiple c).
Qed.

Lemma addon_drop_none self e p :
  Addon.components p !! self = None → Addon.drop self e p = (e, p).
Proof. intros Hc. unfold Addon.drop, Addon.dropping. by rewrite Hc. Qed.

(** The addon's [drop] either stops after [removeData], on an empty
    payload or with a [TypeError], or goes on with the payload and
    returns. *)
Lemma addon_drop_cases self c e p :
  Addon.components p !! self = Some c →
  Addon.drop self e p
  = (Event.preventDefault e, Addon.removeData_self_body self "dragCount" p)
  ∨ (Event.files e ≠ [] ∧ Addon.drop_completion self e p = returns).
Proof.
  intros Hc.
  unfold Addon.drop_completion, Addon.drop, Addon.dropping, Event.files,
    Files.length.
  rewrite Hc. cbn [Event.payload Event.preventDefault].
  destruct (Event.payload e) as [fs|fs];
    cbn [Files.items Files.first Files.array];
    destruct fs as [|f [|g fs]]; cbn; try (by left);
    destruct (Addon.allowMultiple c); cbn; try (by left); by right.
Qed.

Lemma addon_drop_files self c e p :
  Addon.components p !! self = Some c →
  Event.files e ≠ [] →
  Addon.drop_completion self e p = returns →
  let kept := addon_retained c (Event.files e) in
  let ok := List.filter (λ f, Addon.allowedTypes c (File.type f)) kept in
  let bad := List.filter (λ f, negb (Addon.allowedTypes c (File.type f))) kept in
  Addon.drop self e p
  = (Event.preventDefault e,
     Addon.update self
       (if Addon.allowMultiple c then Addon.set_files ok
        else Addon.set_file (head ok))
       (addon_add_calls (fileDropped_called self <$> ok)
          (addon_add_calls
             (if Addon.invalidFileType c
              then invalidFileType_called self <$> bad else [])
             (Addon.removeData_self_body self "dragCount" p)))).
Proof.
  intros Hc He Hr kept ok bad.
  assert (∀ gs q, Addon.components q !! self = Some c →
            Addon.filter_allowed self (Addon.allowedTypes c) gs q
            = (List.filter (λ f, Addon.allowedTypes c (File.type f)) gs,
               addon_add_calls
                 (if Addon.invalidFileType c
                  then invalidFileType_called self
                         <$> List.filter
                               (λ f, negb (Addon.allowedTypes c (File.type f))) gs
                  else []) q)) as Hfilter.
  { induction gs as [|g gs IH]; intros q Hq; cbn [Addon.filter_allowed].
    - destruct (Addon.invalidFileType c), q; unfold addon_add_calls; cbn;
        by rewrite app_nil_r.
    - rewrite Hq, IH by (by destruct (negb _ && _)).
      cbn [List.filter fst snd].
      destruct (Addon.allowedTypes c (File.type g)),
        (Addon.invalidFileType c); cbn [negb andb]; try done;
        unfold addon_add_calls, Addon.call; cbn;
        by rewrite <- app_assoc. }
  assert (∀ gs q, foldl (Addon.fileDropped self) q gs
                  = addon_add_calls (fileDropped_called self <$> gs) q)
    as Hfold.
  { induction gs as [|g gs IH]; intros q; cbn [foldl].
    - destruct q; unfold addon_add_calls; cbn; by rewrite app_nil_r.
    - rewrite IH. unfold addon_add_calls, Addon.fileDropped, Addon.call; cbn.
      by rewrite <- app_assoc. }
  assert (∀ gs q, Addon.components q !! self = Some c →
    (let r := Addon.filter_allowed self (Addon.allowedTypes c) gs q in
     let q := foldl (Addon.fileDropped self) r.2 r.1 in
     if Addon.allowMultiple c then Addon.update self (Addon.set_files r.1) q
     else Addon.update self (Addon.set_file (head r.1)) q)
    = Addon.update self
        (if Addon.allowMultiple c
         then Addon.set_files
                (List.filter (λ f, Addon.allowedTypes c (File.type f)) gs)
         else Addon.set_file
                (head (List.filter (λ f, Addon.allowedTypes c (File.type f)) gs)))
        (addon_add_calls
           (fileDropped_called self
              <$> List.filter (λ f, Addon.allowedTypes c (File.type f)) gs)
           (addon_add_calls
              (if Addon.invalidFileType c
               then invalidFileType_called self
                      <$> List.filter
                            (λ f, negb (Addon.allowedTypes c (File.type f))) gs
               else []) q))) as Hrest.
  { intros gs q Hq. cbn zeta. rewrite Hfilter by done. cbn [fst snd].
    rewrite Hfold. by destruct (Addon.allowMultiple c). }
  specialize (Hrest kept (Addon.removeData_self_body self "dragCount" p) Hc).
  cbn zeta in Hrest. subst ok bad. rewrite <- Hrest. clear Hrest Hfilter Hfold.
  revert Hr He. subst kept.
  unfold Addon.drop_completion, Addon.drop, Addon.dropping, addon_retained,
    Event.files, Files.length.
  rewrite Hc. cbn [Event.payload Event.preventDefault].
  destruct (Event.payload e) as [fs|fs];
    cbn [Files.items Files.first Files.array];
    destruct fs as [|f [|g fs]]; cbn; try done;
    by destruct (Addon.allowMultiple c).
Qed.

Lemma addon_data_drop self e p :
  Addon.data (Addon.drop self e p).2
  = match Addon.components p !! self with
    | Some _ => delete (Addon.body p, "dragCount")
                  (delete (self, "dragCount") (Addon.data p))
    | None => Addon.data p
    end.
Proof.
  destruct (Addon.components p !! self) as [c|] eqn:Hc;
    [|by rewrite addon_drop_none].
  destruct (addon_drop_cases self c e p Hc) as [Hd|[He Hr]].
  - by rewrite Hd.
  - by rewrite (addon_drop_files self c e p Hc He Hr).
Qed.

Lemma addon_classes_drop self e p :
  Addon.classes (Addon.drop self e p).2 = Addon.classes p ∧
  Addon.listeners (Addon.drop self e p).2 = Addon.listeners p ∧
  Addon.body (Addon.drop self e p).2 = Addon.body p.
Proof.
  destruct (Addon.components p !! self) as [c|] eqn:Hc;
    [|by rewrite addon_drop_none].
  destruct (addon_drop_cases self c e p Hc) as [Hd|[He Hr]].
  - by rewrite Hd.
  - by rewrite (addon_drop_files self c e p Hc He Hr).
Qed.

Lemma addon_counters_only_trigger e p :
  addon_counters_only p → addon_counters_only (Addon.trigger e p).2.
Proof.
  intros Hp. unfold Addon.trigger. destruct (Addon.bubbles_through _ _); [|done].
  generalize (Event.type e) as k. generalize (Addon.listeners p) as ls.
  intros ls k. revert e p Hp.
  induction ls as [|l ls IH]; intros e p Hp; cbn [foldl fst snd]; [done|].
  case_bool_decide; [|by apply IH].
  destruct (Addon.handle l.1 l.2 e p) as [e' p'] eqn:Hh.
  apply IH. replace p' with (Addon.handle l.1 l.2 e p).2 by (by rewrite Hh).
  clear Hh. destruct l.1; cbn [Addon.handle snd]; try done.
  - unfold Addon.calculateDropCount; cbn [snd].
    generalize (Addon.visited p (Event.target e)) as vs. intros vs.
    revert p Hp. induction vs as [|v vs IHv]; intros p Hp; cbn [foldl]; [done|].
    apply IHv. intros x key Hkey. rewrite addon_data_count_element.
    rewrite lookup_insert_ne by congruence. by apply Hp.
  - unfold Addon.calculateDropCount; cbn [snd].
    generalize (Addon.visited p (Event.target e)) as vs. intros vs.
    revert p Hp. induction vs as [|v vs IHv]; intros p Hp; cbn [foldl]; [done|].
    apply IHv. intros x key Hkey. rewrite addon_data_count_element.
    rewrite lookup_insert_ne by congruence. by apply Hp.
Qed.

Lemma addon_step_counters_only p q :
  addon_step p q → addon_counters_only p → addon_counters_only q.
Proof.
  intros Hstep Hp. destruct Hstep as [self c p|self p|self p|e p|self e p];
    try done.
  - by apply addon_counters_only_trigger.
  - intros x key Hkey. rewrite addon_data_drop.
    destruct (Addon.components p !! self); [|by apply Hp].
    rewrite !lookup_delete_None. right. right. by apply Hp.
Qed.

Lemma addon_step_marks p q :
  addon_step p q → addon_counters_only p →
  marks_follow_counters p → marks_follow_counters q.
Proof.
  intros Hstep Honly Hp.
  destruct Hstep as [self c p|self p|self p|e p|self e p]; try done.
  - intros x. unfold Addon.insertElement, Addon.setupEventListeners.
    change (Addon.hasClass x "file-drop-target-drag-over"
              (Addon.addClass self "file-drop-target" p)
            = (0 <? Addon.dragcount p x)).
    rewrite addon_hasClass_addClass.
    rewrite bool_decide_eq_false_2 by (intros H; by inversion H).
    apply Hp.
  - by apply marks_trigger.
  - intros x. unfold Addon.hasClass, Addon.dragcount.
    destruct (addon_classes_drop self e p) as (-> & _ & _).
    rewrite addon_data_drop.
    destruct (Addon.components p !! self); [|apply Hp].
    rewrite !lookup_delete_ne by (intros H; by inversion H). apply Hp.
Qed.

Lemma addon_reachable_invariants p :
  addon_reachable p → addon_counters_only p ∧ marks_follow_counters p.
Proof.
  induction 1 as [b|self c p _ [H1 H2]|self p _ [H1 H2]|self p _ [H1 H2]
                 |e p _ [H1 H2]|self e p _ [H1 H2]].
  - split; [intros x key _; apply lookup_empty|by intros x].
  - split; [eapply addon_step_counters_only|eapply addon_step_marks];
      try done; constructor.
  - split; [eapply addon_step_counters_only|eapply addon_step_marks];
      try done; constructor.
  - split; [eapply addon_step_counters_only|eapply addon_step_marks];
      try done; constructor.
  - split; [eapply addon_step_counters_only|eapply addon_step_marks];
      try done; constructor.
  - split; [eapply addon_step_counters_only|eapply addon_step_marks];
      try done; constructor.
Qed.

Lemma addon_mark_is_positive_counter p x :
  addon_reachable p →
  Addon.hasClass x "file-drop-target-drag-over" p = (0 <? Addon.dragcount p x).
Proof. intros Hp. by apply addon_reachable_invariants. Qed.

(** X17 (the class shows the counter, in the addon): on every page of the
    addon, whatever number of components is rendered and attached, an
    element carries [file-drop-target-drag-over] exactly when its counter
    is positive. *)
Theorem X17_addon_class_shows_positive_counter p x :
  addon_reachable p →
  Addon.hasClass x "file-drop-target-drag-over" p = (0 <? Addon.dragcount p x).
Proof. intros Hp. by apply addon_reachable_invariants. Qed.

Lemma X17_addon_class_shows_positive_counter_witness :
  let p := Addon.run [(Event.dragenter, A); (Event.dragenter, inner);
                      (Event.dragleave, A)] addon_two_siblings in
  Addon.hasClass A "file-drop-target-drag-over" p = (0 <? Addon.dragcount p A).
Proof.
  apply X17_addon_class_shows_positive_counter.
  do 3 apply addon_reachable_trigger.
  do 2 apply addon_reachable_insertElement. apply addon_reachable_empty.
Defined.

(** X18 (counting law of the addon): a [dragenter] or [dragleave] adds
    its offset once for every handler bound for its type to the counter
    of each element visited; [dragstart], [dragover] and [drop] events,
    and events that do not pass through [body], change no counter. *)
Theorem X18_addon_event_adds_offset_per_handler e p x :
  Addon.dragcount (Addon.trigger e p).2 x
  = Addon.dragcount p x
    + (if counted (Event.type e)
          && Addon.bubbles_through (Addon.body p) e
          && bool_decide (x ∈ Addon.visited p (Event.target e))
       then Component.offset (Event.type e)
            * Z.of_nat (bound_in (Event.type e) (Addon.listeners p))
       else 0).
Proof. apply addon_dragcount_trigger. Qed.

(** X22 (the addon's [drop] resets nothing): it removes the data key
    [dragCount], which nothing writes, so that on every page of the addon
    all counters and all classes are the same after a drop as before. *)
Theorem X22_addon_drop_keeps_counters_and_classes self e p :
  addon_reachable p →
  Addon.data (Addon.drop self e p).2 = Addon.data p ∧
  Addon.classes (Addon.drop self e p).2 = Addon.classes p ∧
  ∀ x, Addon.dragcount (Addon.drop self e p).2 x = Addon.dragcount p x.
Proof.
  intros Hp. destruct (addon_reachable_invariants p Hp) as [Honly _].
  assert (Addon.data (Addon.drop self e p).2 = Addon.data p) as Hdata.
  { rewrite addon_data_drop. destruct (Addon.components p !! self); [|done].
    rewrite !delete_id; [done| |]; rewrite ?delete_id;
      by apply Honly. }
  split; [done|]. split; [apply addon_classes_drop|].
  intros x. unfold Addon.dragcount. by rewrite Hdata.
Qed.

Lemma X22_addon_drop_keeps_counters_and_classes_witness :
  let p := Addon.run [(Event.dragenter, A)] addon_two_siblings in
  let p' := (Addon.drop A (Event.make Event.drop A [png]) p).2 in
  Addon.data p' = Addon.data p ∧ Addon.classes p' = Addon.classes p ∧
  ∀ x, Addon.dragcount p' x = Addon.dragcount p x.
Proof.
  apply X22_addon_drop_keeps_counters_and_classes.
  apply addon_reachable_trigger.
  do 2 apply addon_reachable_insertElement. apply addon_reachable_empty.
Defined.

End AddonPages.

(** ** The addon: balanced sequences, [dragstart], and the two drops *)

Section AddonMore.

Import Fixtures.

Lemma evenly_bound_off_other k self (ls : list (Event.kind * elem)) :
  k ≠ Event.dragenter → k ≠ Event.dragleave →
  evenly_bound ls →
  evenly_bound (filter (λ l, ¬ (l.1 = k ∧ l.2 = self)) ls).
Proof.
  intros Hk1 Hk2 [Hall Hns]. split.
  - pose proof (bound_in_off Event.dragenter k self ls) as H1.
    pose proof (bound_in_off Event.dragleave k self ls) as H2.
    rewrite bool_decide_eq_false_2 in H1 by congruence.
    rewrite bool_decide_eq_false_2 in H2 by congruence. lia.
  - intros ns. rewrite !bound_for_off.
    rewrite !bool_decide_eq_false_2 by (intros [? _]; congruence).
    apply Hns.
Qed.

Lemma evenly_bound_addon_setup self ls :
  evenly_bound ls →
  evenly_bound (ls ++ [(Event.dragstart, self); (Event.dragenter, self);
                       (Event.dragleave, self); (Event.dragover, self)]).
Proof.
  intros [Hall Hns]. split.
  - rewrite !bound_in_app, Hall. done.
  - intros ns. rewrite !bound_for_app, Hns. f_equal.
    unfold bound_for. destruct (decide (self = ns)) as [->|Hne].
    + rewrite (filter_cons_False _ (Event.dragstart, ns)) by (by intros [? _]).
      rewrite (filter_cons_True _ (Event.dragenter, ns)) by done.
      rewrite (filter_cons_False _ (Event.dragleave, ns)) by (by intros [? _]).
      rewrite (filter_cons_False _ (Event.dragover, ns)) by (by intros [? _]).
      rewrite (filter_cons_False _ (Event.dragstart, ns)) by (by intros [? _]).
      rewrite (filter_cons_False _ (Event.dragenter, ns)) by (by intros [? _]).
      rewrite (filter_cons_True _ (Event.dragleave, ns)) by done.
      rewrite (filter_cons_False _ (Event.dragover, ns)) by (by intros [? _]).
      done.
    + rewrite !(filter_cons_False _ (_, self)) by (intros [_ ?]; done).
      done.
Qed.

Lemma addon_reachable_evenly_bound p :
  addon_reachable p → evenly_bound (Addon.listeners p).
Proof.
  induction 1 as [b|self c p _ IH|self p _ IH|self p _ IH
                 |e p _ IH|self e p _ IH].
  - by split.
  - by apply evenly_bound_addon_setup.
  - by apply evenly_bound_addon_setup.
  - unfold Addon.teardownEventListeners, Addon.off.
    cbn [foldl Addon.listeners Addon.set_listeners].
    apply evenly_bound_off_other; [done|done|].
    apply evenly_bound_off_other; [done|done|].
    by apply evenly_bound_teardown.
  - destruct (addon_trigger_same_targets e p) as (_ & -> & _). done.
  - destruct (addon_classes_drop self e p) as (_ & -> & _). done.
Qed.

Lemma addon_reachable_run evs p :
  addon_reachable p → addon_reachable (Addon.run evs p).
Proof.
  revert p. induction evs as [|ev evs IH]; intros p Hp; [done|].
  change (Addon.run (ev :: evs) p)
    with (Addon.run evs (Addon.trigger (Event.make ev.1 ev.2 []) p).2).
  by apply IH, addon_reachable_trigger.
Qed.

(** X19 (balanced sequences, in the addon): on every page of the addon,
    with any number of components, a sequence with as many enters as
    leaves on every element leaves every counter at its value and every
    element marked as it was before. *)
Theorem X19_addon_balanced_sequence_restores_marks p evs x :
  addon_reachable p → Component.balanced evs →
  Addon.dragcount (Addon.run evs p) x = Addon.dragcount p x ∧
  Addon.hasClass x "file-drop-target-drag-over" (Addon.run evs p)
  = Addon.hasClass x "file-drop-target-drag-over" p.
Proof.
  intros Hp [Hkinds Hnet].
  assert (Addon.dragcount (Addon.run evs p) x = Addon.dragcount p x) as Hc.
  { rewrite addon_dragcount_run.
    destruct (addon_reachable_evenly_bound p Hp) as [Hpaired _].
    pose (g := λ t : elem,
            if Addon.bubbles_through (Addon.body p)
                 (Event.make Event.dragenter t [])
               && bool_decide (x ∈ Addon.visited p t)
            then Z.of_nat (bound_in Event.dragenter (Addon.listeners p))
            else 0).
    rewrite (sum_ext _ (λ ev, g ev.2 * Component.sign ev.1)).
    - rewrite balanced_sum by done. lia.
    - intros [k t] Hev. eapply Forall_forall in Hkinds; [|exact Hev].
      unfold addon_effect, g. cbn [fst snd] in *.
      change (Addon.bubbles_through (Addon.body p) (Event.make k t []))
        with (Addon.bubbles_through (Addon.body p)
                (Event.make Event.dragenter t [])).
      destruct Hkinds as [->| ->]; rewrite <- ?Hpaired;
        unfold Component.offset; cbn [Component.sign];
        rewrite ?counted_kinds; cbn [andb];
        (destruct (_ && _); [|lia]).
      + rewrite bool_decide_eq_true_2 by done. lia.
      + rewrite bool_decide_eq_false_2 by done. lia. }
  split; [done|].
  rewrite !addon_mark_is_positive_counter, Hc;
    [done|done|by apply addon_reachable_run].
Qed.

End AddonMore.

(** ** The addon: [dragstart], and the drops of the two variants *)

Section AddonDragStart.

Import Fixtures.

Lemma X19_addon_balanced_sequence_restores_marks_witness :
  let p := Addon.run [(Event.dragenter, A)] addon_two_siblings in
  let evs := [(Event.dragenter, B); (Event.dragleave, A);
              (Event.dragenter, A); (Event.dragleave, B)] in
  Addon.dragcount (Addon.run evs p) A = Addon.dragcount p A ∧
  Addon.hasClass A "file-drop-target-drag-over" (Addon.run evs p)
  = Addon.hasClass A "file-drop-target-drag-over" p.
Proof.
  apply X19_addon_balanced_sequence_restores_marks.
  - apply addon_reachable_trigger.
    do 2 apply addon_reachable_insertElement. apply addon_reachable_empty.
  - split; [repeat (constructor; [first [by left|by right]|]); constructor|].
    intros t. unfold Component.net.
    cbn [fmap list_fmap foldr fst snd Component.sign].
    repeat case_bool_decide; lia.
Defined.

Lemma addon_handle_keeps_dragging k self e p b :
  Addon.hasClass b "file-drop-target-dragging" p = true →
  Addon.hasClass b "file-drop-target-dragging" (Addon.handle k self e p).2
  = true.
Proof.
  intros Hb. destruct k; cbn [Addon.handle snd]; try done.
  - unfold Addon.dragStart. rewrite addon_hasClass_addClass, Hb.
    apply orb_true_r.
  - unfold Addon.calculateDropCount; cbn [snd].
    generalize (Addon.visited p (Event.target e)) as vs. intros vs.
    revert p Hb. induction vs as [|v vs IH]; intros p Hb; cbn [foldl]; [done|].
    apply IH. unfold Addon.count_element, Addon.dragOverElement,
      Addon.dragOffElement.
    case_match.
    + rewrite addon_hasClass_addClass.
      change (Addon.hasClass b "file-drop-target-dragging" (Addon.set_data _ p))
        with (Addon.hasClass b "file-drop-target-dragging" p).
      rewrite Hb. apply orb_true_r.
    + rewrite addon_hasClass_removeClass.
      change (Addon.hasClass b "file-drop-target-dragging" (Addon.set_data _ p))
        with (Addon.hasClass b "file-drop-target-dragging" p).
      rewrite Hb, andb_true_r.
      rewrite bool_decide_eq_false_2; [done|]. intros Heq. by inversion Heq.
  - unfold Addon.calculateDropCount; cbn [snd].
    generalize (Addon.visited p (Event.target e)) as vs. intros vs.
    revert p Hb. induction vs as [|v vs IH]; intros p Hb; cbn [foldl]; [done|].
    apply IH. unfold Addon.count_element, Addon.dragOverElement,
      Addon.dragOffElement.
    case_match.
    + rewrite addon_hasClass_addClass.
      change (Addon.hasClass b "file-drop-target-dragging" (Addon.set_data _ p))
        with (Addon.hasClass b "file-drop-target-dragging" p).
      rewrite Hb. apply orb_true_r.
    + rewrite addon_hasClass_removeClass.
      change (Addon.hasClass b "file-drop-target-dragging" (Addon.set_data _ p))
        with (Addon.hasClass b "file-drop-target-dragging" p).
      rewrite Hb, andb_true_r.
      rewrite bool_decide_eq_false_2; [done|]. intros Heq. by inversion Heq.
Qed.

Lemma addon_handlers_keep_dragging k ls b :
  ∀ e p,
  Addon.hasClass b "file-drop-target-dragging" p = true →
  Addon.hasClass b "file-drop-target-dragging"
    (foldl (λ st l,
              if bool_decide (l.1 = k)
              then Addon.handle l.1 l.2 st.1 st.2 else st)
           (e, p) ls).2 = true.
Proof.
  induction ls as [|l ls IH]; intros e p Hb; cbn [foldl fst snd]; [done|].
  case_bool_decide; [|by apply IH].
  destruct (Addon.handle l.1 l.2 e p) as [e' p'] eqn:Hh.
  apply IH. replace p' with (Addon.handle l.1 l.2 e p).2 by (by rewrite Hh).
  by apply addon_handle_keeps_dragging.
Qed.

Lemma addon_step_keeps_dragging p q :
  addon_step p q →
  Addon.hasClass (Addon.body p) "file-drop-target-dragging" p = true →
  Addon.body q = Addon.body p ∧
  Addon.hasClass (Addon.body q) "file-drop-target-dragging" q = true.
Proof.
  intros Hstep Hb. destruct Hstep as [self c p|self p|self p|e p|self e p];
    try done.
  - split; [done|].
    change (Addon.hasClass (Addon.body p) "file-drop-target-dragging"
              (Addon.addClass self "file-drop-target" p) = true).
    rewrite addon_hasClass_addClass, Hb. apply orb_true_r.
  - destruct (addon_trigger_same_targets e p) as (Hbody & _ & _).
    split; [done|]. rewrite Hbody.
    unfold Addon.trigger. destruct (Addon.bubbles_through _ _); [|done].
    by apply addon_handlers_keep_dragging.
  - destruct (addon_classes_drop self e p) as (Hcls & _ & Hbody).
    split; [done|]. rewrite Hbody. unfold Addon.hasClass. by rewrite Hcls.
Qed.

(** X21 (the class [file-drop-target-dragging] is never taken off): once
    a [dragstart] has put it on [body], no event, drop, rendering, attach
    or detach of the addon removes it. *)
Theorem X21_addon_dragging_class_is_never_removed p q :
  rtc addon_step p q →
  Addon.hasClass (Addon.body p) "file-drop-target-dragging" p = true →
  Addon.hasClass (Addon.body q) "file-drop-target-dragging" q = true.
Proof.
  induction 1 as [p|p p' q Hstep _ IH]; [done|].
  intros Hb. by apply IH, (addon_step_keeps_dragging p).
Qed.

Lemma X21_addon_dragging_class_is_never_removed_witness :
  let p := Addon.run [(Event.dragstart, A)] addon_one_target in
  let q := Addon.teardownEventListeners A
             (Addon.drop A (Event.make Event.drop A [png])
                (Addon.run [(Event.dragenter, A); (Event.dragleave, A)] p)).2 in
  Addon.hasClass (Addon.body q) "file-drop-target-dragging" q = true.
Proof.
  apply (X21_addon_dragging_class_is_never_removed
           (Addon.run [(Event.dragstart, A)] addon_one_target));
    [|by vm_compute].
  eapply rtc_l;
    [apply (addon_step_trigger (Event.make Event.dragenter A []))|].
  eapply rtc_l;
    [apply (addon_step_trigger (Event.make Event.dragleave A []))|].
  eapply rtc_l; [apply (addon_step_drop A)|].
  apply rtc_once, addon_step_teardown.
Defined.

Lemma addon_filter_detached (ls : list (Event.kind * elem)) k ns :
  detached ns ls → filter (λ l, ¬ (l.1 = k ∧ l.2 = ns)) ls = ls.
Proof.
  induction ls as [|l ls IH]; intros H; [done|].
  rewrite filter_cons_True.
  - f_equal. apply IH. intros l' Hl'. apply H. by apply list_elem_of_further.
  - intros [_ Hns]. by apply (H l (list_elem_of_here _ _)).
Qed.

Lemma addon_listeners_rendered_detached self c p :
  detached self (Addon.listeners p) →
  Addon.listeners
    (Addon.teardownEventListeners self (Addon.insertElement self c p))
  = Addon.listeners p ++ [(Event.dragstart, self)].
Proof.
  intros Hd.
  unfold Addon.teardownEventListeners, Addon.off, Addon.insertElement,
    Addon.setupEventListeners.
  cbn [foldl Addon.listeners Addon.set_listeners Addon.addClass
       Addon.set_classes Addon.set_components].
  rewrite !filter_app.
  rewrite !(addon_filter_detached (Addon.listeners p)) by done.
  f_equal.
  rewrite (filter_cons_True _ (Event.dragstart, self)) by (by intros [? _]).
  rewrite (filter_cons_False _ (Event.dragenter, self))
    by (intros H; by apply H).
  rewrite (filter_cons_True _ (Event.dragleave, self)) by (by intros [? _]).
  rewrite (filter_cons_True _ (Event.dragover, self)) by (by intros [? _]).
  rewrite filter_nil.
  rewrite (filter_cons_True _ (Event.dragstart, self)) by (by intros [? _]).
  rewrite (filter_cons_False _ (Event.dragleave, self))
    by (intros H; by apply H).
  rewrite (filter_cons_True _ (Event.dragover, self)) by (by intros [? _]).
  rewrite filter_nil.
  rewrite (filter_cons_True _ (Event.dragstart, self)) by (by intros [? _]).
  rewrite (filter_cons_False _ (Event.dragover, self))
    by (intros H; by apply H).
  rewrite filter_nil.
  rewrite (filter_cons_True _ (Event.dragstart, self)) by (by intros [? _]).
  by rewrite filter_nil.
Qed.

(** X20 (the addon's detach leaves [dragstart] bound): the handlers of a
    component are bound for [dragstart], [dragenter], [dragleave] and
    [dragover], and [teardownEventListeners] takes off those for
    [dragenter], [dragleave], [dragover] and [drop]; after rendering and
    detaching a component its [dragstart] handler is still bound, and a
    [dragstart] passing through [body] still puts
    [file-drop-target-dragging] on it. *)
Theorem X20_addon_teardown_leaves_dragstart_bound self c p t :
  detached self (Addon.listeners p) →
  let q := Addon.teardownEventListeners self (Addon.insertElement self c p) in
  Addon.listeners q = Addon.listeners p ++ [(Event.dragstart, self)] ∧
  (Addon.bubbles_through (Addon.body q) (Event.make Event.dragstart t []) = true →
   Addon.hasClass (Addon.body q) "file-drop-target-dragging"
     (Addon.trigger (Event.make Event.dragstart t []) q).2 = true).
Proof.
  intros Hd q.
  assert (Addon.listeners q = Addon.listeners p ++ [(Event.dragstart, self)])
    as Hl by (by apply addon_listeners_rendered_detached).
  split; [done|]. intros Hb.
  unfold Addon.trigger. rewrite Hb, Hl.
  cbn [Event.type Event.make]. rewrite foldl_app. cbn [foldl].
  rewrite bool_decide_eq_true_2 by done. cbn [fst snd Addon.handle].
  unfold Addon.dragStart. rewrite addon_hasClass_addClass.
  set (st := foldl _ _ (Addon.listeners p)).
  assert (Addon.body st.2 = Addon.body q) as Hbody.
  { subst st.
    destruct (addon_handlers_run Event.dragstart t (Addon.listeners p)
                (Event.make Event.dragstart t []) q) as ((Hbd & _) & _);
      done. }
  rewrite Hbody. by rewrite bool_decide_eq_true_2.
Qed.

Lemma X20_addon_teardown_leaves_dragstart_bound_witness :
  let q := Addon.teardownEventListeners B
             (Addon.insertElement B (Addon.create false anything true)
                addon_one_target) in
  Addon.listeners q
  = Addon.listeners addon_one_target ++ [(Event.dragstart, B)] ∧
  (Addon.bubbles_through (Addon.body q) (Event.make Event.dragstart A []) = true →
   Addon.hasClass (Addon.body q) "file-drop-target-dragging"
     (Addon.trigger (Event.make Event.dragstart A []) q).2 = true).
Proof.
  apply (X20_addon_teardown_leaves_dragstart_bound B
           (Addon.create false anything true) addon_one_target A).
  intros l Hl. cbn in Hl.
  repeat (apply elem_of_cons in Hl as [->|Hl]; [done|]).
  by apply not_elem_of_nil in Hl.
Defined.

Lemma take_1_head {A} (l : list A) : take 1 l = option_list (head l).
Proof. by destruct l. Qed.

(** X23 (the two variants on the same drop): take a component of either
    variant with the same [allowMultiple] and a pattern matching the same
    types, and a drop of the same files, at least one.  When the files
    come in an array both handlers return.  When they come in a
    [FileList], as from the browser, exactly one of the two returns: the
    component with hover flags throws at [files.slice] when there are
    several files and [allowMultiple] is false, and the addon throws at
    [files.filter] in every other case.  Where both return they retain
    the same files and expose the same [file] or [files]; and when the
    hooks of the consumer are the same, the calls made are the same, in
    the same order. *)
Theorem X23_variants_agree_where_both_return self c c' e p q :
  Component.components p !! self = Some c →
  Addon.components q !! self = Some c' →
  Component.allowMultiple c = Addon.allowMultiple c' →
  (∀ s, Component.allowedTypes c s = Addon.allowedTypes c' s) →
  Event.files e ≠ [] →
  let p' := (Component.drop self e p).2 in
  let q' := (Addon.drop self e q).2 in
  (∀ fs, Event.payload e = Files.Array fs →
         Component.drop_completion self e p = returns ∧
         Addon.drop_completion self e q = returns) ∧
  (∀ fs, Event.payload e = Files.FileList fs →
         (Component.drop_completion self e p = returns
          ↔ Addon.drop_completion self e q ≠ returns) ∧
         (Component.drop_completion self e p ≠ returns
          ↔ (1 < length fs)%nat ∧ Component.allowMultiple c = false)) ∧
  (Component.drop_completion self e p = returns →
   Addon.drop_completion self e q = returns →
   Component.retained c (Event.files e) = addon_retained c' (Event.files e) ∧
   (if Component.allowMultiple c
    then Component.files <$> Component.components p' !! self
         = Addon.files <$> Addon.components q' !! self
    else Component.file <$> Component.components p' !! self
         = Addon.file <$> Addon.components q' !! self) ∧
   (Component.invalidFileType c = Addon.invalidFileType c' →
    Component.fileDropped c = true →
    calls_since p p' = addon_calls_since q q')).
Proof.
  intros Hc Hc' Hm Ha He p' q'.
  rewrite (drop_completion_spec self c e p Hc),
    (addon_drop_completion_spec self c' e q Hc'), <- Hm.
  split; [|split].
  - intros fs Hfs. rewrite Hfs. split; by repeat case_match.
  - intros fs Hfs. revert He. unfold Event.files. rewrite Hfs.
    cbn [Files.items]. intros He.
    destruct fs as [|f [|g fs]]; [done|..];
      destruct (Component.allowMultiple c); cbn; (split; split); try done;
      try (by intros []); try (by intros [_ ?]); try (intros _; split; [lia|done]);
      try (intros [? _]; lia).
  - intros Hr Hr'.
    rewrite <- (drop_completion_spec self c e p Hc) in Hr.
    rewrite Hm, <- (addon_drop_completion_spec self c' e q Hc') in Hr'.
    assert (Component.retained c (Event.files e)
            = addon_retained c' (Event.files e)) as Hkept.
    { unfold Component.retained, addon_retained. rewrite Hm.
      by rewrite take_1_head. }
    assert (∀ fs, Component.accepted c fs
                  = List.filter (λ f, Addon.allowedTypes c' (File.type f)) fs)
      as Hok.
    { intros fs. apply List.filter_ext. intros f. apply Ha. }
    assert (∀ fs, Component.rejected c fs
                  = List.filter (λ f, negb (Addon.allowedTypes c' (File.type f))) fs)
      as Hbad.
    { intros fs. apply List.filter_ext. intros f. by rewrite Ha. }
    destruct (drop_delivery self c e p Hc He Hr) as [Hcalls Hcomp].
    subst p' q'. rewrite Hcomp, (addon_drop_files self c' e q Hc' He Hr').
    cbn [snd]. split; [done|]. split.
    + unfold Addon.update;
        cbn [Addon.components Addon.set_components addon_add_calls].
      rewrite lookup_alter_eq.
      unfold Addon.removeData_self_body; cbn [Addon.components Addon.set_data].
      rewrite Hc', <- Hm, Hok, Hkept.
      by destruct (Component.allowMultiple c).
    + intros Hi Hd. rewrite (calls_since_app _ _ _ Hcalls).
      unfold addon_calls_since, Addon.update, addon_add_calls,
        Addon.removeData_self_body;
        cbn [Addon.calls Addon.set_components Addon.set_data].
      rewrite <- app_assoc, drop_app_length.
      by rewrite Hd, Hi, Hok, Hbad, Hkept.
Qed.

Lemma X23_variants_agree_where_both_return_witness :
  let e := Event.make_array Event.drop A [txt; png; gif] in
  let q := Addon.insertElement A (Addon.create false images true)
             (Addon.empty root) in
  let p' := (Component.drop A e (one_target false)).2 in
  let q' := (Addon.drop A e q).2 in
  Component.drop_completion A e (one_target false) = returns ∧
  Addon.drop_completion A e q = returns ∧
  Component.file <$> Component.components p' !! A
  = Addon.file <$> Addon.components q' !! A ∧
  Component.calls p' = Addon.calls q'.
Proof.
  destruct (X23_variants_agree_where_both_return A (target_of_images false)
              (Addon.create false images true)
              (Event.make_array Event.drop A [txt; png; gif])
              (one_target false)
              (Addon.insertElement A (Addon.create false images true)
                 (Addon.empty root)))
    as (Harr & _ & Hsame); [by vm_compute|by vm_compute|done|done|done|].
  destruct (Harr [txt; png; gif]) as [Hr Hr']; [done|].
  destruct (Hsame Hr Hr') as (_ & Hout & Hcalls).
  split; [exact Hr|]. split; [exact Hr'|]. split; [exact Hout|].
  by apply Hcalls.
Defined.

End AddonDragStart.

(** ** The class on the root *)

Section RootClass.

Import Component Fixtures.

Lemma hasClass_over_addClass p x y :
  hasClass y "file-drop-target-drag-over"
    (addClass x "file-drop-target-drag-over" p)
  = bool_decide (y = x) || hasClass y "file-drop-target-drag-over" p.
Proof.
  unfold hasClass, addClass; cbn [classes set_classes].
  apply eq_true_iff_eq.
  rewrite orb_true_iff, !bool_decide_eq_true, elem_of_union, elem_of_singleton.
  split; (intros [Heq|Hin]; [left|by right]); congruence.
Qed.

Lemma hasClass_over_removeClass p x y :
  hasClass y "file-drop-target-drag-over"
    (removeClass x "file-drop-target-drag-over" p)
  = negb (bool_decide (y = x)) && hasClass y "file-drop-target-drag-over" p.
Proof.
  unfold hasClass, removeClass; cbn [classes set_classes].
  apply eq_true_iff_eq.
  rewrite andb_true_iff, negb_true_iff, bool_decide_eq_false,
    !bool_decide_eq_true, elem_of_difference, elem_of_singleton.
  split.
  - intros [Hin Hne]. split; [|done]. intros ->. by apply Hne.
  - intros [Hne Hin]. split; [done|]. intros Heq. apply Hne. congruence.
Qed.

Lemma root_mark_count_element self k p this :
  root_mark_follows_counter p →
  root_mark_follows_counter (count_element self k p this).
Proof.
  unfold root_mark_follows_counter. intros Hp.
  destruct (count_element_same_targets self k p this) as (Hr & _ & _).
  rewrite Hr, dragcount_count_element.
  unfold count_element, didDragOverRoot, didDragOffRoot, didDragOver,
    didDragOff.
  fold (offset k). cbn [rootElement set_data].
  destruct (decide (this = rootElement p)) as [->|Hne].
  - rewrite !(bool_decide_eq_true_2 (rootElement p = rootElement p)) by done.
    destruct (0 <? dragcount p (rootElement p) + offset k) eqn:Hpos.
    + change (hasClass (rootElement p) "file-drop-target-drag-over"
                (addClass (rootElement p) "file-drop-target-drag-over"
                   (update self (set_isDragging true)
                      (set_data
                         (<[(rootElement p, "dragcount") :=
                              dragcount p (rootElement p) + offset k]>
                            (data p)) p))) = true).
      rewrite hasClass_over_addClass.
      by rewrite bool_decide_eq_true_2.
    + change (hasClass (rootElement p) "file-drop-target-drag-over"
                (removeClass (rootElement p) "file-drop-target-drag-over"
                   (update self (set_isDragging false)
                      (set_data
                         (<[(rootElement p, "dragcount") :=
                              dragcount p (rootElement p) + offset k]>
                            (data p)) p))) = false).
      rewrite hasClass_over_removeClass.
      by rewrite bool_decide_eq_true_2.
  - rewrite (bool_decide_eq_false_2 (this = rootElement p)) by done.
    rewrite (bool_decide_eq_false_2 (rootElement p = this)) by done.
    rewrite Z.add_0_r, <- Hp. by case_match.
Qed.

Lemma root_mark_trigger e p :
  root_mark_follows_counter p → root_mark_follows_counter (trigger e p).2.
Proof.
  intros Hp. unfold trigger. destruct (bubbles_through _ _); [|done].
  generalize (Event.type e) as k. generalize (listeners p) as ls.
  intros ls k. revert e p Hp.
  induction ls as [|l ls IH]; intros e p Hp; cbn [foldl fst snd]; [done|].
  case_bool_decide; [|by apply IH].
  destruct (calculateDropCount l.2 e p) as [e' p'] eqn:Hcd.
  apply IH. replace p' with (calculateDropCount l.2 e p).2 by (by rewrite Hcd).
  unfold calculateDropCount; cbn [snd]. clear Hcd.
  generalize (visited p (Event.target e)) as vs. intros vs.
  revert p Hp. induction vs as [|v vs IHv]; intros p Hp; cbn [foldl]; [done|].
  by apply IHv, root_mark_count_element.
Qed.

Lemma root_mark_drop self e p :
  root_mark_follows_counter p → root_mark_follows_counter (drop self e p).2.
Proof.
  intros Hp.
  destruct (components p !! self) as [c|] eqn:Hc;
    [|by rewrite drop_none].
  unfold root_mark_follows_counter.
  destruct (drop_same_targets self e p) as (-> & _ & _).
  rewrite (dragcount_drop_tracked self c e p _ Hc) by (by right).
  destruct (drop_cases self c e p Hc) as [Hd|[He Hr]].
  - rewrite Hd.
    apply cleanUpDragCounters_root_class.
  - rewrite (drop_files self c e p Hc He Hr).
    apply (cleanUpDragCounters_root_class self p).
Qed.

(** X24 (the class on the root): on a page made by rendering, attaching,
    detaching, events and drops, with any number of components, the root
    carries [file-drop-target-drag-over] exactly when its counter is
    positive. *)
Theorem X24_root_class_shows_positive_counter p :
  reachable p →
  hasClass (rootElement p) "file-drop-target-drag-over" p
  = (0 <? dragcount p (rootElement p)).
Proof.
  induction 1 as [root|self c p _ IH|self p _ IH|self p _ IH|e p _ IH
                 |self e p _ IH|self e p _ IH]; try done.
  - change (hasClass (rootElement p) "file-drop-target-drag-over"
              (addClass self "file-drop-target" p)
            = (0 <? dragcount p (rootElement p))).
    rewrite <- IH. unfold hasClass, addClass; cbn [classes set_classes].
    apply bool_decide_ext. rewrite elem_of_union, elem_of_singleton.
    split; [|by right]. intros [Heq|Hin]; [by inversion Heq|done].
  - by apply root_mark_trigger.
  - by apply root_mark_drop.
Qed.

Lemma X24_root_class_shows_positive_counter_witness :
  let p := run [(Event.dragenter, A); (Event.dragleave, A);
                (Event.dragenter, B)] two_siblings in
  hasClass (rootElement p) "file-drop-target-drag-over" p
  = (0 <? dragcount p (rootElement p)).
Proof.
  apply X24_root_class_shows_positive_counter.
  do 3 apply reachable_trigger.
  do 2 apply reachable_insertElement. apply reachable_empty.
Defined.

End RootClass.

(** ** Attaching twice, in both variants *)

Section AttachTwice.

Import Fixtures.

Lemma bound_for_setupEventListeners self p k :
  k = Event.dragenter ∨ k = Event.dragleave →
  bound_for k self (Component.listeners (Component.setupEventListeners self p))
  = S (bound_for k self (Component.listeners p)).
Proof.
  unfold bound_for, Component.setupEventListeners;
    cbn [Component.listeners Component.set_listeners].
  rewrite filter_app, length_app.
  intros [->| ->].
  - rewrite (filter_cons_True _ (Event.dragenter, self)) by done.
    rewrite (filter_cons_False _ (Event.dragleave, self)) by (by intros [? _]).
    rewrite filter_nil. cbn [length]. lia.
  - rewrite (filter_cons_False _ (Event.dragenter, self)) by (by intros [? _]).
    rewrite (filter_cons_True _ (Event.dragleave, self)) by done.
    rewrite filter_nil. cbn [length]. lia.
Qed.

Lemma addon_bound_setupEventListeners self q k :
  k = Event.dragenter ∨ k = Event.dragleave →
  bound_in k (Addon.listeners (Addon.setupEventListeners self q))
  = S (bound_in k (Addon.listeners q)) ∧
  bound_for k self (Addon.listeners (Addon.setupEventListeners self q))
  = S (bound_for k self (Addon.listeners q)).
Proof.
  unfold bound_in, bound_for, Addon.setupEventListeners;
    cbn [Addon.listeners Addon.set_listeners].
  rewrite !filter_app, !length_app.
  intros [->| ->].
  - rewrite (filter_cons_False _ (Event.dragstart, self)) by done.
    rewrite (filter_cons_True _ (Event.dragenter, self)) by done.
    rewrite (filter_cons_False _ (Event.dragleave, self)) by done.
    rewrite (filter_cons_False _ (Event.dragover, self)) by done.
    rewrite (filter_cons_False _ (Event.dragstart, self)) by (by intros [? _]).
    rewrite (filter_cons_True _ (Event.dragenter, self)) by done.
    rewrite (filter_cons_False _ (Event.dragleave, self)) by (by intros [? _]).
    rewrite (filter_cons_False _ (Event.dragover, self)) by (by intros [? _]).
    rewrite !filter_nil. cbn [length]. lia.
  - rewrite (filter_cons_False _ (Event.dragstart, self)) by done.
    rewrite (filter_cons_False _ (Event.dragenter, self)) by done.
    rewrite (filter_cons_True _ (Event.dragleave, self)) by done.
    rewrite (filter_cons_False _ (Event.dragover, self)) by done.
    rewrite (filter_cons_False _ (Event.dragstart, self)) by (by intros [? _]).
    rewrite (filter_cons_False _ (Event.dragenter, self)) by (by intros [? _]).
    rewrite (filter_cons_True _ (Event.dragleave, self)) by done.
    rewrite (filter_cons_False _ (Event.dragover, self)) by (by intros [? _]).
    rewrite !filter_nil. cbn [length]. lia.
Qed.

(** C9 (attach), amended: attaching is not idempotent.  In both variants
    each call of [setupEventListeners] binds one more handler for
    [dragenter] and one more for [dragleave] in the namespace of the
    component, and each handler bound applies the offset of an event
    once to every element visited: after one more attach an event adds
    its offset once more to each of these counters, so that a component
    attached twice counts every event twice. *)
Theorem C9_each_attach_counts_every_event_once_more self k t x :
  k = Event.dragenter ∨ k = Event.dragleave →
  (∀ p,
     bound_for k self (Component.listeners (Component.setupEventListeners self p))
     = S (bound_for k self (Component.listeners p)) ∧
     Component.bound k (Component.setupEventListeners self p)
     = S (Component.bound k p) ∧
     (Component.bubbles_through (Component.rootElement p) (Event.make k t [])
      = true →
      x ∈ Component.visited p t →
      Component.dragcount
        (Component.run [(k, t)] (Component.setupEventListeners self p)) x
      = Component.dragcount (Component.run [(k, t)] p) x + Component.offset k)) ∧
  (∀ q,
     bound_for k self (Addon.listeners (Addon.setupEventListeners self q))
     = S (bound_for k self (Addon.listeners q)) ∧
     bound_in k (Addon.listeners (Addon.setupEventListeners self q))
     = S (bound_in k (Addon.listeners q)) ∧
     (Addon.bubbles_through (Addon.body q) (Event.make k t []) = true →
      x ∈ Addon.visited q t →
      Addon.dragcount (Addon.run [(k, t)] (Addon.setupEventListeners self q)) x
      = Addon.dragcount (Addon.run [(k, t)] q) x + Component.offset k)).
Proof.
  intros Hk. split.
  - intros p. split; [by apply bound_for_setupEventListeners|].
    split; [by apply bound_setupEventListeners|].
    intros Hb Hx. rewrite !dragcount_run. cbn [fmap list_fmap foldr].
    rewrite (effect_visited p x k t Hb Hx).
    rewrite (effect_visited (Component.setupEventListeners self p) x k t)
      by done.
    rewrite bound_setupEventListeners by done.
    unfold Component.dragcount;
      cbn [Component.data Component.setupEventListeners
           Component.set_listeners].
    lia.
  - intros q. destruct (addon_bound_setupEventListeners self q k Hk)
      as [Hin Hfor].
    split; [done|]. split; [done|].
    intros Hb Hx. rewrite !addon_dragcount_run. cbn [fmap list_fmap foldr].
    unfold addon_effect. cbn [fst snd]. rewrite Hin.
    change (Addon.body (Addon.setupEventListeners self q)) with (Addon.body q).
    change (Addon.visited (Addon.setupEventListeners self q) t)
      with (Addon.visited q t).
    rewrite Hb, (bool_decide_eq_true_2 _ Hx).
    assert (counted k = true) as -> by (by destruct Hk as [->| ->]).
    unfold Addon.dragcount;
      cbn [Addon.data Addon.setupEventListeners Addon.set_listeners andb].
    lia.
Qed.

Lemma C9_each_attach_counts_every_event_once_more_witness :
  (bound_for Event.dragenter A (Component.listeners attached_twice) = 2%nat ∧
   Component.dragcount (Component.run [(Event.dragenter, A)] attached_twice) A
   = Component.dragcount
       (Component.run [(Event.dragenter, A)] (one_target false)) A + 1) ∧
  (bound_for Event.dragenter A
     (Addon.listeners (Addon.setupEventListeners A addon_one_target)) = 2%nat ∧
   Addon.dragcount
     (Addon.run [(Event.dragenter, A)]
        (Addon.setupEventListeners A addon_one_target)) A
   = Addon.dragcount (Addon.run [(Event.dragenter, A)] addon_one_target) A + 1).
Proof.
  destruct (C9_each_attach_counts_every_event_once_more A Event.dragenter A A)
    as [Hp Hq]; [by left|].
  destruct (Hp (one_target false)) as (H1 & _ & H2).
  destruct (Hq addon_one_target) as (H3 & _ & H4).
  split; split.
  - exact H1.
  - apply H2; [by vm_compute|].
    assert (Component.visited (one_target false) A = [root; A]) as ->
      by (by vm_compute).
    apply list_elem_of_further, list_elem_of_here.
  - exact H3.
  - apply H4; [by vm_compute|].
    assert (Addon.visited addon_one_target A = [root; A]) as ->
      by (by vm_compute).
    apply list_elem_of_further, list_elem_of_here.
Defined.

End AttachTwice.

(** ** The drop in both variants *)

Section DropInBothVariants.

Import Fixtures.

(** C3 (post-drop full reset), evaluated.  In the addon, two sibling
    targets, one [dragenter] on [A] and then a drop of two files on [A]:
    the handler returns and delivers the first file, and the counters of
    [A] and of [body] are still 2 and both still carry
    [file-drop-target-drag-over], because [drop] removes the data key
    [dragCount] while the counters are kept under [dragcount].  In the
    component with hover flags, the same page and a drop of one file on
    [A]: all counters are cleared and the flags of [A] are false, but
    [B] keeps [isDragging] and [isDraggingOver] true. *)
Theorem C3_drop_leaves_counters_and_flags_behind :
  (let q := Addon.run [(Event.dragenter, A)] addon_two_siblings in
   let e := Event.make Event.drop A [png; gif] in
   let q' := (Addon.drop A e q).2 in
   Addon.drop_completion A e q = returns ∧
   Addon.calls q' = [fileDropped_called A png] ∧
   Addon.dragcount q A = 2 ∧ Addon.dragcount q root = 2 ∧
   Addon.dragcount q' A = 2 ∧ Addon.dragcount q' root = 2 ∧
   Addon.hasClass A "file-drop-target-drag-over" q' = true ∧
   Addon.hasClass root "file-drop-target-drag-over" q' = true) ∧
  (let p := Component.run [(Event.dragenter, A)] two_siblings in
   let e := Event.make Event.drop A [png] in
   let p' := (Component.drop A e p).2 in
   Component.drop_completion A e p = returns ∧
   Component.calls p' = [fileDropped_called A png] ∧
   Component.dragcount p' A = 0 ∧ Component.dragcount p' root = 0 ∧
   Component.isDragging <$> Component.components p' !! A = Some false ∧
   Component.isDraggingOver <$> Component.components p' !! A = Some false ∧
   Component.isDragging <$> Component.components p' !! B = Some true ∧
   Component.isDraggingOver <$> Component.components p' !! B = Some true).
Proof. vm_compute. by repeat split. Qed.

(** C4 as stated fails: two files dropped on a single-file target that
    takes images only, the first one a text file.  The handler returns,
    no file is delivered and the first file is reported as invalid: in
    the component with hover flags when the files come in an array, and
    in the addon when they come in a [FileList]. *)
Lemma C4_first_file_rejected_counterexample :
  (let e := Event.make_array Event.drop A [txt; png] in
   let p' := (Component.drop A e (one_target false)).2 in
   Component.drop_completion A e (one_target false) = returns ∧
   Component.file <$> Component.components p' !! A = Some None ∧
   Component.file <$> Component.components p' !! A ≠ Some (Some txt) ∧
   Component.calls p' = [invalidFileType_called A txt]) ∧
  (let e := Event.make Event.drop A [txt; png] in
   let q := Addon.insertElement A (Addon.create false images true)
              (Addon.empty root) in
   let q' := (Addon.drop A e q).2 in
   Addon.drop_completion A e q = returns ∧
   Addon.file <$> Addon.components q' !! A = Some None ∧
   Addon.file <$> Addon.components q' !! A ≠ Some (Some txt) ∧
   Addon.calls q' = [invalidFileType_called A txt]).
Proof. vm_compute. by repeat split. Qed.

(** C4 (single-file coercion), amended: of [N > 1] files dropped on a
    component whose [allowMultiple] is false, where the handler returns,
    only the first is looked at.  It is delivered when its type matches
    [allowedTypes], and reported as invalid otherwise, in which case
    nothing is delivered; the other [N - 1] files cause no call of
    either kind.  The addon's handler returns on every such drop. *)
Theorem C4_only_first_file_is_processed_where_drop_returns self e f rest :
  Event.files e = f :: rest →
  rest ≠ [] →
  (∀ c p,
     Component.components p !! self = Some c →
     Component.allowMultiple c = false →
     Component.drop_completion self e p = returns →
     let p' := (Component.drop self e p).2 in
     Component.calls p'
     = Component.calls p
       ++ (if Component.allowedTypes c (File.type f)
           then (if Component.fileDropped c
                 then [fileDropped_called self f] else [])
           else (if Component.invalidFileType c
                 then [invalidFileType_called self f] else [])) ∧
     Component.file <$> Component.components p' !! self
     = Some (if Component.allowedTypes c (File.type f) then Some f else None) ∧
     Component.files <$> Component.components p' !! self
     = Some (Component.files c)) ∧
  (∀ c q,
     Addon.components q !! self = Some c →
     Addon.allowMultiple c = false →
     let q' := (Addon.drop self e q).2 in
     Addon.drop_completion self e q = returns ∧
     Addon.calls q'
     = Addon.calls q
       ++ (if Addon.allowedTypes c (File.type f)
           then [fileDropped_called self f]
           else (if Addon.invalidFileType c
                 then [invalidFileType_called self f] else [])) ∧
     Addon.file <$> Addon.components q' !! self
     = Some (if Addon.allowedTypes c (File.type f) then Some f else None) ∧
     Addon.files <$> Addon.components q' !! self = Some (Addon.files c)).
Proof.
  intros Hfs Hrest. split.
  - intros c p Hc Hm Hr p'.
    destruct (drop_delivery self c e p Hc) as [Hcalls Hcomp];
      [by rewrite Hfs|done|].
    subst p'. rewrite Hcalls, Hcomp. clear Hcalls Hcomp.
    rewrite Hfs, Hm. unfold Component.retained. rewrite Hm.
    destruct rest as [|g rest]; [done|].
    cbn [length Nat.ltb Nat.leb negb andb take].
    unfold Component.accepted, Component.rejected; cbn [List.filter].
    destruct (Component.allowedTypes c (File.type f));
      cbn [negb head fmap list_fmap];
      destruct (Component.invalidFileType c), (Component.fileDropped c);
      by repeat split.
  - intros c q Hc Hm q'.
    assert (Addon.drop_completion self e q = returns) as Hr.
    { rewrite (addon_drop_completion_spec self c e q Hc), Hfs, Hm.
      by destruct rest. }
    split; [done|]. subst q'.
    rewrite (addon_drop_files self c e q Hc) by (by rewrite ?Hfs).
    cbn [snd]. unfold addon_retained. rewrite Hfs, Hm.
    destruct rest as [|g rest]; [done|].
    cbn [length Nat.ltb Nat.leb negb andb head option_list List.filter].
    unfold Addon.update, addon_add_calls, Addon.removeData_self_body;
      cbn [Addon.calls Addon.components Addon.set_components Addon.set_data].
    rewrite !lookup_alter_eq, Hc.
    destruct (Addon.allowedTypes c (File.type f)) eqn:Ha;
      destruct (Addon.invalidFileType c);
      cbn; rewrite ?Ha; cbn; rewrite ?app_nil_r; by repeat split.
Qed.

Lemma C4_only_first_file_is_processed_where_drop_returns_witness :
  (let e := Event.make_array Event.drop A [png; gif; txt] in
   let p' := (Component.drop A e (one_target false)).2 in
   Component.calls p' = [fileDropped_called A png] ∧
   Component.file <$> Component.components p' !! A = Some (Some png) ∧
   Component.files <$> Component.components p' !! A = Some None) ∧
  (let e := Event.make Event.drop A [png; gif; txt] in
   let q' := (Addon.drop A e addon_one_target).2 in
   Addon.drop_completion A e addon_one_target = returns ∧
   Addon.calls q' = [fileDropped_called A png] ∧
   Addon.file <$> Addon.components q' !! A = Some (Some png) ∧
   Addon.files <$> Addon.components q' !! A = Some None).
Proof.
  split.
  - destruct (C4_only_first_file_is_processed_where_drop_returns A
                (Event.make_array Event.drop A [png; gif; txt])
                png [gif; txt]) as [Hp _]; [done|done|].
    apply (Hp (target_of_images false) (one_target false)); by vm_compute.
  - destruct (C4_only_first_file_is_processed_where_drop_returns A
                (Event.make Event.drop A [png; gif; txt])
                png [gif; txt]) as [_ Hq]; [done|done|].
    apply (Hq (Addon.create false anything true) addon_one_target);
      by vm_compute.
Defined.

(** C5 as stated fails: an image and a text file dropped on a single-file
    target that takes images only.  The handler returns, and the text
    file, which does not match, is never reported: it was cut off before
    the filter ran.  So it is in the component with hover flags when the
    files come in an array, and in the addon when they come in a
    [FileList]. *)
Lemma C5_truncated_file_not_reported_counterexample :
  (let e := Event.make_array Event.drop A [png; txt] in
   let p' := (Component.drop A e (one_target false)).2 in
   Component.drop_completion A e (one_target false) = returns ∧
   Component.allowedTypes (target_of_images false) (File.type txt) = false ∧
   (invalidFileType_called A txt ∉ Component.calls p') ∧
   Component.calls p' = [fileDropped_called A png]) ∧
  (let e := Event.make Event.drop A [png; txt] in
   let q := Addon.insertElement A (Addon.create false images true)
              (Addon.empty root) in
   let q' := (Addon.drop A e q).2 in
   Addon.drop_completion A e q = returns ∧
   images (File.type txt) = false ∧
   (invalidFileType_called A txt ∉ Addon.calls q') ∧
   Addon.calls q' = [fileDropped_called A png]).
Proof.
  vm_compute. repeat split; try done;
    intros H; apply list_elem_of_singleton in H; discriminate H.
Qed.

(** C5 (type filtering), amended: where the handler of a drop with files
    returns, the filter has run over the files retained after the
    single-file cut (all of them when [allowMultiple] is true or one file
    was dropped, the first one otherwise).  Each retained file whose type
    does not match is reported once to [invalidFileType], when the
    consumer defined it, and the others are still processed; the output
    holds exactly the retained files that match, in list order: as
    [files] when [allowMultiple] is true, and as [file], the one file or
    none, otherwise. *)
Theorem C5_filter_runs_over_retained_files_where_drop_returns self e :
  Event.files e ≠ [] →
  (∀ c p,
     Component.components p !! self = Some c →
     Component.drop_completion self e p = returns →
     let p' := (Component.drop self e p).2 in
     let kept := Component.retained c (Event.files e) in
     (Component.allowMultiple c = true ∨ length (Event.files e) = 1%nat →
      kept = Event.files e) ∧
     (Component.allowMultiple c = false → kept = take 1 (Event.files e)) ∧
     Component.calls p'
     = Component.calls p
       ++ (if Component.invalidFileType c
           then invalidFileType_called self <$> Component.rejected c kept
           else [])
       ++ (if Component.fileDropped c
           then fileDropped_called self <$> Component.accepted c kept
           else []) ∧
     (if Component.allowMultiple c
      then Component.files <$> Component.components p' !! self
           = Some (Some (Component.accepted c kept))
      else Component.file <$> Component.components p' !! self
           = Some (head (Component.accepted c kept)))) ∧
  (∀ c q,
     Addon.components q !! self = Some c →
     Addon.drop_completion self e q = returns →
     let q' := (Addon.drop self e q).2 in
     let kept := addon_retained c (Event.files e) in
     let ok := List.filter (λ f, Addon.allowedTypes c (File.type f)) kept in
     let bad :=
       List.filter (λ f, negb (Addon.allowedTypes c (File.type f))) kept in
     (Addon.allowMultiple c = true ∨ length (Event.files e) = 1%nat →
      kept = Event.files e) ∧
     (Addon.allowMultiple c = false → kept = take 1 (Event.files e)) ∧
     Addon.calls q'
     = Addon.calls q
       ++ (if Addon.invalidFileType c
           then invalidFileType_called self <$> bad else [])
       ++ (fileDropped_called self <$> ok) ∧
     (if Addon.allowMultiple c
      then Addon.files <$> Addon.components q' !! self = Some (Some ok)
      else Addon.file <$> Addon.components q' !! self = Some (head ok))).
Proof.
  intros He. split.
  - intros c p Hc Hr p' kept.
    destruct (drop_delivery self c e p Hc He Hr) as [Hcalls Hcomp].
    subst p' kept. rewrite Hcalls, Hcomp. unfold Component.retained.
    repeat split.
    + intros [->| ->]; [by rewrite andb_false_r|done].
    + intros ->. rewrite andb_true_r.
      destruct (Event.files e) as [|f [|g fs]]; done.
    + by destruct (Component.allowMultiple c).
  - intros c q Hc Hr q' kept ok bad. subst q'.
    rewrite (addon_drop_files self c e q Hc He Hr). cbn [snd].
    fold kept. fold ok. fold bad.
    unfold Addon.update, addon_add_calls, Addon.removeData_self_body;
      cbn [Addon.calls Addon.components Addon.set_components Addon.set_data].
    rewrite !lookup_alter_eq, Hc. subst ok bad kept. unfold addon_retained.
    repeat split.
    + intros [->| ->]; [by rewrite andb_false_r|done].
    + intros ->. rewrite andb_true_r.
      destruct (Event.files e) as [|f [|g fs]]; done.
    + by rewrite <- app_assoc.
    + by destruct (Addon.allowMultiple c).
Qed.

Lemma C5_filter_runs_over_retained_files_where_drop_returns_witness :
  (let e := Event.make Event.drop A [png; txt; gif] in
   let p' := (Component.drop A e (one_target true)).2 in
   Component.calls p' = [invalidFileType_called A txt;
                         fileDropped_called A png; fileDropped_called A gif] ∧
   Component.files <$> Component.components p' !! A = Some (Some [png; gif])) ∧
  (let e := Event.make Event.drop A [txt; png] in
   let q := Addon.insertElement A (Addon.create false images true)
              (Addon.empty root) in
   let q' := (Addon.drop A e q).2 in
   Addon.calls q' = [invalidFileType_called A txt] ∧
   Addon.file <$> Addon.components q' !! A = Some None).
Proof.
  split.
  - destruct (C5_filter_runs_over_retained_files_where_drop_returns A
                (Event.make Event.drop A [png; txt; gif])) as [Hp _]; [done|].
    destruct (Hp (target_of_images true) (one_target true))
      as (_ & _ & Hcalls & Hfiles); [by vm_compute|by vm_compute|].
    split; [exact Hcalls|exact Hfiles].
  - destruct (C5_filter_runs_over_retained_files_where_drop_returns A
                (Event.make Event.drop A [txt; png])) as [_ Hq]; [done|].
    destruct (Hq (Addon.create false images true)
                (Addon.insertElement A (Addon.create false images true)
                   (Addon.empty root)))
      as (_ & _ & Hcalls & Hfile); [by vm_compute|by vm_compute|].
    split; [exact Hcalls|exact Hfile].
Defined.

End DropInBothVariants.

(** ** Drops that end in a [TypeError] *)

Section TypeErrors.

Import Fixtures.

Lemma addon_drop_thrown self c e q :
  Addon.components q !! self = Some c →
  Addon.drop_completion self e q ≠ returns →
  Addon.drop self e q
  = (Event.preventDefault e, Addon.removeData_self_body self "dragCount" q).
Proof.
  intros Hc Hr. by destruct (addon_drop_cases self c e q Hc) as [Hd|[_ Hr']].
Qed.

(** X25 ([drop] on a [FileList] of several files): the handler of the
    component with hover flags throws exactly when the files come in a
    [FileList], there are several of them and [allowMultiple] is false;
    the error is the [TypeError] of the call of [files.slice].  By then
    the clean-up of counters and flags is done and nothing else: no call
    to the consumer is made, and [isDropped], [file] and [files] are as
    they were. *)
Theorem X25_drop_throws_on_a_FileList_of_several_files self c e p :
  Component.components p !! self = Some c →
  (Component.drop_completion self e p ≠ returns
   ↔ (∃ fs, Event.payload e = Files.FileList fs) ∧
     (1 < length (Event.files e))%nat ∧ Component.allowMultiple c = false) ∧
  (Component.drop_completion self e p ≠ returns →
   let p' := (Component.drop self e p).2 in
   Component.drop_completion self e p
   = throws "TypeError: files.slice is not a function" ∧
   p' = Component.cleanUpDragCounters self p ∧
   Component.calls p' = Component.calls p ∧
   Component.isDropped <$> Component.components p' !! self
   = Some (Component.isDropped c) ∧
   Component.file <$> Component.components p' !! self
   = Some (Component.file c) ∧
   Component.files <$> Component.components p' !! self
   = Some (Component.files c)).
Proof.
  intros Hc. split.
  - rewrite (drop_completion_spec self c e p Hc). unfold Event.files.
    destruct (Event.payload e) as [fs|fs]; cbn [Files.items];
      destruct fs as [|f [|g fs]], (Component.allowMultiple c); cbn;
      (split; [intros Hr|intros ((gs & Hgs) & Hn & Hm)]); try done;
      try lia.
    split; [by eexists|]. split; [lia|done].
  - intros Hr p'. subst p'.
    rewrite (drop_thrown self c e p Hc Hr). cbn [snd].
    rewrite lookup_cleanUpDragCounters, Hc. split; [|by repeat split].
    revert Hr. rewrite (drop_completion_spec self c e p Hc).
    by repeat case_match.
Qed.

Lemma X25_drop_throws_on_a_FileList_of_several_files_witness :
  let e := Event.make Event.drop A [png; gif; txt] in
  let p := Component.run [(Event.dragenter, A)] (one_target false) in
  let p' := (Component.drop A e p).2 in
  Component.dragcount p A = 1 ∧
  Component.drop_completion A e p
  = throws "TypeError: files.slice is not a function" ∧
  p' = Component.cleanUpDragCounters A p ∧
  Component.calls p' = [] ∧
  Component.isDropped <$> Component.components p' !! A = Some false ∧
  Component.file <$> Component.components p' !! A = Some None.
Proof.
  split; [by vm_compute|].
  destruct (X25_drop_throws_on_a_FileList_of_several_files A
              (Component.set_isDraggingOver true
                 (Component.set_isDragging true (target_of_images false)))
              (Event.make Event.drop A [png; gif; txt])
              (Component.run [(Event.dragenter, A)] (one_target false)))
    as [Hiff Hthrown]; [by vm_compute|].
  destruct Hthrown as (H1 & H2 & H3 & H4 & H5 & _).
  { apply Hiff. split; [by eexists|]. split; [cbn; lia|done]. }
  split; [exact H1|]. split; [exact H2|]. split; [exact H3|].
  split; [exact H4|exact H5].
Defined.

(** X26 (the addon's [drop] on a [FileList] that it keeps whole): the
    addon's handler throws exactly when the files come in a [FileList],
    there is at least one and the payload is not cut down to its first
    file, that is when [allowMultiple] is true or one file is dropped;
    the error is the [TypeError] of the call of [files.filter].  By then
    [removeData] has run and nothing else: no call is made and [file]
    and [files] are as they were. *)
Theorem X26_addon_drop_throws_on_a_FileList_it_keeps_whole self c e q :
  Addon.components q !! self = Some c →
  (Addon.drop_completion self e q ≠ returns
   ↔ (∃ fs, Event.payload e = Files.FileList fs) ∧
     (Addon.allowMultiple c = true ∧ Event.files e ≠ []
      ∨ length (Event.files e) = 1%nat)) ∧
  (Addon.drop_completion self e q ≠ returns →
   let q' := (Addon.drop self e q).2 in
   Addon.drop_completion self e q
   = throws "TypeError: files.filter is not a function" ∧
   q' = Addon.removeData_self_body self "dragCount" q ∧
   Addon.calls q' = Addon.calls q ∧
   Addon.file <$> Addon.components q' !! self = Some (Addon.file c) ∧
   Addon.files <$> Addon.components q' !! self = Some (Addon.files c)).
Proof.
  intros Hc. split.
  - rewrite (addon_drop_completion_spec self c e q Hc). unfold Event.files.
    destruct (Event.payload e) as [fs|fs]; cbn [Files.items];
      destruct fs as [|f [|g fs]], (Addon.allowMultiple c); cbn;
      (split; [intros Hr|intros ((gs & Hgs) & [[Hm Hn]|Hn])]); try done;
      try (split; [by eexists|]); try (by left); try (by right).
  - intros Hr q'. subst q'.
    rewrite (addon_drop_thrown self c e q Hc Hr). cbn [snd].
    assert (Addon.components (Addon.removeData_self_body self "dragCount" q)
            !! self = Some c) as -> by done.
    split; [|by repeat split].
    revert Hr. rewrite (addon_drop_completion_spec self c e q Hc).
    by repeat case_match.
Qed.

Lemma X26_addon_drop_throws_on_a_FileList_it_keeps_whole_witness :
  let e := Event.make Event.drop A [png] in
  let q' := (Addon.drop A e addon_one_target).2 in
  Addon.drop_completion A e addon_one_target
  = throws "TypeError: files.filter is not a function" ∧
  q' = Addon.removeData_self_body A "dragCount" addon_one_target ∧
  Addon.calls q' = [] ∧
  Addon.file <$> Addon.components q' !! A = Some None.
Proof.
  destruct (X26_addon_drop_throws_on_a_FileList_it_keeps_whole A
              (Addon.create false anything true)
              (Event.make Event.drop A [png]) addon_one_target)
    as [Hiff Hthrown]; [by vm_compute|].
  destruct Hthrown as (H1 & H2 & H3 & H4 & _).
  { apply Hiff. split; [by eexists|]. by right. }
  split; [exact H1|]. split; [exact H2|]. split; [exact H3|exact H4].
Defined.

End TypeErrors.
